(** * snescon_gpio_rpi: NES / SNES gamepad driver for the Raspberry Pi

    A shallow embedding of [src/drivers/snescon_gpio_rpi/snescon_gpio_rpi.c]
    and the properties of its capture, decode and reconfiguration logic.

    Conventions.
    - [unsigned int] is a [Z] in [0, 2^32); [unsigned char] is a [Z] in
      [0, 2^8).  Conversions that the C code performs implicitly (argument
      passing to a narrower parameter, assignment to a narrower field) are
      written out with [to_uint] and [to_uchar].
    - The GPIO controller is a state: the level register is volatile, so its
      value at the k-th read is given by a function of k; every register
      write and every busy-wait is appended to a trace.
    - The input subsystem is a log: every [input_report_key],
      [input_report_abs] and [input_sync] call is appended to it together
      with the index of the [cfg->pad] entry it was called on. *)

From Stdlib Require Import ZArith List Bool Lia.
Import ListNotations.
Open Scope Z_scope.

(** ** Machine integers *)

Definition to_uint (z : Z) : Z := z mod 2 ^ 32.
Definition to_uchar (z : Z) : Z := z mod 2 ^ 8.

(** C truth value of an integer, and the C operator [!]. *)
Definition truthy (z : Z) : bool := negb (z =? 0).
Definition lnot (z : Z) : Z := if z =? 0 then 1 else 0.

(** Array read [a[i]] on a [Z]-indexed C array of integers.  The arrays of
    the driver are static and zero-initialised; an index outside the list
    reads 0. *)
Definition idx (a : list Z) (i : Z) : Z :=
  if i <? 0 then 0 else nth (Z.to_nat i) a 0.

(** Array write [a[i] = v]; an index outside the list leaves it alone. *)
Fixpoint set_nth {A} (a : list A) (i : nat) (v : A) : list A :=
  match a, i with
  | [], _ => []
  | _ :: t, O => v :: t
  | h :: t, S i' => h :: set_nth t i' v
  end.

(** ** Small state monad, shared by the GPIO and the input side *)

Definition State (St A : Type) : Type := St -> A * St.

Definition ret {St A} (a : A) : State St A := fun s => (a, s).
Definition bind {St A B} (m : State St A) (k : A -> State St B) : State St B :=
  fun s => let (a, s') := m s in k a s'.

Declare Scope state_scope.
Delimit Scope state_scope with state.
Notation "x <- m ;; k" := (bind m (fun x => k))
  (at level 61, m at next level, right associativity) : state_scope.
Notation "m ;; k" := (bind m (fun _ => k))
  (at level 61, right associativity) : state_scope.
Open Scope state_scope.

(** [for (i = from; i < from + count; i++) body(i)] *)
Fixpoint for_ {St} (from : Z) (count : nat) (body : Z -> State St unit)
  : State St unit :=
  match count with
  | O => ret tt
  | S n => body from ;; for_ (from + 1) n body
  end.

(** The same loop threading a local variable through its iterations. *)
Fixpoint for_acc {St A} (from : nat) (count : nat) (acc : A)
         (body : nat -> A -> State St A) : State St A :=
  match count with
  | O => ret acc
  | S n => acc' <- body from acc ;; for_acc (S from) n acc' body
  end.

(** ** GPIO *)

Module Gpio.

(** What the driver does to the GPIO controller, in program order. *)
Inductive op : Type :=
| Set_ (mask : Z)      (* GPIO_SET = mask *)
| Clr (mask : Z)       (* GPIO_CLR = mask *)
| ReadAll              (* read of the level register, gpio + 13 *)
| Udelay (usec : Z).   (* busy-wait *)

Record hw : Type := {
  lev : nat -> Z;      (* level register at the k-th read *)
  reads : nat;         (* reads done so far *)
  trace : list op      (* operations done so far, oldest first *)
}.

Definition emit (o : op) : State hw unit :=
  fun h => (tt, {| lev := lev h; reads := reads h; trace := trace h ++ [o] |}).

Definition gpio_set (g_bit : Z) : State hw unit := emit (Set_ g_bit).
Definition gpio_clear (g_bit : Z) : State hw unit := emit (Clr g_bit).
Definition udelay (usec : Z) : State hw unit := emit (Udelay usec).

(** [return ~( *(gpio + 13))] on 32 bits. *)
Definition gpio_read_all : State hw Z :=
  fun h => (to_uint (Z.lnot (lev h (reads h))),
            {| lev := lev h; reads := S (reads h);
               trace := trace h ++ [ReadAll] |}).

(** All valid GPIOs found on the Raspberry Pi P1 header. *)
Definition all_valid_gpio : list Z :=
  [0; 1; 2; 3; 4; 5; 6; 7; 8; 9; 10; 11; 12; 13; 14; 15; 16; 17; 18; 19;
   20; 21; 22; 23; 24; 25; 26; 27].

(** The search loop of [gpio_valid] over the table. *)
Fixpoint gpio_valid_from (g_id : Z) (table : list Z) : Z :=
  match table with
  | [] => 0
  | v :: rest => if g_id =? v then 1 else gpio_valid_from g_id rest
  end.

(** [gpio_valid(unsigned char g_id)]; [g_id] is the value of the parameter,
    0 to 255: a caller with a wider argument cuts it down with [to_uchar]. *)
Definition gpio_valid (g_id : Z) : Z := gpio_valid_from g_id all_valid_gpio.

(** [gpio_list_valid(unsigned int *list, unsigned char len)]: [list[i]] is
    an [unsigned int] handed to the [unsigned char] parameter of
    [gpio_valid].  [len] is the value of the parameter, 0 to 255: a caller
    with a wider argument cuts it down with [to_uchar]. *)
Fixpoint gpio_list_valid_from (list : list Z) (i : Z) (count : nat) : Z :=
  match count with
  | O => 1
  | S n =>
      if lnot (gpio_valid (to_uchar (idx list i))) =? 0
      then gpio_list_valid_from list (i + 1) n
      else 0
  end.

Definition gpio_list_valid (list : list Z) (len : Z) : Z :=
  gpio_list_valid_from list 0 (Z.to_nat len).

(** [gpio_get_bit(unsigned char g_id)]: [1 << g_id], returned as
    [unsigned int]. *)
Definition gpio_get_bit (g_id : Z) : Z := to_uint (Z.shiftl 1 g_id).

End Gpio.

(** ** Input subsystem *)

Module Input.

Inductive btn : Type :=
| BTN_A | BTN_B | BTN_X | BTN_Y | BTN_SELECT | BTN_START | BTN_TL | BTN_TR.

Inductive abs_axis : Type := ABS_X | ABS_Y.

(** A [struct input_dev *] as the driver holds it in [cfg->pad]: null, the
    device registered as "input_<n>", or whatever lies at offset [i]
    outside the array. *)
Inductive dev_ptr : Type :=
| NULL
| input_dev (n : Z)
| stray (i : Z).

(** One call into the input subsystem.  [Key] keeps the value argument as
    the driver computed it; the kernel reports the key as pressed exactly
    when that value is not zero. *)
Inductive event : Type :=
| Key (dev : dev_ptr) (code : btn) (value : Z)
| Abs (dev : dev_ptr) (code : abs_axis) (value : Z)
| Sync (dev : dev_ptr).

Definition log : Type := list event.

Definition emit (e : event) : State log unit := fun l => (tt, l ++ [e]).

Definition input_report_key (dev : dev_ptr) (code : btn) (value : Z)
  : State log unit := emit (Key dev code value).
Definition input_report_abs (dev : dev_ptr) (code : abs_axis) (value : Z)
  : State log unit := emit (Abs dev code value).
Definition input_sync (dev : dev_ptr) : State log unit := emit (Sync dev).

Definition pressed (value : Z) : bool := truthy value.

End Input.

Import Input.

(** ** Pads *)

Definition DELAY : Z := 6.
Definition BUFFER_SIZE : nat := 24.
Definition BITS_LENGTH : nat := 24.
Definition MAX_NUMBER_OF_GPIOS : Z := 7.
Definition MIN_NUMBER_OF_GPIOS : Z := 3.
Definition NUMBER_OF_INPUT_DEVICES : Z := 5.

(** [struct pads_config], without the device name and the open / close
    callbacks. *)
Record pads_config : Type := {
  gpio : list Z;               (* unsigned int gpio[MAX_NUMBER_OF_GPIOS] *)
  pad : list dev_ptr;          (* struct input_dev *pad[NUMBER_OF_INPUT_DEVICES] *)
  n_pads : Z;                  (* unsigned char *)
  n_pad_gpios : Z;             (* unsigned char *)
  player_mode : Z;             (* unsigned char *)
  fourscore_enabled : bool
}.

(** [cfg->player_mode = m]; both values the driver ever assigns (4 and
    [cfg->n_pad_gpios]) already are [unsigned char]. *)
Definition set_player_mode (c : pads_config) (m : Z) : pads_config :=
  {| gpio := gpio c; pad := pad c; n_pads := n_pads c;
     n_pad_gpios := n_pad_gpios c; player_mode := m;
     fourscore_enabled := fourscore_enabled c |}.

(** [cfg->pad[i]] *)
Definition pad_at (c : pads_config) (i : Z) : dev_ptr :=
  if i <? 0 then stray i else nth (Z.to_nat i) (pad c) (stray i).

(** Buttons found on the NES and SNES gamepad. *)
Definition nes_btn_label : list btn :=
  [BTN_A; BTN_B; BTN_SELECT; BTN_START; BTN_X; BTN_Y; BTN_TL; BTN_TR].
Definition snes_btn_label : list btn :=
  [BTN_B; BTN_Y; BTN_SELECT; BTN_START; BTN_A; BTN_X; BTN_TL; BTN_TR].

(** The order that the buttons of the SNES gamepad are stored in the byte
    string. *)
Definition btn_index : list Z := [0; 1; 2; 3; 8; 9; 10; 11].

(** [table[j]] for the two label tables; [j] stays within 0..7. *)
Definition label (table : list btn) (j : Z) : btn :=
  nth (Z.to_nat j) table BTN_A.

(** [pads_read]: the frame is written cell by cell into the caller's
    [data[BUFFER_SIZE]] array. *)
Definition pads_read (cfg : pads_config) : State Gpio.hw (list Z) :=
  let clk := idx (gpio cfg) 0 in
  let latch := idx (gpio cfg) 1 in
  Gpio.gpio_set (Z.lor clk latch) ;;
  Gpio.udelay (DELAY * 2) ;;
  Gpio.gpio_clear latch ;;
  for_acc 0 BITS_LENGTH (repeat 0 BUFFER_SIZE) (fun i data =>
    Gpio.udelay DELAY ;;
    Gpio.gpio_clear clk ;;
    v <- Gpio.gpio_read_all ;;
    Gpio.udelay DELAY ;;
    Gpio.gpio_set clk ;;
    ret (set_nth data i v)).

(** [fourscore_connected] *)
Definition fourscore_connected (cfg : pads_config) (data : list Z) : bool :=
  let g2 := idx (gpio cfg) 2 in
  let g3 := idx (gpio cfg) 3 in
  let d k := idx data k in
  negb (truthy (Z.land g2 (d 16))) && negb (truthy (Z.land g3 (d 16))) &&
  negb (truthy (Z.land g2 (d 17))) && negb (truthy (Z.land g3 (d 17))) &&
  negb (truthy (Z.land g2 (d 18))) &&       truthy (Z.land g3 (d 18))  &&
        truthy (Z.land g2 (d 19))  && negb (truthy (Z.land g3 (d 19))) &&
  negb (truthy (Z.land g2 (d 20))) && negb (truthy (Z.land g3 (d 20))) &&
  negb (truthy (Z.land g2 (d 21))) && negb (truthy (Z.land g3 (d 21))) &&
  negb (truthy (Z.land g2 (d 22))) && negb (truthy (Z.land g3 (d 22))) &&
  negb (truthy (Z.land g2 (d 23))) && negb (truthy (Z.land g3 (d 23))).

(** [pads_clear(cfg, unsigned char n_devs)] *)
Definition pads_clear (cfg : pads_config) (n_devs : Z) : State log unit :=
  for_ 0 (Z.to_nat n_devs) (fun i =>
    let dev := pad_at cfg ((n_pads cfg - 1) - i) in
    for_ 0 8 (fun j => input_report_key dev (label snes_btn_label j) 0) ;;
    input_report_abs dev ABS_X 0 ;;
    input_report_abs dev ABS_Y 0 ;;
    input_sync dev).

(** The test of the [if] in [pads_update]. *)
Definition fourscore_active (cfg : pads_config) (data : list Z) : bool :=
  fourscore_enabled cfg && fourscore_connected cfg data.

(** First branch of [pads_update]: NES FourScore. *)
Definition pads_update_fourscore (cfg : pads_config) (data : list Z)
  : State log pads_config :=
  (* Player 1 and 2 *)
  for_ 0 2 (fun i =>
    let dev := pad_at cfg i in
    let g := idx (gpio cfg) (i + 2) in
    for_ 0 4 (fun j =>
      input_report_key dev (label nes_btn_label j)
                       (Z.land g (idx data (idx btn_index j)))) ;;
    input_report_abs dev ABS_X
      (lnot (Z.land g (idx data 6)) - lnot (Z.land g (idx data 7))) ;;
    input_report_abs dev ABS_Y
      (lnot (Z.land g (idx data 4)) - lnot (Z.land g (idx data 5))) ;;
    input_sync dev) ;;
  (* Player 3 and 4 *)
  for_ 2 2 (fun i =>
    let dev := pad_at cfg i in
    let g := idx (gpio cfg) i in
    for_ 0 4 (fun j =>
      input_report_key dev (label nes_btn_label j)
                       (Z.land g (idx data (idx btn_index j + 8)))) ;;
    input_report_abs dev ABS_X
      (lnot (Z.land g (idx data 14)) - lnot (Z.land g (idx data 15))) ;;
    input_report_abs dev ABS_Y
      (lnot (Z.land g (idx data 12)) - lnot (Z.land g (idx data 13))) ;;
    input_sync dev) ;;
  if player_mode cfg >? 4 then
    let cfg' := set_player_mode cfg 4 in
    pads_clear cfg' 1 ;;
    ret cfg'
  else if player_mode cfg <? 4 then
    ret (set_player_mode cfg 4)
  else
    ret cfg.

(** Body of the "update all gamepads" loop of [pads_update]. *)
Definition pads_update_pad (cfg : pads_config) (data : list Z) (i : Z)
  : State log unit :=
  let dev := pad_at cfg i in
  let g := idx (gpio cfg) (i + 2) in
  if Z.land g (idx data 16) =? 1 then
    (* SNES gamepad *)
    for_ 0 8 (fun j =>
      input_report_key dev (label snes_btn_label j)
                       (Z.land g (idx data (idx btn_index j)))) ;;
    input_report_abs dev ABS_X
      (lnot (Z.land g (idx data 6)) - lnot (Z.land g (idx data 7))) ;;
    input_report_abs dev ABS_Y
      (lnot (Z.land g (idx data 4)) - lnot (Z.land g (idx data 5))) ;;
    input_sync dev
  else
    (* NES gamepad *)
    for_ 0 4 (fun j =>
      input_report_key dev (label nes_btn_label j)
                       (Z.land g (idx data (idx btn_index j)))) ;;
    for_ 4 4 (fun j => input_report_key dev (label nes_btn_label j) 0) ;;
    input_report_abs dev ABS_X
      (lnot (Z.land g (idx data 6)) - lnot (Z.land g (idx data 7))) ;;
    input_report_abs dev ABS_Y
      (lnot (Z.land g (idx data 4)) - lnot (Z.land g (idx data 5))) ;;
    input_sync dev.

(** Second branch of [pads_update]: one gamepad per data line. *)
Definition pads_update_multiplexed (cfg : pads_config) (data : list Z)
  : State log pads_config :=
  for_ 0 (Z.to_nat (n_pad_gpios cfg)) (pads_update_pad cfg data) ;;
  if player_mode cfg >? n_pad_gpios cfg then
    let cfg' := set_player_mode cfg (n_pad_gpios cfg) in
    pads_clear cfg' (to_uchar (n_pads cfg' - n_pad_gpios cfg')) ;;
    ret cfg'
  else
    ret cfg.

(** [pads_update] from the frame on. *)
Definition pads_dispatch (cfg : pads_config) (data : list Z)
  : State log pads_config :=
  if fourscore_active cfg data
  then pads_update_fourscore cfg data
  else pads_update_multiplexed cfg data.

(** The driver's view of the outside: GPIO controller and input subsystem. *)
Record world : Type := {
  hw : Gpio.hw;
  events : log
}.

Definition on_hw {A} (m : State Gpio.hw A) : State world A :=
  fun w => let (a, h) := m (hw w) in (a, {| hw := h; events := events w |}).
Definition on_input {A} (m : State log A) : State world A :=
  fun w => let (a, l) := m (events w) in (a, {| hw := hw w; events := l |}).

(** [pads_update] *)
Definition pads_update (cfg : pads_config) : State world pads_config :=
  data <- on_hw (pads_read cfg) ;;
  on_input (pads_dispatch cfg data).

(** ** Module initialisation *)

Definition EINVAL : Z := 22.
Definition EBUSY : Z := 16.
Definition ENOMEM : Z := 12.

(** The kernel services [snescon_init] relies on and that may fail: the
    result of [ioremap], and, for the pad being set up, of
    [input_allocate_device], [kzalloc] and [input_register_device]. *)
Record kernel : Type := {
  ioremap_ok : bool;
  input_allocate_device_ok : Z -> bool;
  kzalloc_ok : Z -> bool;
  input_register_device : Z -> Z
}.

(** [struct snescon_config], without timer, mutex and usage counter. *)
Record snescon_config : Type := {
  pads_cfg : pads_config;
  gpio_id : list Z;            (* unsigned int gpio_id[MAX_NUMBER_OF_GPIOS] *)
  gpio_id_cnt : Z              (* unsigned int *)
}.

(** The loop of [pads_setup]:
    [for (i = 0; (i < cfg->n_pads) && (status == 0); ++i)]. *)
Fixpoint pads_setup_from (k : kernel) (i : Z) (count : nat)
         (pads : list dev_ptr) (status : Z) : list dev_ptr * Z :=
  match count with
  | O => (pads, status)
  | S n =>
      if status =? 0 then
        (* cfg->pad[i] = input_allocate_device() *)
        let '(pads1, status1) :=
          if input_allocate_device_ok k i
          then (set_nth pads (Z.to_nat i) (input_dev i), status)
          else (set_nth pads (Z.to_nat i) NULL, - ENOMEM) in
        (* memory for the name *)
        let status2 :=
          if status1 =? 0
          then (if kzalloc_ok k i then status1 else - ENOMEM)
          else status1 in
        (* configuration and registration *)
        let '(pads3, status3) :=
          if status2 =? 0 then
            let r := input_register_device k i in
            if negb (r =? 0)
            then (set_nth pads1 (Z.to_nat i) NULL, r)
            else (pads1, r)
          else (pads1, status2) in
        pads_setup_from k (i + 1) n pads3 status3
      else (pads, status)
  end.

(** [pads_setup]; the final [pads_setup_gpio] only programs the direction
    and pull-up registers and is left out. *)
Definition pads_setup (k : kernel) (cfg : pads_config) : pads_config * Z :=
  let '(pads, status) :=
    pads_setup_from k 0 (Z.to_nat (n_pads cfg)) (pad cfg) 0 in
  ({| gpio := gpio cfg; pad := pads; n_pads := n_pads cfg;
      n_pad_gpios := n_pad_gpios cfg; player_mode := player_mode cfg;
      fourscore_enabled := fourscore_enabled cfg |}, status).

(** [for (i = 0; i < gpio_id_cnt; ++i) gpio[i] = gpio_get_bit(gpio_id[i])];
    [gpio_id[i]] is an [unsigned int] handed to an [unsigned char]
    parameter. *)
Fixpoint fill_gpio (ids : list Z) (i : Z) (count : nat) (g : list Z) : list Z :=
  match count with
  | O => g
  | S n =>
      fill_gpio ids (i + 1) n
        (set_nth g (Z.to_nat i) (Gpio.gpio_get_bit (to_uchar (idx ids i))))
  end.

(** The four checks at the head of [snescon_init]: 0, or the negative
    error the function returns at once. *)
Definition snescon_init_check (sc : snescon_config) : Z :=
  let cnt := gpio_id_cnt sc in
  let fourscore := fourscore_enabled (pads_cfg sc) in
  if cnt <? MIN_NUMBER_OF_GPIOS then - EINVAL
  else if cnt >? MAX_NUMBER_OF_GPIOS then - EINVAL
  else if fourscore && (cnt <? MIN_NUMBER_OF_GPIOS + 1) then - EINVAL
  else if lnot (Gpio.gpio_list_valid (gpio_id sc) (to_uchar cnt)) =? 1
       then - EINVAL
  else 0.

(** [snescon_init]: the status it returns and the configuration it leaves
    behind.  The timer that runs [pads_update] is set up only on the path
    that returns 0. *)
Definition snescon_init (k : kernel) (sc : snescon_config)
  : Z * snescon_config :=
  let cnt := gpio_id_cnt sc in
  let cfg := pads_cfg sc in
  let status := snescon_init_check sc in
  if negb (status =? 0) then (status, sc)
  else
    let n_pads' :=
      if fourscore_enabled cfg && (cnt <? 4) then 4 else to_uchar (cnt - 2) in
    let n_pad_gpios' := to_uchar (cnt - 2) in
    let cfg1 :=
      {| gpio := fill_gpio (gpio_id sc) 0 (Z.to_nat cnt) (gpio cfg);
         pad := pad cfg; n_pads := n_pads'; n_pad_gpios := n_pad_gpios';
         player_mode := player_mode cfg;
         fourscore_enabled := fourscore_enabled cfg |} in
    let sc1 := {| pads_cfg := cfg1; gpio_id := gpio_id sc;
                  gpio_id_cnt := cnt |} in
    if negb (ioremap_ok k) then (- EBUSY, sc1)
    else
      let '(cfg2, status2) := pads_setup k cfg1 in
      let sc2 := {| pads_cfg := cfg2; gpio_id := gpio_id sc;
                    gpio_id_cnt := cnt |} in
      if negb (status2 =? 0) then (status2, sc2)
      else (0, sc2).

(** The module's static [snescon_config] before any parameter is applied. *)
Definition snescon_config_default : snescon_config :=
  {| pads_cfg := {| gpio := repeat 0 7; pad := repeat NULL 5;
                    n_pads := 0; n_pad_gpios := 0; player_mode := 0;
                    fourscore_enabled := false |};
     gpio_id := [2; 3; 4; 7; 9; 10; 11];
     gpio_id_cnt := MAX_NUMBER_OF_GPIOS |}.

(** Module parameters [gpio=...] and [fourscore=...] as the kernel applies
    them: the values given replace the head of [gpio_id] and their number
    goes to [gpio_id_cnt]. *)
Definition with_params (ids : list Z) (fourscore : bool) : snescon_config :=
  let d := snescon_config_default in
  {| pads_cfg := {| gpio := gpio (pads_cfg d); pad := pad (pads_cfg d);
                    n_pads := 0; n_pad_gpios := 0; player_mode := 0;
                    fourscore_enabled := fourscore |};
     gpio_id := ids ++ skipn (length ids) (gpio_id d);
     gpio_id_cnt := Z.of_nat (length ids) |}.

(** A kernel in which nothing fails. *)
Definition kernel_ok : kernel :=
  {| ioremap_ok := true;
     input_allocate_device_ok := fun _ => true;
     kzalloc_ok := fun _ => true;
     input_register_device := fun _ => 0 |}.

(** ** Running the model *)

Definition exec {St A} (m : State St A) (s : St) : St := snd (m s).
Definition eval {St A} (m : State St A) (s : St) : A := fst (m s).

(** The input calls a computation makes, whatever happened before. *)
Definition calls {A} (m : State log A) : list event := exec m [].

(** ** Reports and sample inputs *)

(** What [pads_update] computes for the two axes of a gamepad on mask [g]. *)
Definition axis_x (g : Z) (data : list Z) : Z :=
  lnot (Z.land g (idx data 6)) - lnot (Z.land g (idx data 7)).
Definition axis_y (g : Z) (data : list Z) : Z :=
  lnot (Z.land g (idx data 4)) - lnot (Z.land g (idx data 5)).

(** The pin on mask [g] reads as set in sample [k] of the frame. *)
Definition bit_set (g : Z) (data : list Z) (k : Z) : bool :=
  truthy (Z.land g (idx data k)).

(** The all-zero report [pads_clear] sends to one device. *)
Definition zero_report (dev : dev_ptr) : list event :=
  [Key dev BTN_B 0; Key dev BTN_Y 0; Key dev BTN_SELECT 0; Key dev BTN_START 0;
   Key dev BTN_A 0; Key dev BTN_X 0; Key dev BTN_TL 0; Key dev BTN_TR 0;
   Abs dev ABS_X 0; Abs dev ABS_Y 0; Sync dev].

(** A frame that is 0 everywhere but in the listed cells. *)
Fixpoint frame_with (cells : list (nat * Z)) : list Z :=
  match cells with
  | [] => repeat 0 BUFFER_SIZE
  | (i, v) :: rest => set_nth (frame_with rest) i v
  end.

(** The driver loaded without parameters: GPIOs 2, 3, 4, 7, 9, 10, 11. *)
Definition cfg_default : pads_config :=
  pads_cfg (snd (snescon_init kernel_ok snescon_config_default)).

(** The driver loaded with [gpio=ids fourscore=1]. *)
Definition cfg_fourscore (ids : list Z) : pads_config :=
  pads_cfg (snd (snescon_init kernel_ok (with_params ids true))).

(** Pad 1 sits on GPIO 4, mask 16.  A frame in which that line reads as set
    in samples 1, 8, 9 and 16. *)
Definition frame_snes_on_gpio4 : list Z :=
  frame_with [(1%nat, 16); (8%nat, 16); (9%nat, 16); (16%nat, 16)].

(** A frame in which the line of pad 1 reads as set in samples 5 and 7
    only. *)
Definition frame_bits_5_7_on_gpio4 : list Z :=
  frame_with [(5%nat, 16); (7%nat, 16)].

(** The FourScore signature on GPIO 4 (mask 16, sample 19) and GPIO 7
    (mask 128, sample 18). *)
Definition frame_fourscore : list Z :=
  frame_with [(18%nat, 128); (19%nat, 16)].

(** Nothing pressed, nothing connected. *)
Definition frame_idle : list Z := frame_with [].

(** The signature [fourscore_connected] looks for, written as a table: what
    the line [cfg->gpio[line]] has to read in sample [k]. *)
Definition signature_bit (line k : Z) : bool :=
  ((line =? 3) && (k =? 18)) || ((line =? 2) && (k =? 19)).

Definition signature_matches (cfg : pads_config) (data : list Z) : Prop :=
  forall line k,
    line = 2 \/ line = 3 -> 16 <= k <= 23 ->
    bit_set (idx (gpio cfg) line) data k = signature_bit line k.

(** A GPIO controller that will show the given frames to the next polls and
    idle lines afterwards.  [gpio_read_all] negates what it reads. *)
Definition hw_showing (frames : list (list Z)) : Gpio.hw :=
  {| Gpio.lev := fun k => to_uint (Z.lnot (nth k (concat frames) 0));
     Gpio.reads := 0;
     Gpio.trace := [] |}.

Definition world_showing (frames : list (list Z)) : world :=
  {| hw := hw_showing frames; events := [] |}.


(** The report the FourScore branch sends for one player: [g] is the mask of
    the line, [off] is 0 for players 1 and 2 and 8 for players 3 and 4. *)
Definition fourscore_report (dev : dev_ptr) (g : Z) (data : list Z) (off : Z)
  : list event :=
  [Key dev BTN_A (Z.land g (idx data (0 + off)));
   Key dev BTN_B (Z.land g (idx data (1 + off)));
   Key dev BTN_SELECT (Z.land g (idx data (2 + off)));
   Key dev BTN_START (Z.land g (idx data (3 + off)));
   Abs dev ABS_X (lnot (Z.land g (idx data (6 + off)))
                  - lnot (Z.land g (idx data (7 + off))));
   Abs dev ABS_Y (lnot (Z.land g (idx data (4 + off)))
                  - lnot (Z.land g (idx data (5 + off))));
   Sync dev].

(** [m] appends its calls to the log and its result does not depend on what
    was logged before. *)
Definition appends {A} (m : State log A) : Prop :=
  forall l, m l = (eval m [], l ++ calls m).

(** ** The rest of the GPIO layer *)

(** [gpio_read(unsigned int g_bit)]: the masked level register, returned as
    [unsigned char]. *)
Definition gpio_read (g_bit : Z) : State Gpio.hw Z :=
  fun h =>
    (to_uchar (Z.land g_bit (Gpio.lev h (Gpio.reads h))),
     {| Gpio.lev := Gpio.lev h; Gpio.reads := S (Gpio.reads h);
        Gpio.trace := Gpio.trace h ++ [Gpio.ReadAll] |}).

(** The output latch as the comments on [GPIO_SET] and [GPIO_CLR] describe
    it: a write to the first sets the bits that are 1, a write to the second
    clears them, and neither touches the bits that are 0. *)
Definition out_step (out : Z) (o : Gpio.op) : Z :=
  match o with
  | Gpio.Set_ mask => Z.lor out mask
  | Gpio.Clr mask => Z.land out (Z.lnot mask)
  | Gpio.ReadAll => out
  | Gpio.Udelay _ => out
  end.

(** The output latch after a run of operations. *)
Definition out_after (out : Z) (ops : list Gpio.op) : Z :=
  fold_left out_step ops out.

(** The output latch at each read of the level register, in order. *)
Fixpoint out_at_reads (out : Z) (ops : list Gpio.op) : list Z :=
  match ops with
  | [] => []
  | Gpio.ReadAll :: rest => out :: out_at_reads out rest
  | o :: rest => out_at_reads (out_step out o) rest
  end.

(** The operations [pads_read] adds to the trace. *)
Definition pads_read_ops (cfg : pads_config) (h : Gpio.hw) : list Gpio.op :=
  skipn (length (Gpio.trace h)) (Gpio.trace (exec (pads_read cfg) h)).

(** The registers behind [gpio]: words of 32 bits at word offsets, with the
    stores and busy-waits in program order. *)
Module Mmio.

Inductive op : Type :=
| Store (offset value : Z)
| Delay (usec : Z).

Record mem : Type := {
  word : Z -> Z;
  ops : list op
}.

(** [*(gpio + offset)] read *)
Definition load (offset : Z) : State mem Z := fun m => (word m offset, m).

(** [*(gpio + offset) = value] *)
Definition store (offset value : Z) : State mem unit :=
  fun m =>
    (tt, {| word := fun o => if o =? offset then to_uint value else word m o;
            ops := ops m ++ [Store offset value] |}).

Definition udelay (usec : Z) : State mem unit :=
  fun m => (tt, {| word := word m; ops := ops m ++ [Delay usec] |}).

(** [INP_GPIO(g)]: [*(gpio+((g)/10)) &= ~(7<<(((g)%10)*3))] *)
Definition INP_GPIO (g : Z) : State mem unit :=
  v <- load (g / 10) ;;
  store (g / 10) (Z.land v (to_uint (Z.lnot (Z.shiftl 7 ((g mod 10) * 3))))).

(** [OUT_GPIO(g)]: [*(gpio+((g)/10)) |= (1<<(((g)%10)*3))] *)
Definition OUT_GPIO (g : Z) : State mem unit :=
  v <- load (g / 10) ;;
  store (g / 10) (Z.lor v (Z.shiftl 1 ((g mod 10) * 3))).

Definition gpio_input (g_bit : Z) : State mem unit := INP_GPIO g_bit.
Definition gpio_output (g_bit : Z) : State mem unit := OUT_GPIO g_bit.

(** [gpio_enable_pull_up] *)
Definition gpio_enable_pull_up (g_bit : Z) : State mem unit :=
  store 37 2 ;;
  udelay 10 ;;
  store 38 g_bit ;;
  udelay 10 ;;
  store 37 0 ;;
  store 38 0.

(** The three function-select bits of pin [g]: 0 is input, 1 is output. *)
Definition fsel (m : mem) (g : Z) : Z :=
  Z.land (Z.shiftr (word m (g / 10)) ((g mod 10) * 3)) 7.

(** Words that [gpio_init] maps: [ioremap(GPIO_BASE, 0xB0)]. *)
Definition MAPPED_WORDS : Z := 176 / 4.

(** The word offsets a run of operations stores to. *)
Fixpoint store_offsets (l : list op) : list Z :=
  match l with
  | [] => []
  | Store offset _ :: rest => offset :: store_offsets rest
  | Delay _ :: rest => store_offsets rest
  end.

End Mmio.

(** [pads_setup_gpio]: each [cfg->gpio[i]] goes, through [int bit], to
    [gpio_output], [gpio_input] and [gpio_enable_pull_up]. *)
Definition pads_setup_gpio (cfg : pads_config) : State Mmio.mem unit :=
  (* clk and latch *)
  for_ 0 2 (fun i => Mmio.gpio_output (idx (gpio cfg) i)) ;;
  (* port1_d0, port2_d0, port2_d1 *)
  for_ 2 3 (fun i =>
    Mmio.gpio_input (idx (gpio cfg) i) ;;
    Mmio.gpio_enable_pull_up (idx (gpio cfg) i)) ;;
  (* port1_pp *)
  Mmio.gpio_input (idx (gpio cfg) 5).

(** ** Removal of the pads *)

(** What [pads_remove] asks of the kernel. *)
Inductive kcall : Type :=
| Unregister (dev : dev_ptr)   (* input_unregister_device(dev) *)
| Kfree_phys (dev : dev_ptr).  (* kfree of the name of dev *)

(** The loop of [pads_remove]: [for (i = 0; i < cfg->n_pads; i++)]. *)
Fixpoint pads_remove_from (i : Z) (count : nat) (pads : list dev_ptr)
         (done : list kcall) : list dev_ptr * list kcall :=
  match count with
  | O => (pads, done)
  | S n =>
      let dev := if i <? 0 then stray i else nth (Z.to_nat i) pads (stray i) in
      match dev with
      | NULL => pads_remove_from (i + 1) n pads done
      | _ =>
          pads_remove_from (i + 1) n (set_nth pads (Z.to_nat i) NULL)
                           (done ++ [Unregister dev; Kfree_phys dev])
      end
  end.

(** [pads_remove] *)
Definition pads_remove (cfg : pads_config) : pads_config * list kcall :=
  let '(pads, done) :=
    pads_remove_from 0 (Z.to_nat (n_pads cfg)) (pad cfg) [] in
  ({| gpio := gpio cfg; pad := pads; n_pads := n_pads cfg;
      n_pad_gpios := n_pad_gpios cfg; player_mode := player_mode cfg;
      fourscore_enabled := fourscore_enabled cfg |}, done).

(** ** Open, close and the timer *)

(** [int] with the wrap-around the kernel is compiled for. *)
Definition to_int (z : Z) : Z := (z + 2 ^ 31) mod 2 ^ 32 - 2 ^ 31.

Inductive timer_op : Type :=
| Mod_timer          (* mod_timer(&cfg->timer, jiffies + REFRESH_TIME) *)
| Del_timer_sync.    (* del_timer_sync(&cfg->timer) *)

(** The part of [struct snescon_config] the mutex guards: the usage counter
    and the timer. *)
Record usage : Type := {
  snescon_usage_cnt : Z;       (* int *)
  timer_pending : bool;
  timer_ops : list timer_op
}.

(** [snescon_open]; [lock] is what [mutex_lock_interruptible] returns. *)
Definition snescon_open (lock : Z) (u : usage) : Z * usage :=
  if negb (lock =? 0) then (lock, u)
  else
    let cnt := to_int (snescon_usage_cnt u + 1) in
    if cnt >? 0
    then (0, {| snescon_usage_cnt := cnt; timer_pending := true;
                timer_ops := timer_ops u ++ [Mod_timer] |})
    else (0, {| snescon_usage_cnt := cnt; timer_pending := timer_pending u;
                timer_ops := timer_ops u |}).

(** [snescon_close] *)
Definition snescon_close (u : usage) : usage :=
  let cnt := to_int (snescon_usage_cnt u - 1) in
  if cnt <=? 0
  then {| snescon_usage_cnt := cnt; timer_pending := false;
          timer_ops := timer_ops u ++ [Del_timer_sync] |}
  else {| snescon_usage_cnt := cnt; timer_pending := timer_pending u;
          timer_ops := timer_ops u |}.

(** Calls of the input core on the devices of the driver; every open here
    gets the mutex. *)
Inductive handle_call : Type := Open | Close.

Definition handle_step (u : usage) (c : handle_call) : usage :=
  match c with
  | Open => snd (snescon_open 0 u)
  | Close => snescon_close u
  end.

Definition handle_run (u : usage) (l : list handle_call) : usage :=
  fold_left handle_step l u.

(** No prefix of the calls closes more handles than it opened on top of the
    [open_now] handles already open. *)
Fixpoint never_overclosed (open_now : Z) (l : list handle_call) : Prop :=
  match l with
  | [] => True
  | Open :: rest => never_overclosed (open_now + 1) rest
  | Close :: rest => 0 < open_now /\ never_overclosed (open_now - 1) rest
  end.

Definition count_calls (c : handle_call) (l : list handle_call) : Z :=
  Z.of_nat (length (filter (fun x => match x, c with
                                     | Open, Open | Close, Close => true
                                     | _, _ => false
                                     end) l)).

(** The module's usage state when it is loaded. *)
Definition usage_init : usage :=
  {| snescon_usage_cnt := 0; timer_pending := false; timer_ops := [] |}.

(** [snescon_timer], run [n] times: each run is one [pads_update] and
    re-arms the timer. *)
Fixpoint snescon_timer_runs (n : nat) (cfg : pads_config)
  : State world pads_config :=
  match n with
  | O => ret cfg
  | S n' => cfg' <- pads_update cfg ;; snescon_timer_runs n' cfg'
  end.

(** A write to the module parameter [fourscore] while the driver runs. *)
Definition set_fourscore_enabled (c : pads_config) (b : bool) : pads_config :=
  {| gpio := gpio c; pad := pad c; n_pads := n_pads c;
     n_pad_gpios := n_pad_gpios c; player_mode := player_mode c;
     fourscore_enabled := b |}.

(** Two configurations that differ at most in the player mode. *)
Definition same_but_player_mode (c c' : pads_config) : Prop :=
  gpio c' = gpio c /\ pad c' = pad c /\ n_pads c' = n_pads c /\
  n_pad_gpios c' = n_pad_gpios c /\
  fourscore_enabled c' = fourscore_enabled c.

(** One round of the clock in [pads_read]. *)
Definition clock_round (clk : Z) : list Gpio.op :=
  [Gpio.Udelay DELAY; Gpio.Clr clk; Gpio.ReadAll; Gpio.Udelay DELAY;
   Gpio.Set_ clk].

(** ** More sample inputs *)

(** Every input call of a list goes to a registered device. *)
Definition to_registered (e : event) : Prop :=
  match e with
  | Key (input_dev _) _ _ | Abs (input_dev _) _ _ | Sync (input_dev _) => True
  | _ => False
  end.

(** A button of the SNES gamepad only. *)
Definition snes_only (b : btn) : bool :=
  match b with
  | BTN_X | BTN_Y | BTN_TL | BTN_TR => true
  | _ => false
  end.

(** A kernel in which everything works but the registration of pad 1. *)
Definition kernel_pad1_refused : kernel :=
  {| ioremap_ok := true;
     input_allocate_device_ok := fun _ => true;
     kzalloc_ok := fun _ => true;
     input_register_device := fun i => if i =? 1 then -16 else 0 |}.

(** * Properties *)

(** ** The input log only grows *)

Lemma appends_ret {A} (a : A) : appends (ret a).
Proof. intro l. unfold ret, eval, calls, exec. simpl. now rewrite app_nil_r. Qed.

Lemma appends_emit (e : event) : appends (emit e).
Proof. intro l. reflexivity. Qed.

Lemma appends_bind {A B} (m : State log A) (k : A -> State log B) :
  appends m -> (forall a, appends (k a)) -> appends (bind m k).
Proof.
  intros Hm Hk l. unfold bind, eval, calls, exec.
  rewrite (Hm l), (Hm []). simpl.
  rewrite (Hk (eval m []) (l ++ calls m)), (Hk (eval m []) (calls m)).
  simpl. now rewrite app_assoc.
Qed.

Lemma appends_for {body : Z -> State log unit} :
  (forall i, appends (body i)) ->
  forall count from, appends (for_ from count body).
Proof.
  intros Hb count. induction count as [|n IH]; intro from; simpl.
  - apply appends_ret.
  - apply appends_bind; [apply Hb | intros _; apply IH].
Qed.

Lemma calls_bind {A B} (m : State log A) (k : A -> State log B) :
  appends m -> (forall a, appends (k a)) ->
  calls (bind m k) = calls m ++ calls (k (eval m [])).
Proof.
  intros Hm Hk. unfold calls at 1, exec, bind.
  rewrite (Hm []). simpl. now rewrite (Hk (eval m []) (calls m)).
Qed.

Lemma eval_bind {A B} (m : State log A) (k : A -> State log B) :
  appends m -> (forall a, appends (k a)) ->
  forall l, eval (bind m k) l = eval (k (eval m [])) [].
Proof.
  intros Hm Hk l. unfold eval at 1, bind.
  rewrite (Hm l). now rewrite (Hk (eval m []) (l ++ calls m)).
Qed.

Lemma calls_for_S (body : Z -> State log unit) :
  (forall i, appends (body i)) ->
  forall n from,
    calls (for_ from (S n) body)
    = calls (body from) ++ calls (for_ (from + 1) n body).
Proof.
  intros Hb n from. simpl.
  rewrite calls_bind; auto. intros _. now apply appends_for.
Qed.

Lemma calls_for_from (body : Z -> State log unit) :
  (forall i, appends (body i)) ->
  forall n from s,
    calls (for_ from n body)
    = flat_map (fun j => calls (body (from + Z.of_nat j - Z.of_nat s)))
               (seq s n).
Proof.
  intros Hb n. induction n as [|n IH]; intros from s.
  - reflexivity.
  - rewrite calls_for_S by assumption. cbn [seq flat_map].
    replace (from + Z.of_nat s - Z.of_nat s) with from by lia.
    f_equal. rewrite (IH (from + 1) (S s)).
    apply flat_map_ext. intro j.
    now replace (from + 1 + Z.of_nat j - Z.of_nat (S s))
      with (from + Z.of_nat j - Z.of_nat s) by lia.
Qed.

(** The calls of a loop are the calls of its iterations, in order. *)
Lemma calls_for (body : Z -> State log unit) :
  (forall i, appends (body i)) ->
  forall n from,
    calls (for_ from n body)
    = flat_map (fun j => calls (body (from + Z.of_nat j))) (seq 0 n).
Proof.
  intros Hb n from. rewrite (calls_for_from body Hb n from 0%nat).
  apply flat_map_ext. intro j.
  now replace (from + Z.of_nat j - Z.of_nat 0) with (from + Z.of_nat j) by lia.
Qed.

(** In a loop whose iterations all make [len] calls, iteration [j] owns the
    calls [len * j .. len * j + len - 1]. *)
Lemma flat_map_block {A B} (f : A -> list B) (len : nat) :
  (forall a, length (f a) = len) ->
  forall (l : list A) (j : nat) (d : A) (rest : list B),
    (j < length l)%nat ->
    firstn len (skipn (len * j) (flat_map f l ++ rest)) = f (nth j l d).
Proof.
  intros Hlen l. induction l as [|a l IH]; intros j d rest Hj.
  - simpl in Hj. lia.
  - destruct j as [|j].
    + rewrite Nat.mul_0_r. cbn [skipn flat_map nth].
      rewrite <- app_assoc, firstn_app, (Hlen a), Nat.sub_diag, firstn_O,
        app_nil_r.
      rewrite <- (Hlen a). apply firstn_all.
    + cbn [flat_map nth]. rewrite <- app_assoc.
      replace (len * S j)%nat with (length (f a) + len * j)%nat
        by (rewrite (Hlen a); lia).
      rewrite skipn_app, skipn_all2 by lia.
      replace (length (f a) + len * j - length (f a))%nat with (len * j)%nat
        by lia.
      cbn [app]. apply IH. simpl in Hj. lia.
Qed.

Lemma calls_for_block (body : Z -> State log unit) (len : nat) :
  (forall i, appends (body i)) ->
  (forall i, length (calls (body i)) = len) ->
  forall n j rest,
    (j < n)%nat ->
    firstn len (skipn (len * j) (calls (for_ 0 n body) ++ rest))
    = calls (body (Z.of_nat j)).
Proof.
  intros Hb Hlen n j rest Hj.
  rewrite calls_for by assumption.
  rewrite (flat_map_block _ len (fun j => Hlen _) _ j 0%nat)
    by (now rewrite length_seq).
  now rewrite seq_nth.
Qed.

Ltac appends_step :=
  first [ apply appends_ret | apply appends_emit | apply appends_bind
        | apply appends_for | intro ].

Lemma appends_pads_clear cfg n_devs : appends (pads_clear cfg n_devs).
Proof.
  unfold pads_clear, input_report_key, input_report_abs, input_sync.
  repeat appends_step.
Qed.

Lemma appends_pads_update_pad cfg data i : appends (pads_update_pad cfg data i).
Proof.
  unfold pads_update_pad, input_report_key, input_report_abs, input_sync.
  destruct (_ =? 1); repeat appends_step.
Qed.

Lemma appends_pads_update_fourscore cfg data :
  appends (pads_update_fourscore cfg data).
Proof.
  unfold pads_update_fourscore.
  apply appends_bind; [| intros _; apply appends_bind].
  1, 2: unfold input_report_key, input_report_abs, input_sync;
        repeat appends_step.
  intros _. destruct (_ >? 4); [| destruct (_ <? 4)].
  - apply appends_bind; [apply appends_pads_clear | intros _; apply appends_ret].
  - apply appends_ret.
  - apply appends_ret.
Qed.

Lemma appends_pads_update_multiplexed cfg data :
  appends (pads_update_multiplexed cfg data).
Proof.
  unfold pads_update_multiplexed.
  apply appends_bind.
  - apply appends_for. intro i. apply appends_pads_update_pad.
  - intros _. destruct (_ >? _).
    + apply appends_bind; [apply appends_pads_clear | intros _; apply appends_ret].
    + apply appends_ret.
Qed.

Lemma appends_pads_dispatch cfg data : appends (pads_dispatch cfg data).
Proof.
  unfold pads_dispatch. destruct (fourscore_active cfg data).
  - apply appends_pads_update_fourscore.
  - apply appends_pads_update_multiplexed.
Qed.

(** One poll: the frame is what [pads_read] captured, the new input calls are
    those of [pads_dispatch] on that frame, and they go after what was logged
    before. *)
Lemma pads_update_unfold cfg w :
  let data := eval (pads_read cfg) (hw w) in
  eval (pads_update cfg) w = eval (pads_dispatch cfg data) [] /\
  events (exec (pads_update cfg) w)
  = events w ++ calls (pads_dispatch cfg data) /\
  hw (exec (pads_update cfg) w) = exec (pads_read cfg) (hw w).
Proof.
  intro data. unfold pads_update, eval, exec, bind, on_hw, on_input.
  subst data. unfold eval.
  destruct (pads_read cfg (hw w)) as [d h]. cbn [fst snd hw events].
  rewrite (appends_pads_dispatch cfg d (events w)). cbn. auto.
Qed.

(** ** Frame capture *)

(** C7.  One frame capture does exactly this to the GPIO controller: clock
    and latch raised in one write, a wait of 2 * DELAY, latch dropped; then
    24 times: wait DELAY, clock dropped, all pins sampled, wait DELAY, clock
    raised.  It performs exactly 24 reads, and cell [i] of the frame is the
    (negated, as [gpio_read_all] returns it) [i]-th of them. *)
Theorem pads_read_sequence (cfg : pads_config) (h : Gpio.hw) :
  let clk := idx (gpio cfg) 0 in
  let latch := idx (gpio cfg) 1 in
  let data := eval (pads_read cfg) h in
  let h' := exec (pads_read cfg) h in
  Gpio.trace h'
  = Gpio.trace h
      ++ [Gpio.Set_ (Z.lor clk latch); Gpio.Udelay (2 * DELAY); Gpio.Clr latch]
      ++ concat (repeat [Gpio.Udelay DELAY; Gpio.Clr clk; Gpio.ReadAll;
                         Gpio.Udelay DELAY; Gpio.Set_ clk] 24)
  /\ data = map (fun i => to_uint (Z.lnot (Gpio.lev h (i + Gpio.reads h)%nat)))
                (seq 0 24)
  /\ length data = 24%nat
  /\ Gpio.reads h' = (24 + Gpio.reads h)%nat
  /\ Gpio.lev h' = Gpio.lev h.
Proof.
  destruct h as [lv rd tr].
  cbv [pads_read eval exec bind ret for_acc BITS_LENGTH BUFFER_SIZE
       Gpio.gpio_set Gpio.gpio_clear Gpio.udelay Gpio.gpio_read_all Gpio.emit
       Gpio.lev Gpio.reads Gpio.trace fst snd repeat set_nth].
  repeat rewrite <- app_assoc.
  repeat split; reflexivity.
Qed.

(** ** Plain multiplexed decoding *)

Lemma calls_pads_update_multiplexed cfg data :
  calls (pads_update_multiplexed cfg data)
  = calls (for_ 0 (Z.to_nat (n_pad_gpios cfg)) (pads_update_pad cfg data))
    ++ (if player_mode cfg >? n_pad_gpios cfg
        then calls (pads_clear cfg (to_uchar (n_pads cfg - n_pad_gpios cfg)))
        else []).
Proof.
  unfold pads_update_multiplexed.
  rewrite calls_bind.
  - f_equal. destruct (_ >? _); [| reflexivity].
    rewrite calls_bind;
      [| apply appends_pads_clear | intros _; apply appends_ret].
    unfold set_player_mode, pads_clear at 1. cbn [n_pads n_pad_gpios pad_at pad].
    unfold calls at 3, exec, ret. cbn. now rewrite app_nil_r.
  - apply appends_for. intro. apply appends_pads_update_pad.
  - intros _. destruct (_ >? _).
    + apply appends_bind; [apply appends_pads_clear | intros _; apply appends_ret].
    + apply appends_ret.
Qed.

(** A gamepad read as SNES: eight buttons from samples 0-3 and 8-11. *)
Lemma pads_update_pad_snes cfg data i :
  Z.land (idx (gpio cfg) (i + 2)) (idx data 16) = 1 ->
  let dev := pad_at cfg i in
  let g := idx (gpio cfg) (i + 2) in
  calls (pads_update_pad cfg data i)
  = [Key dev BTN_B (Z.land g (idx data 0));
     Key dev BTN_Y (Z.land g (idx data 1));
     Key dev BTN_SELECT (Z.land g (idx data 2));
     Key dev BTN_START (Z.land g (idx data 3));
     Key dev BTN_A (Z.land g (idx data 8));
     Key dev BTN_X (Z.land g (idx data 9));
     Key dev BTN_TL (Z.land g (idx data 10));
     Key dev BTN_TR (Z.land g (idx data 11));
     Abs dev ABS_X (axis_x g data); Abs dev ABS_Y (axis_y g data); Sync dev].
Proof.
  intros H. unfold pads_update_pad. rewrite H. reflexivity.
Qed.

(** A gamepad read as NES: four buttons from samples 0-3, four zeroed. *)
Lemma pads_update_pad_nes cfg data i :
  Z.land (idx (gpio cfg) (i + 2)) (idx data 16) <> 1 ->
  let dev := pad_at cfg i in
  let g := idx (gpio cfg) (i + 2) in
  calls (pads_update_pad cfg data i)
  = [Key dev BTN_A (Z.land g (idx data 0));
     Key dev BTN_B (Z.land g (idx data 1));
     Key dev BTN_SELECT (Z.land g (idx data 2));
     Key dev BTN_START (Z.land g (idx data 3));
     Key dev BTN_X 0; Key dev BTN_Y 0; Key dev BTN_TL 0; Key dev BTN_TR 0;
     Abs dev ABS_X (axis_x g data); Abs dev ABS_Y (axis_y g data); Sync dev].
Proof.
  intros H. unfold pads_update_pad.
  destruct (Z.eqb_spec (Z.land (idx (gpio cfg) (i + 2)) (idx data 16)) 1);
    [contradiction | reflexivity].
Qed.

Lemma length_pads_update_pad cfg data i :
  length (calls (pads_update_pad cfg data i)) = 11%nat.
Proof.
  destruct (Z.eq_dec (Z.land (idx (gpio cfg) (i + 2)) (idx data 16)) 1) as [E|E].
  - now rewrite pads_update_pad_snes.
  - now rewrite pads_update_pad_nes.
Qed.

(** In a plain poll the calls 11 i .. 11 i + 10 are the report of pad [i]. *)
Lemma pads_dispatch_pad cfg data i :
  fourscore_active cfg data = false ->
  0 <= i < n_pad_gpios cfg ->
  firstn 11 (skipn (11 * Z.to_nat i) (calls (pads_dispatch cfg data)))
  = calls (pads_update_pad cfg data i).
Proof.
  intros Hfs Hi. unfold pads_dispatch. rewrite Hfs.
  rewrite calls_pads_update_multiplexed.
  rewrite (calls_for_block (pads_update_pad cfg data) 11).
  - now rewrite Z2Nat.id by lia.
  - intro. apply appends_pads_update_pad.
  - intro. apply length_pads_update_pad.
  - lia.
Qed.

(** A mask with a single bit other than bit 0 never makes the SNES test of
    [pads_update] succeed. *)
Lemma single_bit_mask_not_one (k x : Z) :
  1 <= k -> Z.land (Z.shiftl 1 k) x <> 1.
Proof.
  intros Hk E.
  assert (T : Z.testbit (Z.land (Z.shiftl 1 k) x) 0 = true) by now rewrite E.
  rewrite Z.land_spec, Z.shiftl_spec in T by lia.
  rewrite Z.testbit_neg_r in T by lia. discriminate.
Qed.

(** Hence a pad whose line is any pin but GPIO 0 gets the NES report on
    every frame, whatever its line reads in sample 16. *)
Lemma pad_off_gpio0_read_as_nes cfg data i id :
  1 <= id <= 31 ->
  idx (gpio cfg) (i + 2) = Gpio.gpio_get_bit id ->
  let dev := pad_at cfg i in
  let g := idx (gpio cfg) (i + 2) in
  calls (pads_update_pad cfg data i)
  = [Key dev BTN_A (Z.land g (idx data 0));
     Key dev BTN_B (Z.land g (idx data 1));
     Key dev BTN_SELECT (Z.land g (idx data 2));
     Key dev BTN_START (Z.land g (idx data 3));
     Key dev BTN_X 0; Key dev BTN_Y 0; Key dev BTN_TL 0; Key dev BTN_TR 0;
     Abs dev ABS_X (axis_x g data); Abs dev ABS_Y (axis_y g data); Sync dev].
Proof.
  intros Hid Hg. apply pads_update_pad_nes. rewrite Hg.
  unfold Gpio.gpio_get_bit, to_uint.
  rewrite Z.mod_small.
  - apply single_bit_mask_not_one. lia.
  - rewrite Z.shiftl_1_l. split; [apply Z.pow_nonneg; lia |].
    apply Z.pow_lt_mono_r; lia.
Qed.

(** C1.  With the default pins, pad 1 is on GPIO 4.  On a frame in which its
    line reads as set in sample 16 (and in samples 1, 8 and 9), the pad is
    not reported as a SNES gamepad: the report is the NES one, sample 1 goes
    to BTN_B instead of BTN_Y, and BTN_A, BTN_X are not read from samples 8
    and 9 but sent as 0. *)
Theorem snes_signature_on_gpio4_read_as_nes :
  let cfg := cfg_default in
  let data := frame_snes_on_gpio4 in
  let dev := pad_at cfg 0 in
  fourscore_active cfg data = false /\
  0 < n_pad_gpios cfg /\
  idx (gpio cfg) 2 = 16 /\
  bit_set (idx (gpio cfg) 2) data 16 = true /\
  bit_set (idx (gpio cfg) 2) data 8 = true /\
  bit_set (idx (gpio cfg) 2) data 9 = true /\
  firstn 11 (calls (pads_dispatch cfg data))
  = [Key dev BTN_A 0; Key dev BTN_B 16; Key dev BTN_SELECT 0;
     Key dev BTN_START 0;
     Key dev BTN_X 0; Key dev BTN_Y 0; Key dev BTN_TL 0; Key dev BTN_TR 0;
     Abs dev ABS_X 0; Abs dev ABS_Y 0; Sync dev].
Proof.
  vm_compute. repeat split; reflexivity.
Qed.

(** C8.  In a plain poll, a pad that is read as a NES gamepad (the SNES test
    on sample 16 fails) gets exactly this report: the first four labels of
    [nes_btn_label] from samples 0, 1, 2, 3 of its line, the other four
    labels with value 0, the two axes, and the sync. *)
Theorem nes_pad_report (cfg : pads_config) (data : list Z) (i : Z) :
  fourscore_active cfg data = false ->
  0 <= i < n_pad_gpios cfg ->
  Z.land (idx (gpio cfg) (i + 2)) (idx data 16) <> 1 ->
  let dev := pad_at cfg i in
  let g := idx (gpio cfg) (i + 2) in
  firstn 11 (skipn (11 * Z.to_nat i) (calls (pads_dispatch cfg data)))
  = [Key dev BTN_A (Z.land g (idx data 0));
     Key dev BTN_B (Z.land g (idx data 1));
     Key dev BTN_SELECT (Z.land g (idx data 2));
     Key dev BTN_START (Z.land g (idx data 3));
     Key dev BTN_X 0; Key dev BTN_Y 0; Key dev BTN_TL 0; Key dev BTN_TR 0;
     Abs dev ABS_X (axis_x g data); Abs dev ABS_Y (axis_y g data); Sync dev]
  /\ map (label nes_btn_label) [0; 1; 2; 3]
     = [BTN_A; BTN_B; BTN_SELECT; BTN_START]
  /\ map (label nes_btn_label) [4; 5; 6; 7] = [BTN_X; BTN_Y; BTN_TL; BTN_TR]
  /\ pressed 0 = false.
Proof.
  intros Hfs Hi Hnes dev g.
  rewrite pads_dispatch_pad by assumption.
  rewrite pads_update_pad_nes by assumption.
  repeat split.
Qed.

Lemma nes_pad_report_witness :
  let cfg := cfg_default in
  let data := frame_with [(0%nat, 16); (3%nat, 16)] in
  let dev := input_dev 0 in
  (fourscore_active cfg data = false /\
   0 <= 0 < n_pad_gpios cfg /\
   Z.land (idx (gpio cfg) (0 + 2)) (idx data 16) <> 1) /\
  firstn 11 (calls (pads_dispatch cfg data))
  = [Key dev BTN_A 16; Key dev BTN_B 0; Key dev BTN_SELECT 0;
     Key dev BTN_START 16;
     Key dev BTN_X 0; Key dev BTN_Y 0; Key dev BTN_TL 0; Key dev BTN_TR 0;
     Abs dev ABS_X 0; Abs dev ABS_Y 0; Sync dev].
Proof.
  intros cfg data dev.
  assert (Hfs : fourscore_active cfg data = false) by reflexivity.
  assert (Hi : 0 <= 0 < n_pad_gpios cfg) by (vm_compute; split; congruence).
  assert (Hnes : Z.land (idx (gpio cfg) (0 + 2)) (idx data 16) <> 1)
    by (vm_compute; congruence).
  split; [auto |].
  exact (proj1 (nes_pad_report cfg data 0 Hfs Hi Hnes)).
Defined.

(** ** Axes *)

Lemma lnot_b2z (z : Z) : lnot z = Z.b2z (negb (truthy z)).
Proof. unfold lnot, truthy. now destruct (z =? 0). Qed.

(** In a plain poll, calls 8 and 9 of the report of pad [i] carry its axes,
    whichever kind of gamepad it was read as. *)
Lemma pads_dispatch_axes cfg data i :
  fourscore_active cfg data = false ->
  0 <= i < n_pad_gpios cfg ->
  let dev := pad_at cfg i in
  let g := idx (gpio cfg) (i + 2) in
  firstn 2 (skipn (11 * Z.to_nat i + 8) (calls (pads_dispatch cfg data)))
  = [Abs dev ABS_X (axis_x g data); Abs dev ABS_Y (axis_y g data)].
Proof.
  intros Hfs Hi dev g.
  rewrite Nat.add_comm, <- skipn_skipn.
  rewrite firstn_skipn_comm.
  replace (8 + 2)%nat with (Nat.min 10 11) by reflexivity.
  rewrite <- firstn_firstn.
  rewrite pads_dispatch_pad by assumption.
  destruct (Z.eq_dec (Z.land (idx (gpio cfg) (i + 2)) (idx data 16)) 1) as [E|E].
  - now rewrite pads_update_pad_snes.
  - now rewrite pads_update_pad_nes.
Qed.

(** C4, with the operands in the order of the code.  For every frame and
    every pad of a plain poll, read as SNES or as NES, the horizontal value
    sent is (not bit at sample 6) - (not bit at sample 7) of the pad's line,
    the vertical value is (not bit at sample 4) - (not bit at sample 5), and
    each is -1, 0 or 1. *)
Theorem axis_values (cfg : pads_config) (data : list Z) (i : Z) :
  fourscore_active cfg data = false ->
  0 <= i < n_pad_gpios cfg ->
  let dev := pad_at cfg i in
  let g := idx (gpio cfg) (i + 2) in
  let not_bit k := Z.b2z (negb (bit_set g data k)) in
  let h := not_bit 6 - not_bit 7 in
  let v := not_bit 4 - not_bit 5 in
  firstn 2 (skipn (11 * Z.to_nat i + 8) (calls (pads_dispatch cfg data)))
  = [Abs dev ABS_X h; Abs dev ABS_Y v]
  /\ (h = -1 \/ h = 0 \/ h = 1)
  /\ (v = -1 \/ v = 0 \/ v = 1).
Proof.
  intros Hfs Hi dev g not_bit h v.
  rewrite pads_dispatch_axes by assumption.
  subst h v not_bit. unfold axis_x, axis_y, bit_set.
  rewrite !lnot_b2z. fold g. split; [reflexivity |].
  split.
  - destruct (truthy (Z.land g (idx data 6))),
             (truthy (Z.land g (idx data 7))); cbn; lia.
  - destruct (truthy (Z.land g (idx data 4))),
             (truthy (Z.land g (idx data 5))); cbn; lia.
Qed.

Lemma axis_values_witness :
  let cfg := cfg_default in
  let data := frame_bits_5_7_on_gpio4 in
  (fourscore_active cfg data = false /\ 0 <= 0 < n_pad_gpios cfg) /\
  firstn 2 (skipn 8 (calls (pads_dispatch cfg data)))
  = [Abs (input_dev 0) ABS_X 1; Abs (input_dev 0) ABS_Y 1].
Proof.
  intros cfg data.
  assert (Hfs : fourscore_active cfg data = false) by reflexivity.
  assert (Hi : 0 <= 0 < n_pad_gpios cfg) by (vm_compute; split; congruence).
  split; [auto |].
  exact (proj1 (axis_values cfg data 0 Hfs Hi)).
Defined.

(** C4 as the specification words it does not hold.  Pad 1 on GPIO 4, its
    line set in samples 5 and 7 only: the driver sends +1 on both axes,
    whereas (not bit 7) - (not bit 6) and (not bit 5) - (not bit 4) are
    both -1. *)
Lemma axis_formula_of_spec_fails :
  let cfg := cfg_default in
  let data := frame_bits_5_7_on_gpio4 in
  let g := idx (gpio cfg) 2 in
  let not_bit k := Z.b2z (negb (bit_set g data k)) in
  fourscore_active cfg data = false /\
  0 < n_pad_gpios cfg /\
  firstn 2 (skipn 8 (calls (pads_dispatch cfg data)))
  = [Abs (pad_at cfg 0) ABS_X 1; Abs (pad_at cfg 0) ABS_Y 1] /\
  not_bit 7 - not_bit 6 = -1 /\
  not_bit 5 - not_bit 4 = -1.
Proof.
  vm_compute. repeat split; reflexivity.
Qed.

(** C5.  For every frame and every pad of a plain poll, the horizontal value
    sent follows the table on the bits of the pad's line in samples 6 and 7:
    clear, clear: 0; clear, set: +1; set, clear: -1; set, set: 0.  The
    vertical value follows the same table on samples 4 and 5. *)
Theorem axis_truth_table (cfg : pads_config) (data : list Z) (i : Z) :
  fourscore_active cfg data = false ->
  0 <= i < n_pad_gpios cfg ->
  let dev := pad_at cfg i in
  let g := idx (gpio cfg) (i + 2) in
  let table (lo hi : bool) : Z :=
    match lo, hi with
    | false, false => 0
    | false, true => 1
    | true, false => -1
    | true, true => 0
    end in
  firstn 2 (skipn (11 * Z.to_nat i + 8) (calls (pads_dispatch cfg data)))
  = [Abs dev ABS_X (table (bit_set g data 6) (bit_set g data 7));
     Abs dev ABS_Y (table (bit_set g data 4) (bit_set g data 5))].
Proof.
  intros Hfs Hi dev g table.
  rewrite pads_dispatch_axes by assumption.
  subst table. unfold axis_x, axis_y, bit_set.
  rewrite !lnot_b2z. fold g.
  destruct (truthy (Z.land g (idx data 6))),
           (truthy (Z.land g (idx data 7))),
           (truthy (Z.land g (idx data 4))),
           (truthy (Z.land g (idx data 5))); reflexivity.
Qed.

Lemma axis_truth_table_witness :
  let cfg := cfg_default in
  let data := frame_with [(6%nat, 16); (4%nat, 16); (5%nat, 16)] in
  (fourscore_active cfg data = false /\ 0 <= 0 < n_pad_gpios cfg) /\
  firstn 2 (skipn 8 (calls (pads_dispatch cfg data)))
  = [Abs (input_dev 0) ABS_X (-1); Abs (input_dev 0) ABS_Y 0].
Proof.
  intros cfg data.
  assert (Hfs : fourscore_active cfg data = false) by reflexivity.
  assert (Hi : 0 <= 0 < n_pad_gpios cfg) by (vm_compute; split; congruence).
  split; [auto |].
  exact (axis_truth_table cfg data 0 Hfs Hi).
Defined.

(** ** Choice of the decoding *)

Lemma fourscore_connected_signature cfg data :
  fourscore_connected cfg data = true <-> signature_matches cfg data.
Proof.
  unfold fourscore_connected, signature_matches, bit_set. cbv zeta. split.
  - intros H line k Hline Hk.
    repeat (apply andb_prop in H; destruct H as [H ?]).
    repeat match goal with
           | X : negb _ = true |- _ => apply negb_true_iff in X
           end.
    assert (Hcases : k = 16 \/ k = 17 \/ k = 18 \/ k = 19 \/
                     k = 20 \/ k = 21 \/ k = 22 \/ k = 23) by lia.
    destruct Hline; subst line;
      repeat (destruct Hcases as [Hcases | Hcases]; [subst k; assumption |]);
      subst k; assumption.
  - intros H.
    pose proof (fun k Hk => H 2 k (or_introl eq_refl) Hk) as H2.
    pose proof (fun k Hk => H 3 k (or_intror eq_refl) Hk) as H3.
    rewrite (H2 16), (H2 17), (H2 18), (H2 19), (H2 20), (H2 21), (H2 22),
      (H2 23), (H3 16), (H3 17), (H3 18), (H3 19), (H3 20), (H3 21), (H3 22),
      (H3 23) by lia.
    reflexivity.
Qed.

(** C2.  In every poll the FourScore branch of [pads_update] runs if and only
    if [fourscore_enabled] is set and, in samples 16 to 23 of the frame, the
    lines [cfg->gpio[2]] and [cfg->gpio[3]] read all clear except
    [cfg->gpio[3]] set in sample 18 and [cfg->gpio[2]] set in sample 19;
    when any one of these sixteen bits differs, the plain branch runs. *)
Theorem fourscore_selection (cfg : pads_config) (data : list Z) :
  (fourscore_active cfg data = true
   <-> fourscore_enabled cfg = true /\ signature_matches cfg data)
  /\ (fourscore_active cfg data = true ->
      pads_dispatch cfg data = pads_update_fourscore cfg data)
  /\ (fourscore_active cfg data = false ->
      pads_dispatch cfg data = pads_update_multiplexed cfg data)
  /\ (forall line k,
         line = 2 \/ line = 3 -> 16 <= k <= 23 ->
         bit_set (idx (gpio cfg) line) data k <> signature_bit line k ->
         fourscore_active cfg data = false).
Proof.
  assert (Hiff : fourscore_active cfg data = true
                 <-> fourscore_enabled cfg = true /\ signature_matches cfg data).
  { unfold fourscore_active. rewrite andb_true_iff.
    now rewrite fourscore_connected_signature. }
  split; [exact Hiff |].
  split; [| split].
  - intro H. unfold pads_dispatch. now rewrite H.
  - intro H. unfold pads_dispatch. now rewrite H.
  - intros line k Hline Hk Hdiff.
    destruct (fourscore_active cfg data) eqn:E; [| reflexivity].
    exfalso. apply Hdiff. now apply (proj1 Hiff).
Qed.

Lemma fourscore_selection_witness :
  let cfg := cfg_fourscore [2; 3; 4; 7] in
  (fourscore_active cfg frame_fourscore = true /\
   pads_dispatch cfg frame_fourscore
   = pads_update_fourscore cfg frame_fourscore) /\
  (bit_set (idx (gpio cfg) 2) frame_idle 19 <> signature_bit 2 19 /\
   fourscore_active cfg frame_idle = false /\
   pads_dispatch cfg frame_idle = pads_update_multiplexed cfg frame_idle).
Proof.
  intro cfg.
  assert (Hon : fourscore_active cfg frame_fourscore = true) by reflexivity.
  assert (Hdiff : bit_set (idx (gpio cfg) 2) frame_idle 19 <> signature_bit 2 19)
    by (vm_compute; congruence).
  assert (Hk : 16 <= 19 <= 23) by lia.
  pose proof (fourscore_selection cfg frame_fourscore) as [_ [Hfs _]].
  pose proof (fourscore_selection cfg frame_idle) as [_ [_ [Hplain Hdev]]].
  pose proof (Hdev 2 19 (or_introl eq_refl) Hk Hdiff) as Hoff.
  repeat split; auto.
Defined.

(** ** Player mode *)

Lemma eval_pads_update_fourscore cfg data l :
  player_mode (eval (pads_update_fourscore cfg data) l) = 4 /\
  n_pad_gpios (eval (pads_update_fourscore cfg data) l) = n_pad_gpios cfg.
Proof.
  unfold pads_update_fourscore.
  rewrite eval_bind.
  2: { unfold input_report_key, input_report_abs, input_sync.
       repeat appends_step. }
  2: { intros _. apply appends_bind.
       - unfold input_report_key, input_report_abs, input_sync.
         repeat appends_step.
       - intros _. destruct (_ >? 4); [| destruct (_ <? 4)].
         + apply appends_bind;
             [apply appends_pads_clear | intros _; apply appends_ret].
         + apply appends_ret.
         + apply appends_ret. }
  rewrite eval_bind.
  2: { unfold input_report_key, input_report_abs, input_sync.
       repeat appends_step. }
  2: { intros _. destruct (_ >? 4); [| destruct (_ <? 4)].
       - apply appends_bind;
           [apply appends_pads_clear | intros _; apply appends_ret].
       - apply appends_ret.
       - apply appends_ret. }
  destruct (Z.gtb_spec (player_mode cfg) 4).
  - rewrite eval_bind;
      [| apply appends_pads_clear | intros _; apply appends_ret].
    split; reflexivity.
  - destruct (Z.ltb_spec (player_mode cfg) 4).
    + split; reflexivity.
    + unfold eval, ret. cbn. split; [lia | reflexivity].
Qed.

Lemma eval_pads_update_multiplexed cfg data l :
  player_mode (eval (pads_update_multiplexed cfg data) l)
  = (if player_mode cfg >? n_pad_gpios cfg
     then n_pad_gpios cfg else player_mode cfg) /\
  n_pad_gpios (eval (pads_update_multiplexed cfg data) l) = n_pad_gpios cfg.
Proof.
  unfold pads_update_multiplexed.
  rewrite eval_bind.
  2: { apply appends_for. intro. apply appends_pads_update_pad. }
  2: { intros _. destruct (_ >? _).
       - apply appends_bind;
           [apply appends_pads_clear | intros _; apply appends_ret].
       - apply appends_ret. }
  destruct (player_mode cfg >? n_pad_gpios cfg).
  - rewrite eval_bind;
      [| apply appends_pads_clear | intros _; apply appends_ret].
    split; reflexivity.
  - split; reflexivity.
Qed.

(** C10.  [player_mode <= max(4, n_pad_gpios)] is preserved by every poll,
    whatever the frame and the flag; a poll that takes the plain branch never
    raises [player_mode]; a poll that takes the FourScore branch leaves it
    at exactly 4.  [n_pad_gpios] is not changed. *)
Theorem player_mode_bound (cfg : pads_config) (w : world) :
  let data := eval (pads_read cfg) (hw w) in
  let cfg' := eval (pads_update cfg) w in
  n_pad_gpios cfg' = n_pad_gpios cfg
  /\ (player_mode cfg <= Z.max 4 (n_pad_gpios cfg) ->
      player_mode cfg' <= Z.max 4 (n_pad_gpios cfg'))
  /\ (fourscore_active cfg data = false -> player_mode cfg' <= player_mode cfg)
  /\ (fourscore_active cfg data = true -> player_mode cfg' = 4).
Proof.
  intros data cfg'.
  destruct (pads_update_unfold cfg w) as [He _]. fold data cfg' in He.
  rewrite He. unfold pads_dispatch. clear He. clearbody data. clear cfg'.
  destruct (fourscore_active cfg data).
  - destruct (eval_pads_update_fourscore cfg data []) as [Hp Hn].
    rewrite Hp, Hn. repeat split; intros; try discriminate; lia.
  - destruct (eval_pads_update_multiplexed cfg data []) as [Hp Hn].
    rewrite Hp, Hn.
    destruct (Z.gtb_spec (player_mode cfg) (n_pad_gpios cfg));
      repeat split; intros; try discriminate; lia.
Qed.

Lemma player_mode_bound_witness :
  let cfg := cfg_fourscore [2; 3; 4; 7] in
  let w := world_showing [frame_fourscore] in
  let cfg' := eval (pads_update cfg) w in
  (player_mode cfg <= Z.max 4 (n_pad_gpios cfg) /\
   fourscore_active cfg (eval (pads_read cfg) (hw w)) = true) /\
  player_mode cfg' <= Z.max 4 (n_pad_gpios cfg') /\
  player_mode cfg' = 4.
Proof.
  intros cfg w cfg'.
  assert (Hinv : player_mode cfg <= Z.max 4 (n_pad_gpios cfg))
    by (vm_compute; congruence).
  assert (Hfs : fourscore_active cfg (eval (pads_read cfg) (hw w)) = true)
    by (vm_compute; reflexivity).
  destruct (player_mode_bound cfg w) as [_ [Hkeep [_ Hfour]]].
  split; [auto |].
  split; [exact (Hkeep Hinv) | exact (Hfour Hfs)].
Defined.

(** ** Clearing of unused pads *)

Lemma calls_pads_clear cfg n_devs :
  calls (pads_clear cfg n_devs)
  = flat_map (fun j => zero_report (pad_at cfg (n_pads cfg - 1 - Z.of_nat j)))
             (seq 0 (Z.to_nat n_devs)).
Proof.
  unfold pads_clear. rewrite calls_for.
  - apply flat_map_ext. intro j. now rewrite Z.add_0_l.
  - intro i. unfold input_report_key, input_report_abs, input_sync.
    repeat appends_step.
Qed.

(** What the plain branch does when it finds [player_mode] above
    [n_pad_gpios]: [player_mode] becomes [n_pad_gpios] and, after the
    reports of the pads in use, an all-zero report goes to
    [n_pads - n_pad_gpios] pads (as [unsigned char]), [pad[n_pads - 1]]
    first, then downwards. *)
Lemma pads_update_multiplexed_shrink (cfg : pads_config) (data : list Z) :
  fourscore_active cfg data = false ->
  player_mode cfg > n_pad_gpios cfg ->
  let cfg' := eval (pads_dispatch cfg data) [] in
  let n_clear := to_uchar (n_pads cfg - n_pad_gpios cfg) in
  player_mode cfg' = n_pad_gpios cfg
  /\ calls (pads_dispatch cfg data)
     = calls (for_ 0 (Z.to_nat (n_pad_gpios cfg)) (pads_update_pad cfg data))
       ++ flat_map
            (fun j => zero_report (pad_at cfg (n_pads cfg - 1 - Z.of_nat j)))
            (seq 0 (Z.to_nat n_clear))
  /\ (0 <= n_pad_gpios cfg <= n_pads cfg /\ n_pads cfg < 256 ->
      n_clear = n_pads cfg - n_pad_gpios cfg).
Proof.
  intros Hfs Hpm cfg' n_clear. subst cfg' n_clear.
  unfold pads_dispatch. rewrite Hfs.
  destruct (eval_pads_update_multiplexed cfg data []) as [Hp _].
  rewrite Hp, calls_pads_update_multiplexed, calls_pads_clear.
  destruct (Z.gtb_spec (player_mode cfg) (n_pad_gpios cfg)); [| exfalso; lia].
  repeat split.
  intros Hrange. unfold to_uchar. change (2 ^ 8) with 256.
  apply Z.mod_small. lia.
Qed.



(** ** Pads allocated at start-up *)

Lemma length_set_nth {A} (a : list A) (i : nat) (v : A) :
  length (set_nth a i v) = length a.
Proof.
  revert i. induction a as [|h t IH]; intros [|i]; simpl; auto.
Qed.

Lemma nth_set_nth_eq {A} (a : list A) (i : nat) (v d : A) :
  (i < length a)%nat -> nth i (set_nth a i v) d = v.
Proof.
  revert i. induction a as [|h t IH]; intros [|i] Hi; simpl in *;
    try lia; auto. apply IH. lia.
Qed.

Lemma nth_set_nth_neq {A} (a : list A) (i j : nat) (v d : A) :
  i <> j -> nth j (set_nth a i v) d = nth j a d.
Proof.
  revert i j. induction a as [|h t IH]; intros [|i] [|j] Hij; simpl;
    try congruence; auto.
Qed.

(** The loop of [pads_setup] touches only the entries it is run on, and
    when it ends with status 0 each of them holds its registered device. *)
Lemma pads_setup_from_spec (k : kernel) (d : dev_ptr) :
  forall count i pads status,
    0 <= i ->
    let r := pads_setup_from k i count pads status in
    length (fst r) = length pads
    /\ (forall j, (j < Z.to_nat i \/ Z.to_nat i + count <= j)%nat ->
                  nth j (fst r) d = nth j pads d)
    /\ (snd r = 0 ->
        status = 0
        /\ forall j, (Z.to_nat i <= j < Z.to_nat i + count)%nat ->
                     (j < length pads)%nat ->
                     nth j (fst r) d = input_dev (Z.of_nat j)).
Proof.
  induction count as [|n IH]; intros i pads status Hi; cbn zeta.
  - simpl. repeat split; auto. intros j Hj. lia.
  - cbn [pads_setup_from].
    destruct (Z.eqb_spec status 0) as [-> | Hst].
    2: { cbn [fst snd]. repeat split; auto; contradiction. }
    assert (Hnext : Z.to_nat (i + 1) = S (Z.to_nat i)) by lia.
    destruct (input_allocate_device_ok k i);
      [destruct (kzalloc_ok k i);
       [destruct (Z.eqb_spec (input_register_device k i) 0) as [Hr | Hr] |] |];
      cbn [Z.eqb negb fst snd ENOMEM Z.opp];
      match goal with
      | |- context [pads_setup_from k ?i' n ?p ?s] =>
          destruct (IH i' p s ltac:(lia)) as (L & U & A)
      end;
      rewrite L, !length_set_nth; (split; [reflexivity |]); split.
    all: try (intros j Hj; rewrite U by lia;
              rewrite !nth_set_nth_neq by lia; reflexivity).
    all: intros Hz; destruct (A Hz) as [Hs Hall]; try discriminate;
      try contradiction.
    split; [reflexivity |]. intros j Hj Hlen.
    destruct (Nat.eq_dec j (Z.to_nat i)) as [-> | Hne].
    + rewrite U by lia. rewrite nth_set_nth_eq by assumption.
      now rewrite Z2Nat.id.
    + apply Hall; [lia | now rewrite length_set_nth].
Qed.

(** What is known when [snescon_init] returns 0. *)
Lemma snescon_init_ok (k : kernel) (sc sc' : snescon_config) :
  snescon_init k sc = (0, sc') ->
  let cnt := gpio_id_cnt sc in
  let cfg := pads_cfg sc in
  let cfg' := pads_cfg sc' in
  let n := if fourscore_enabled cfg && (cnt <? 4) then 4
           else to_uchar (cnt - 2) in
  snescon_init_check sc = 0
  /\ n_pads cfg' = n
  /\ n_pad_gpios cfg' = to_uchar (cnt - 2)
  /\ fourscore_enabled cfg' = fourscore_enabled cfg
  /\ player_mode cfg' = player_mode cfg
  /\ gpio cfg' = fill_gpio (gpio_id sc) 0 (Z.to_nat cnt) (gpio cfg)
  /\ pad cfg' = fst (pads_setup_from k 0 (Z.to_nat n) (pad cfg) 0)
  /\ snd (pads_setup_from k 0 (Z.to_nat n) (pad cfg) 0) = 0.
Proof.
  unfold snescon_init, pads_setup. cbn [n_pads pad].
  destruct (Z.eqb_spec (snescon_init_check sc) 0) as [Hc | Hc]; cbn [negb].
  2: { intros H. inversion H. congruence. }
  destruct (ioremap_ok k); cbn [negb].
  2: { intros H. inversion H. }
  destruct (pads_setup_from k 0 _ (pad (pads_cfg sc)) 0) as [pads st] eqn:E.
  destruct (Z.eqb_spec st 0) as [-> | Hst]; cbn [negb].
  2: { intros H. inversion H. congruence. }
  intros H. inversion H. subst sc'. cbn. repeat split; auto.
Qed.

(** ** FourScore decoding *)

Lemma calls_pads_update_fourscore cfg data :
  calls (pads_update_fourscore cfg data)
  = fourscore_report (pad_at cfg 0) (idx (gpio cfg) 2) data 0
    ++ fourscore_report (pad_at cfg 1) (idx (gpio cfg) 3) data 0
    ++ fourscore_report (pad_at cfg 2) (idx (gpio cfg) 2) data 8
    ++ fourscore_report (pad_at cfg 3) (idx (gpio cfg) 3) data 8
    ++ (if player_mode cfg >? 4
        then zero_report (pad_at cfg (n_pads cfg - 1)) else []).
Proof.
  unfold pads_update_fourscore, calls, exec, bind.
  destruct (player_mode cfg >? 4); [| destruct (player_mode cfg <? 4)];
    try reflexivity.
  rewrite <- (Z.sub_0_r (n_pads cfg - 1)). reflexivity.
Qed.

(** C6.  Whenever the FourScore branch runs, the input calls of the poll are
    the reports for [pad[0]], [pad[1]], [pad[2]] and [pad[3]], in this order
    and whatever [n_pads] and [n_pad_gpios] are (followed by one all-zero
    report if [player_mode] was above 4).  After a successful start with
    FourScore enabled and four or five pins, only two or three pads are
    allocated: [pad[3]] is null, and with four pins [pad[2]] is null too
    (with five pins [pad[2]] is the third allocated pad). *)
Theorem fourscore_reports_to_unallocated_pads :
  (forall cfg data,
      fourscore_active cfg data = true ->
      calls (pads_dispatch cfg data)
      = fourscore_report (pad_at cfg 0) (idx (gpio cfg) 2) data 0
        ++ fourscore_report (pad_at cfg 1) (idx (gpio cfg) 3) data 0
        ++ fourscore_report (pad_at cfg 2) (idx (gpio cfg) 2) data 8
        ++ fourscore_report (pad_at cfg 3) (idx (gpio cfg) 3) data 8
        ++ (if player_mode cfg >? 4
            then zero_report (pad_at cfg (n_pads cfg - 1)) else []))
  /\ (forall k ids sc,
         (length ids = 4 \/ length ids = 5)%nat ->
         snescon_init k (with_params ids true) = (0, sc) ->
         let cfg := pads_cfg sc in
         fourscore_enabled cfg = true
         /\ n_pads cfg = Z.of_nat (length ids) - 2
         /\ n_pad_gpios cfg = Z.of_nat (length ids) - 2
         /\ pad_at cfg 0 = input_dev 0
         /\ pad_at cfg 1 = input_dev 1
         /\ pad_at cfg 3 = NULL
         /\ (length ids = 4%nat -> pad_at cfg 2 = NULL)
         /\ (length ids = 5%nat -> pad_at cfg 2 = input_dev 2)).
Proof.
  split.
  - intros cfg data Hfs. unfold pads_dispatch. rewrite Hfs.
    apply calls_pads_update_fourscore.
  - intros k ids sc Hlen Hinit cfg.
    apply snescon_init_ok in Hinit.
    cbn [with_params pads_cfg gpio_id_cnt fourscore_enabled pad
         snescon_config_default player_mode] in Hinit.
    fold cfg in Hinit.
    destruct Hinit as (_ & Hn & Hg & Hf & _ & _ & Hpad & Hst).
    unfold pad_at. cbn [Z.ltb Z.compare Z.to_nat Pos.to_nat Pos.iter_op
                        Nat.add]. rewrite Hpad.
    destruct Hlen as [Hlen | Hlen]; rewrite Hlen in *;
      cbn [andb Z.ltb Z.of_nat Pos.of_succ_nat Pos.succ Z.compare
           Pos.compare Pos.compare_cont Z.sub Z.add Z.opp Z.pos_sub
           Pos.pred_double Z.succ_double Z.pred_double Z.double] in *;
      change (to_uchar 2) with 2 in *; change (to_uchar 3) with 3 in *;
      match type of Hst with
      | snd (pads_setup_from k 0 ?c ?p 0) = 0 =>
          pose proof (fun d => pads_setup_from_spec k d c 0 p 0 ltac:(lia))
            as Hspec
      end;
      cbn zeta in Hspec.
    + destruct (Hspec (stray 0)) as (_ & _ & A0).
      destruct (Hspec (stray 1)) as (_ & _ & A1).
      destruct (Hspec (stray 2)) as (_ & U2 & _).
      destruct (Hspec (stray 3)) as (_ & U3 & _).
      destruct (A0 Hst) as [_ A0']. destruct (A1 Hst) as [_ A1'].
      pose proof (A0' 0%nat ltac:(simpl; lia) ltac:(simpl; lia)) as P0.
      pose proof (A1' 1%nat ltac:(simpl; lia) ltac:(simpl; lia)) as P1.
      pose proof (U2 2%nat ltac:(simpl; lia)) as P2.
      pose proof (U3 3%nat ltac:(simpl; lia)) as P3.
      clear - Hf Hn Hg P0 P1 P2 P3.
      repeat split; try assumption; intros H; [exact P2 | discriminate H].
    + destruct (Hspec (stray 0)) as (_ & _ & A0).
      destruct (Hspec (stray 1)) as (_ & _ & A1).
      destruct (Hspec (stray 2)) as (_ & _ & A2).
      destruct (Hspec (stray 3)) as (_ & U3 & _).
      destruct (A0 Hst) as [_ A0']. destruct (A1 Hst) as [_ A1'].
      destruct (A2 Hst) as [_ A2'].
      pose proof (A0' 0%nat ltac:(simpl; lia) ltac:(simpl; lia)) as P0.
      pose proof (A1' 1%nat ltac:(simpl; lia) ltac:(simpl; lia)) as P1.
      pose proof (A2' 2%nat ltac:(simpl; lia) ltac:(simpl; lia)) as P2.
      pose proof (U3 3%nat ltac:(simpl; lia)) as P3.
      clear - Hf Hn Hg P0 P1 P2 P3.
      repeat split; try assumption; intros H; [discriminate H | exact P2].
Qed.

Lemma fourscore_reports_to_unallocated_pads_witness :
  let sc := snd (snescon_init kernel_ok (with_params [2; 3; 4; 7] true)) in
  let cfg := pads_cfg sc in
  let data := frame_fourscore in
  (snescon_init kernel_ok (with_params [2; 3; 4; 7] true) = (0, sc) /\
   fourscore_active cfg data = true) /\
  n_pads cfg = 2 /\
  calls (pads_dispatch cfg data)
  = fourscore_report (input_dev 0) 16 data 0
    ++ fourscore_report (input_dev 1) 128 data 0
    ++ fourscore_report NULL 16 data 8
    ++ fourscore_report NULL 128 data 8.
Proof.
  intros sc cfg data.
  assert (Hinit : snescon_init kernel_ok (with_params [2; 3; 4; 7] true)
                  = (0, sc)) by reflexivity.
  assert (Hfs : fourscore_active cfg data = true) by reflexivity.
  destruct fourscore_reports_to_unallocated_pads as [Hcalls Hpads].
  destruct (Hpads kernel_ok [2; 3; 4; 7] sc (or_introl eq_refl) Hinit)
    as (_ & Hn & _ & H0 & H1 & H3 & H2 & _).
  fold cfg in Hn, H0, H1, H2, H3.
  split; [auto |]. split; [exact Hn |].
  rewrite (Hcalls cfg data Hfs), H0, H1, H3, (H2 eq_refl).
  reflexivity.
Defined.

(** ** Start-up checks *)

Lemma gpio_valid_from_spec (g : Z) (table : list Z) :
  (Gpio.gpio_valid_from g table = 1 <-> In g table)
  /\ (Gpio.gpio_valid_from g table = 0 \/ Gpio.gpio_valid_from g table = 1).
Proof.
  induction table as [|v rest [IH1 IH2]]; simpl.
  - split; [split; [discriminate | contradiction] | auto].
  - destruct (Z.eqb_spec g v) as [-> | Hne].
    + split; [split; auto | auto].
    + split; [| exact IH2]. rewrite IH1. split; [auto |].
      intros [H | H]; [congruence | exact H].
Qed.

Lemma gpio_list_valid_from_spec (list : list Z) :
  forall count i,
    (Gpio.gpio_list_valid_from list i count = 1 <->
     forall j, (j < count)%nat ->
               In (to_uchar (idx list (i + Z.of_nat j))) Gpio.all_valid_gpio)
    /\ (Gpio.gpio_list_valid_from list i count = 0 \/
        Gpio.gpio_list_valid_from list i count = 1).
Proof.
  induction count as [|n IH]; intro i; cbn [Gpio.gpio_list_valid_from].
  - split; [| auto]. split; [intros _ j Hj; lia | reflexivity].
  - destruct (gpio_valid_from_spec (to_uchar (idx list i)) Gpio.all_valid_gpio)
      as [Hin Hbool].
    fold (Gpio.gpio_valid (to_uchar (idx list i))) in Hin, Hbool.
    destruct (IH (i + 1)) as [IH1 IH2].
    destruct Hbool as [E | E]; rewrite E; cbn [lnot Z.eqb].
    + split; [| auto]. split; [discriminate |].
      intros H. exfalso.
      assert (Hv : Gpio.gpio_valid (to_uchar (idx list i)) = 1).
      { apply Hin. specialize (H 0%nat ltac:(lia)).
        now rewrite Z.add_0_r in H. }
      congruence.
    + split; [| exact IH2]. rewrite IH1. split.
      * intros H [|j] Hj.
        -- rewrite Z.add_0_r. now apply Hin.
        -- specialize (H j ltac:(lia)).
           now replace (i + Z.of_nat (S j)) with (i + 1 + Z.of_nat j) by lia.
      * intros H j Hj. specialize (H (S j) ltac:(lia)).
        now replace (i + Z.of_nat (S j)) with (i + 1 + Z.of_nat j) in H by lia.
Qed.

(** What the checks of [snescon_init] accept: between 3 and 7 pins, at least
    4 with FourScore enabled, and every pin number, cut down to its low eight
    bits, in the table of valid pins.  Anything else is [-EINVAL]. *)
Lemma snescon_init_check_spec (sc : snescon_config) :
  let cnt := gpio_id_cnt sc in
  (snescon_init_check sc = 0 <->
   3 <= cnt <= 7
   /\ (fourscore_enabled (pads_cfg sc) = true -> 4 <= cnt)
   /\ forall i, 0 <= i < cnt ->
                In (to_uchar (idx (gpio_id sc) i)) Gpio.all_valid_gpio)
  /\ (snescon_init_check sc = 0 \/ snescon_init_check sc = - EINVAL).
Proof.
  intro cnt. unfold snescon_init_check. fold cnt.
  unfold MIN_NUMBER_OF_GPIOS, MAX_NUMBER_OF_GPIOS.
  destruct (Z.ltb_spec cnt 3) as [Hlo | Hlo].
  { split; [| auto]. split; [discriminate | intros [? _]; lia]. }
  destruct (Z.gtb_spec cnt 7) as [Hhi | Hhi].
  { split; [| auto]. split; [discriminate | intros [? _]; lia]. }
  assert (Hu : to_uchar cnt = cnt).
  { unfold to_uchar. change (2 ^ 8) with 256. apply Z.mod_small. lia. }
  rewrite Hu.
  destruct (gpio_list_valid_from_spec (gpio_id sc) (Z.to_nat cnt) 0)
    as [Hv Hb].
  fold (Gpio.gpio_list_valid (gpio_id sc) cnt) in Hv, Hb.
  assert (Hall :
    (forall j, (j < Z.to_nat cnt)%nat ->
               In (to_uchar (idx (gpio_id sc) (0 + Z.of_nat j)))
                  Gpio.all_valid_gpio)
    <-> (forall i, 0 <= i < cnt ->
                   In (to_uchar (idx (gpio_id sc) i)) Gpio.all_valid_gpio)).
  { split.
    - intros H i Hi. specialize (H (Z.to_nat i) ltac:(lia)).
      now rewrite Z.add_0_l, Z2Nat.id in H by lia.
    - intros H j Hj. apply H. lia. }
  rewrite Hall in Hv. clear Hall.
  destruct (fourscore_enabled (pads_cfg sc)); cbn [andb].
  - change (3 + 1) with 4. destruct (Z.ltb_spec cnt 4) as [Hfour | Hfour].
    { split; [| auto].
      split; [discriminate | intros (_ & H4 & _); specialize (H4 eq_refl); lia]. }
    destruct Hb as [E | E]; rewrite E; cbn [lnot Z.eqb].
    + split; [| auto]. split; [discriminate |].
      intros (_ & _ & H'). apply Hv in H'. congruence.
    + split; [| auto]. split; [| reflexivity].
      intros _. split; [lia |]. split; [intros _; lia | now apply Hv].
  - destruct Hb as [E | E]; rewrite E; cbn [lnot Z.eqb].
    + split; [| auto]. split; [discriminate |].
      intros (_ & _ & H'). apply Hv in H'. congruence.
    + split; [| auto]. split; [| reflexivity].
      intros _. split; [lia |]. split; [discriminate | now apply Hv].
Qed.

(** C9.  Loaded with [gpio=256,3,4], the driver starts: pin number 256 is not
    in the table of valid pins, and [gpio_valid] itself rejects 256, yet
    [gpio_list_valid] hands it over as an [unsigned char], that is as 0, the
    checks of [snescon_init] pass and [snescon_init] returns 0 with the clock
    on the mask of GPIO 0. *)
Theorem pin_256_passes_the_checks :
  let sc := with_params [256; 3; 4] false in
  gpio_id_cnt sc = 3
  /\ idx (gpio_id sc) 0 = 256
  /\ ~ In 256 Gpio.all_valid_gpio
  /\ Gpio.gpio_valid 256 = 0
  /\ Gpio.gpio_list_valid (gpio_id sc) (gpio_id_cnt sc) = 1
  /\ snescon_init_check sc = 0
  /\ fst (snescon_init kernel_ok sc) = 0
  /\ gpio (pads_cfg (snd (snescon_init kernel_ok sc))) = [1; 8; 16; 0; 0; 0; 0].
Proof.
  cbn zeta. repeat split; try reflexivity.
  intro H. apply (gpio_valid_from_spec 256 Gpio.all_valid_gpio) in H.
  discriminate H.
Qed.

(** * Further properties of the driver *)

(** ** Pin numbers and masks *)

Lemma in_all_valid_gpio (g : Z) : In g Gpio.all_valid_gpio <-> 0 <= g <= 27.
Proof.
  unfold Gpio.all_valid_gpio. simpl. lia.
Qed.

(** X1.  For every value of its [unsigned char] parameter, 0 to 255,
    [gpio_valid] answers 1 on the pin numbers 0 to 27 and 0 on 28 to 255.
    An argument of a wider type is cut down to its low eight bits by the
    call, so the answer is 1 exactly when the argument modulo 256 is at most
    27. *)
Theorem gpio_valid_range (g_id : Z) :
  0 <= g_id < 256 ->
  (Gpio.gpio_valid g_id = 1 <-> g_id <= 27)
  /\ (Gpio.gpio_valid g_id = 0 <-> 27 < g_id)
  /\ forall x, to_uchar x = g_id ->
                (Gpio.gpio_valid (to_uchar x) = 1 <-> x mod 256 <= 27).
Proof.
  intros Hrange. unfold Gpio.gpio_valid.
  destruct (gpio_valid_from_spec g_id Gpio.all_valid_gpio) as [Hin Hbool].
  rewrite in_all_valid_gpio in Hin.
  assert (H1 : Gpio.gpio_valid_from g_id Gpio.all_valid_gpio = 1
               <-> g_id <= 27).
  { rewrite Hin. lia. }
  split; [exact H1 |]. split.
  - destruct Hbool as [E | E]; rewrite E in *; split; intro H;
      try reflexivity; try discriminate.
    + destruct (Z.le_gt_cases g_id 27) as [Hle | Hgt]; [| lia].
      apply H1 in Hle. discriminate.
    + exfalso. assert (g_id <= 27) by (now apply H1). lia.
  - intros x Hx. rewrite Hx. rewrite H1. unfold to_uchar in Hx.
    change (2 ^ 8) with 256 in Hx. now rewrite Hx.
Qed.

Lemma gpio_valid_range_witness :
  0 <= 28 < 256 /\ Gpio.gpio_valid 28 = 0 /\
  Gpio.gpio_valid (to_uchar 284) = 0.
Proof.
  assert (H : 0 <= 28 < 256) by lia.
  destruct (gpio_valid_range 28 H) as (_ & H0 & _).
  split; [exact H |].
  split; [apply H0; lia | apply H0; lia].
Defined.

(** X2.  For every value of its [unsigned char] parameter [len], 0 to 255,
    within the list, [gpio_list_valid] answers 1 exactly when each of the
    first [len] entries, reduced modulo 256 by the call of [gpio_valid], is
    a pin number from 0 to 27, and 0 otherwise; so it answers 1 for [len]
    0, and it cannot tell an entry from the same entry plus a multiple of
    256. *)
Theorem gpio_list_valid_modulo (list : list Z) (len : Z) :
  0 <= len < 256 ->
  len <= Z.of_nat (length list) ->
  (Gpio.gpio_list_valid list len = 1 <->
   forall i, 0 <= i < len -> idx list i mod 256 <= 27)
  /\ (Gpio.gpio_list_valid list len = 0 \/ Gpio.gpio_list_valid list len = 1)
  /\ Gpio.gpio_list_valid list 0 = 1.
Proof.
  intros Hlen Hin. unfold Gpio.gpio_list_valid.
  destruct (gpio_list_valid_from_spec list (Z.to_nat len) 0) as [Hv Hb].
  split; [| split; [exact Hb | reflexivity]].
  rewrite Hv. split.
  - intros H i Hi. specialize (H (Z.to_nat i) ltac:(lia)).
    rewrite Z.add_0_l, Z2Nat.id in H by lia.
    apply in_all_valid_gpio in H. unfold to_uchar in H.
    change (2 ^ 8) with 256 in H. lia.
  - intros H j Hj. apply in_all_valid_gpio. unfold to_uchar.
    change (2 ^ 8) with 256.
    specialize (H (0 + Z.of_nat j) ltac:(lia)).
    pose proof (Z.mod_pos_bound (idx list (0 + Z.of_nat j)) 256 ltac:(lia)).
    lia.
Qed.

Lemma gpio_list_valid_modulo_witness :
  (0 <= 3 < 256 /\ 3 <= Z.of_nat (length [2; 259; 4; 40])) /\
  Gpio.gpio_list_valid [2; 259; 4; 40] 3 = 1.
Proof.
  assert (H1 : 0 <= 3 < 256) by lia.
  assert (H2 : 3 <= Z.of_nat (length [2; 259; 4; 40])) by (cbn; lia).
  destruct (gpio_list_valid_modulo [2; 259; 4; 40] 3 H1 H2) as (Hiff & _).
  split; [auto |]. apply Hiff. intros i Hi.
  assert (Hc : i = 0 \/ i = 1 \/ i = 2) by lia.
  destruct Hc as [-> | [-> | ->]]; vm_compute; discriminate.
Defined.

Lemma land_pow2 (id x : Z) :
  0 <= id -> Z.land (2 ^ id) x = if Z.testbit x id then 2 ^ id else 0.
Proof.
  intros Hid. apply Z.bits_inj'. intros n Hn.
  rewrite Z.land_spec, Z.pow2_bits_eqb by assumption.
  destruct (Z.eqb_spec id n) as [-> | Hne].
  - destruct (Z.testbit x n); [| now rewrite Z.bits_0].
    rewrite Z.pow2_bits_eqb by assumption. now rewrite Z.eqb_refl.
  - cbn [andb]. destruct (Z.testbit x id); [| now rewrite Z.bits_0].
    rewrite Z.pow2_bits_eqb by assumption.
    symmetry. now apply Z.eqb_neq.
Qed.

Lemma gpio_get_bit_pow2 (id : Z) :
  0 <= id <= 31 -> Gpio.gpio_get_bit id = 2 ^ id.
Proof.
  intros Hid. unfold Gpio.gpio_get_bit, to_uint.
  rewrite Z.shiftl_1_l. apply Z.mod_small.
  split; [apply Z.pow_nonneg; lia | apply Z.pow_lt_mono_r; lia].
Qed.

(** X3.  For a pin number from 0 to 31, [gpio_get_bit] is the mask with that
    one bit; the masks of two different pins have no bit in common, and a
    mask picks from a word exactly the bit of its pin. *)
Theorem gpio_get_bit_one_bit (id : Z) :
  0 <= id <= 31 ->
  (forall k, 0 <= k -> Z.testbit (Gpio.gpio_get_bit id) k = (k =? id))
  /\ (forall id', 0 <= id' <= 31 -> id' <> id ->
                  Z.land (Gpio.gpio_get_bit id) (Gpio.gpio_get_bit id') = 0)
  /\ (forall x, truthy (Z.land (Gpio.gpio_get_bit id) x) = Z.testbit x id).
Proof.
  intros Hid. rewrite gpio_get_bit_pow2 by assumption.
  split; [| split].
  - intros k Hk. rewrite Z.pow2_bits_eqb by lia. apply Z.eqb_sym.
  - intros id' Hid' Hne. rewrite gpio_get_bit_pow2 by assumption.
    rewrite land_pow2 by lia.
    rewrite Z.pow2_bits_eqb by lia.
    now destruct (Z.eqb_spec id' id).
  - intros x. rewrite land_pow2 by lia. unfold truthy.
    destruct (Z.testbit x id); [| reflexivity].
    assert (0 < 2 ^ id) by (apply Z.pow_pos_nonneg; lia).
    destruct (Z.eqb_spec (2 ^ id) 0); [lia | reflexivity].
Qed.

Lemma gpio_get_bit_one_bit_witness :
  0 <= 4 <= 31 /\
  Gpio.gpio_get_bit 4 = 16 /\
  Z.land (Gpio.gpio_get_bit 4) (Gpio.gpio_get_bit 7) = 0 /\
  truthy (Z.land (Gpio.gpio_get_bit 4) 48) = true.
Proof.
  assert (H : 0 <= 4 <= 31) by lia.
  destruct (gpio_get_bit_one_bit 4 H) as (_ & Hdis & Hpick).
  split; [exact H |]. split; [reflexivity |].
  split; [apply Hdis; lia | exact (Hpick 48)].
Defined.

(** X4.  [gpio_read] hands the masked level back as an [unsigned char]: for
    the pins 0 to 7 it is the mask when the pin is high and 0 when it is
    low, and for the pins 8 to 31 it is 0 whatever the level. *)
Theorem gpio_read_low_byte (id : Z) (h : Gpio.hw) :
  0 <= id <= 31 ->
  let level := Gpio.lev h (Gpio.reads h) in
  eval (gpio_read (Gpio.gpio_get_bit id)) h
  = (if (id <? 8) && Z.testbit level id then 2 ^ id else 0).
Proof.
  intros Hid level. unfold gpio_read, eval. cbn [fst]. fold level.
  rewrite gpio_get_bit_pow2, land_pow2 by lia.
  unfold to_uchar.
  destruct (Z.ltb_spec id 8) as [Hlt | Hge]; cbn [andb].
  - destruct (Z.testbit level id); [| reflexivity].
    apply Z.mod_small.
    split; [apply Z.pow_nonneg; lia | apply Z.pow_lt_mono_r; lia].
  - destruct (Z.testbit level id); [| reflexivity].
    replace (2 ^ id) with (2 ^ (id - 8) * 2 ^ 8)
      by (rewrite <- Z.pow_add_r by lia; f_equal; lia).
    apply Z.mod_mul. discriminate.
Qed.

Lemma gpio_read_low_byte_witness :
  let h := hw_showing [frame_idle] in
  0 <= 9 <= 31 /\
  Z.testbit (Gpio.lev h (Gpio.reads h)) 9 = true /\
  eval (gpio_read (Gpio.gpio_get_bit 9)) h = 0.
Proof.
  intro h. assert (H : 0 <= 9 <= 31) by lia.
  split; [exact H |]. split; [reflexivity |].
  exact (gpio_read_low_byte 9 h H).
Defined.

(** ** Start-up *)

(** The loop of [pads_setup] ends with status 0 exactly when it started with
    status 0 and, for each pad it is run on, the device could be allocated,
    there was memory for its name, and it could be registered. *)
Lemma pads_setup_from_status (k : kernel) :
  forall count i pads status,
    snd (pads_setup_from k i count pads status) = 0 <->
    status = 0
    /\ forall j, (j < count)%nat ->
                 input_allocate_device_ok k (i + Z.of_nat j) = true
                 /\ kzalloc_ok k (i + Z.of_nat j) = true
                 /\ input_register_device k (i + Z.of_nat j) = 0.
Proof.
  induction count as [|n IH]; intros i pads status.
  - cbn. split; [intros ->; split; [reflexivity | intros j Hj; lia] | tauto].
  - cbn [pads_setup_from].
    destruct (Z.eqb_spec status 0) as [-> | Hst].
    2: { cbn [snd]. split; [contradiction | tauto]. }
    assert (Hshift : forall j, i + 1 + Z.of_nat j = i + Z.of_nat (S j))
      by (intro; lia).
    destruct (input_allocate_device_ok k i) eqn:Ea;
      [destruct (kzalloc_ok k i) eqn:Ek;
       [destruct (Z.eqb_spec (input_register_device k i) 0) as [Hr | Hr] |] |];
      cbn [Z.eqb negb fst snd ENOMEM Z.opp]; rewrite IH; split.
    + intros [_ H]. split; [reflexivity |]. intros [|j] Hj.
      * rewrite Z.add_0_r. auto.
      * rewrite <- Hshift. apply H. lia.
    + intros [_ H]. split; [assumption |]. intros j Hj.
      rewrite Hshift. apply H. lia.
    + intros [H _]. contradiction.
    + intros [_ H]. specialize (H 0%nat ltac:(lia)).
      rewrite Z.add_0_r in H. tauto.
    + intros [H _]. discriminate.
    + intros [_ H]. specialize (H 0%nat ltac:(lia)).
      rewrite Z.add_0_r in H. destruct H as (_ & H & _). congruence.
    + intros [H _]. discriminate.
    + intros [_ H]. specialize (H 0%nat ltac:(lia)).
      rewrite Z.add_0_r in H. destruct H as (H & _). congruence.
Qed.

(** The loop that fills [cfg->gpio] writes the mask of entry [j] of the
    parameter to cell [j], for the cells it is run on, and nothing else. *)
Lemma fill_gpio_spec (ids : list Z) :
  forall count i g,
    0 <= i ->
    length (fill_gpio ids i count g) = length g
    /\ forall j,
        nth j (fill_gpio ids i count g) 0
        = if (Z.to_nat i <=? j)%nat && (j <? Z.to_nat i + count)%nat
             && (j <? length g)%nat
          then Gpio.gpio_get_bit (to_uchar (idx ids (Z.of_nat j)))
          else nth j g 0.
Proof.
  induction count as [|n IH]; intros i g Hi.
  - cbn [fill_gpio]. split; [reflexivity |]. intro j.
    destruct (Nat.leb_spec (Z.to_nat i) j), (Nat.ltb_spec j (Z.to_nat i + 0));
      cbn [andb]; try reflexivity; lia.
  - cbn [fill_gpio].
    destruct (IH (i + 1) (set_nth g (Z.to_nat i)
                            (Gpio.gpio_get_bit (to_uchar (idx ids i))))
                 ltac:(lia)) as [L N].
    rewrite length_set_nth in L, N. split; [exact L |]. intro j. rewrite N.
    destruct (Nat.leb_spec (Z.to_nat (i + 1)) j),
             (Nat.ltb_spec j (Z.to_nat (i + 1) + n)),
             (Nat.leb_spec (Z.to_nat i) j),
             (Nat.ltb_spec j (Z.to_nat i + S n)),
             (Nat.ltb_spec j (length g));
      cbn [andb]; try reflexivity; try lia.
    all: first
           [ apply nth_set_nth_neq; lia
           | assert (j = Z.to_nat i) by lia; subst j;
             rewrite nth_set_nth_eq by lia; now rewrite Z2Nat.id
           | rewrite !nth_overflow by (rewrite ?length_set_nth; lia);
             reflexivity ].
Qed.

(** What a start that returns 0 leaves behind, for parameters [gpio=ids] and
    [fourscore=fs]. *)
Lemma snescon_init_shape (k : kernel) (ids : list Z) (fs : bool)
      (sc : snescon_config) :
  snescon_init k (with_params ids fs) = (0, sc) ->
  let cnt := Z.of_nat (length ids) in
  let cfg := pads_cfg sc in
  3 <= cnt <= 7
  /\ (fs = true -> 4 <= cnt)
  /\ (forall i, 0 <= i < cnt -> 0 <= nth (Z.to_nat i) ids 0 mod 256 <= 27)
  /\ n_pads cfg = cnt - 2
  /\ n_pad_gpios cfg = cnt - 2
  /\ player_mode cfg = 0
  /\ fourscore_enabled cfg = fs
  /\ (forall i, 0 <= i < cnt ->
                idx (gpio cfg) i = 2 ^ (nth (Z.to_nat i) ids 0 mod 256))
  /\ (forall i, cnt <= i -> idx (gpio cfg) i = 0)
  /\ (forall i, 0 <= i < cnt - 2 -> pad_at cfg i = input_dev i)
  /\ (forall i, cnt - 2 <= i < 5 -> pad_at cfg i = NULL).
Proof.
  intros Hinit cnt cfg.
  apply snescon_init_ok in Hinit.
  cbn [with_params pads_cfg gpio_id_cnt gpio_id fourscore_enabled pad gpio
       snescon_config_default player_mode] in Hinit.
  fold cnt cfg in Hinit.
  destruct Hinit as (Hc & Hn & Hg & Hf & Hp & Hgpio & Hpad & Hst).
  destruct (snescon_init_check_spec (with_params ids fs)) as [Hcheck _].
  cbn [with_params pads_cfg gpio_id_cnt gpio_id fourscore_enabled] in Hcheck.
  fold cnt in Hcheck. apply Hcheck in Hc. clear Hcheck.
  destruct Hc as (Hcnt & Hfs & Hvalid).
  assert (Hid : forall i, 0 <= i < cnt ->
            idx (ids ++ skipn (length ids) [2; 3; 4; 7; 9; 10; 11]) i
            = nth (Z.to_nat i) ids 0).
  { intros i Hi. unfold idx. destruct (Z.ltb_spec i 0); [lia |].
    apply app_nth1. lia. }
  assert (Hu : to_uchar (cnt - 2) = cnt - 2).
  { unfold to_uchar. change (2 ^ 8) with 256. apply Z.mod_small. lia. }
  assert (Hn' : n_pads cfg = cnt - 2).
  { rewrite Hn, Hu. destruct fs; cbn [andb]; [| reflexivity].
    specialize (Hfs eq_refl). destruct (Z.ltb_spec cnt 4); [lia | reflexivity]. }
  assert (Hvalid' : forall i, 0 <= i < cnt ->
            0 <= nth (Z.to_nat i) ids 0 mod 256 <= 27).
  { intros i Hi. specialize (Hvalid i Hi). apply in_all_valid_gpio in Hvalid.
    rewrite Hid in Hvalid by assumption. exact Hvalid. }
  rewrite <- Hn, Hn' in Hpad, Hst.
  split; [exact Hcnt |]. split; [exact Hfs |]. split; [exact Hvalid' |].
  split; [exact Hn' |]. split; [now rewrite Hg |].
  split; [exact Hp |]. split; [exact Hf |].
  destruct (fill_gpio_spec (ids ++ skipn (length ids) [2; 3; 4; 7; 9; 10; 11])
              (Z.to_nat cnt) 0 (repeat 0 7) ltac:(lia)) as [_ Hfill].
  rewrite <- Hgpio in Hfill. change (length (repeat 0 7)) with 7%nat in Hfill.
  split; [| split; [| split]].
  - intros i Hi. unfold idx. destruct (Z.ltb_spec i 0); [lia |].
    rewrite Hfill.
    destruct (Nat.leb_spec (Z.to_nat 0) (Z.to_nat i)); [| lia].
    destruct (Nat.ltb_spec (Z.to_nat i) (Z.to_nat 0 + Z.to_nat cnt)); [| lia].
    destruct (Nat.ltb_spec (Z.to_nat i) 7); [| lia]. cbn [andb].
    rewrite Z2Nat.id by lia. rewrite Hid by assumption.
    unfold to_uchar. change (2 ^ 8) with 256.
    apply gpio_get_bit_pow2. specialize (Hvalid' i Hi). lia.
  - intros i Hi. unfold idx. destruct (Z.ltb_spec i 0); [lia |].
    rewrite Hfill.
    destruct (Nat.ltb_spec (Z.to_nat i) (Z.to_nat 0 + Z.to_nat cnt)); [lia |].
    rewrite andb_false_r. cbn [andb].
    destruct (Nat.lt_ge_cases (Z.to_nat i) 7) as [Hlt | Hge].
    + revert Hlt. generalize (Z.to_nat i) as m. intros m Hlt.
      do 7 (destruct m as [|m]; [reflexivity |]). lia.
    + now apply nth_overflow.
  - intros i Hi. unfold pad_at. destruct (Z.ltb_spec i 0); [lia |].
    rewrite Hpad.
    destruct (pads_setup_from_spec k (stray i) (Z.to_nat (cnt - 2)) 0
                (repeat NULL 5) 0 ltac:(lia)) as (_ & _ & A).
    destruct (A Hst) as [_ A'].
    rewrite A' by (cbn [length repeat]; lia). now rewrite Z2Nat.id by lia.
  - intros i Hi. unfold pad_at. destruct (Z.ltb_spec i 0); [lia |].
    rewrite Hpad.
    destruct (pads_setup_from_spec k (stray i) (Z.to_nat (cnt - 2)) 0
                (repeat NULL 5) 0 ltac:(lia)) as (_ & U & _).
    rewrite U by lia.
    assert (Hlt : (Z.to_nat i < 5)%nat) by lia.
    revert Hlt. generalize (Z.to_nat i) as m. intros m Hlt.
    do 5 (destruct m as [|m]; [reflexivity |]). lia.
Qed.

(** X5.  [snescon_init] returns [-EINVAL], with the configuration untouched,
    when one of its four checks fails; [-EBUSY] when the checks pass and the
    registers cannot be mapped; and 0 exactly when the checks pass, the
    registers are mapped and, for each of the [gpio_id_cnt - 2] pads, the
    device is allocated, its name gets memory and it is registered. *)
Theorem snescon_init_outcome (k : kernel) (sc : snescon_config) :
  (snescon_init_check sc <> 0 -> snescon_init k sc = (- EINVAL, sc))
  /\ (snescon_init_check sc = 0 -> ioremap_ok k = false ->
      fst (snescon_init k sc) = - EBUSY)
  /\ (fst (snescon_init k sc) = 0 <->
      snescon_init_check sc = 0
      /\ ioremap_ok k = true
      /\ forall i, 0 <= i < gpio_id_cnt sc - 2 ->
                   input_allocate_device_ok k i = true
                   /\ kzalloc_ok k i = true
                   /\ input_register_device k i = 0).
Proof.
  destruct (snescon_init_check_spec sc) as [Hspec Hval]. cbn zeta in Hspec.
  unfold snescon_init, pads_setup. cbn [n_pads pad].
  destruct (Z.eqb_spec (snescon_init_check sc) 0) as [Hc | Hc]; cbn [negb].
  2: { destruct Hval as [E | E]; [contradiction |].
       split; [intros _; now rewrite E |].
       split; [contradiction |]. cbn [fst]. tauto. }
  split; [contradiction |].
  destruct (proj1 Hspec Hc) as (Hcnt & Hfs & _).
  assert (Hn : (if fourscore_enabled (pads_cfg sc) && (gpio_id_cnt sc <? 4)
                then 4 else to_uchar (gpio_id_cnt sc - 2))
               = gpio_id_cnt sc - 2).
  { unfold to_uchar. change (2 ^ 8) with 256.
    rewrite Z.mod_small by lia.
    destruct (fourscore_enabled (pads_cfg sc)); cbn [andb]; [| reflexivity].
    specialize (Hfs eq_refl).
    destruct (Z.ltb_spec (gpio_id_cnt sc) 4); [lia | reflexivity]. }
  rewrite Hn.
  destruct (ioremap_ok k); cbn [negb].
  2: { cbn [fst]. unfold EBUSY.
       split; [reflexivity |]. split; [discriminate |].
       intros (_ & H & _). discriminate. }
  split; [discriminate |].
  pose proof (pads_setup_from_status k (Z.to_nat (gpio_id_cnt sc - 2)) 0
                (pad (pads_cfg sc)) 0) as Hst.
  destruct (pads_setup_from k 0 (Z.to_nat (gpio_id_cnt sc - 2))
              (pad (pads_cfg sc)) 0) as [pads st].
  cbn [snd] in Hst.
  assert (Hloop :
    (forall j, (j < Z.to_nat (gpio_id_cnt sc - 2))%nat ->
               input_allocate_device_ok k (0 + Z.of_nat j) = true
               /\ kzalloc_ok k (0 + Z.of_nat j) = true
               /\ input_register_device k (0 + Z.of_nat j) = 0)
    <-> (forall i, 0 <= i < gpio_id_cnt sc - 2 ->
                   input_allocate_device_ok k i = true
                   /\ kzalloc_ok k i = true
                   /\ input_register_device k i = 0)).
  { split.
    - intros H i Hi. specialize (H (Z.to_nat i) ltac:(lia)).
      now rewrite Z.add_0_l, Z2Nat.id in H by lia.
    - intros H j Hj. apply H. lia. }
  rewrite Hloop in Hst. clear Hloop.
  destruct (Z.eqb_spec st 0) as [-> | Hne]; cbn [negb fst].
  - split; [intros _ | reflexivity].
    split; [exact Hc |]. split; [reflexivity |]. now apply Hst.
  - split; [contradiction |]. intros (_ & _ & H).
    exfalso. apply Hne. apply Hst. split; [reflexivity | exact H].
Qed.

Lemma snescon_init_outcome_witness :
  snescon_init_check (with_params [2; 3; 40] false) <> 0 /\
  snescon_init kernel_ok (with_params [2; 3; 40] false)
  = (- EINVAL, with_params [2; 3; 40] false).
Proof.
  assert (H : snescon_init_check (with_params [2; 3; 40] false) <> 0)
    by (vm_compute; congruence).
  split; [exact H |].
  exact (proj1 (snescon_init_outcome kernel_ok _) H).
Defined.

(** X6.  After a start that returns 0 the driver has as many pads as data
    lines, between 1 and 5: the branch of [snescon_init] that would give 4
    pads is never taken.  The pads 0 to [n_pads - 1] are the registered
    devices, in order, the other entries of [pad] are null, and the player
    mode is 0. *)
Theorem snescon_init_pads (k : kernel) (ids : list Z) (fs : bool)
        (sc : snescon_config) :
  snescon_init k (with_params ids fs) = (0, sc) ->
  let cfg := pads_cfg sc in
  n_pads cfg = Z.of_nat (length ids) - 2
  /\ n_pad_gpios cfg = n_pads cfg
  /\ 1 <= n_pads cfg <= 5
  /\ (fs = true -> 2 <= n_pads cfg)
  /\ player_mode cfg = 0
  /\ fourscore_enabled cfg = fs
  /\ (forall i, 0 <= i < n_pads cfg -> pad_at cfg i = input_dev i)
  /\ (forall i, n_pads cfg <= i < 5 -> pad_at cfg i = NULL).
Proof.
  intros Hinit cfg.
  destruct (snescon_init_shape k ids fs sc Hinit)
    as (Hcnt & Hfs & _ & Hn & Hg & Hp & Hf & _ & _ & Hpad & Hnull).
  fold cfg in Hn, Hg, Hp, Hf, Hpad, Hnull. rewrite Hn, Hg.
  repeat split; try assumption; try lia.
  intro E. specialize (Hfs E). lia.
Qed.

Lemma snescon_init_pads_witness :
  let sc := snd (snescon_init kernel_ok (with_params [2; 3; 4; 7; 9] true)) in
  snescon_init kernel_ok (with_params [2; 3; 4; 7; 9] true) = (0, sc) /\
  n_pads (pads_cfg sc) = 3 /\ n_pad_gpios (pads_cfg sc) = 3.
Proof.
  intro sc.
  assert (H : snescon_init kernel_ok (with_params [2; 3; 4; 7; 9] true)
              = (0, sc)) by reflexivity.
  destruct (snescon_init_pads kernel_ok _ _ sc H) as (Hn & Hg & _).
  split; [exact H |]. split; [exact Hn |]. rewrite Hg. exact Hn.
Defined.

(** X7.  After a start that returns 0, the entry of [cfg->gpio] for each
    configured pin is the mask with the single bit numbered by the low eight
    bits of the pin number, which is at most 27; the entries beyond the
    configured pins are 0. *)
Theorem snescon_init_masks (k : kernel) (ids : list Z) (fs : bool)
        (sc : snescon_config) :
  snescon_init k (with_params ids fs) = (0, sc) ->
  let cnt := Z.of_nat (length ids) in
  let cfg := pads_cfg sc in
  (forall i, 0 <= i < cnt ->
             0 <= nth (Z.to_nat i) ids 0 mod 256 <= 27
             /\ idx (gpio cfg) i = 2 ^ (nth (Z.to_nat i) ids 0 mod 256))
  /\ (forall i, cnt <= i -> idx (gpio cfg) i = 0).
Proof.
  intros Hinit cnt cfg.
  destruct (snescon_init_shape k ids fs sc Hinit)
    as (_ & _ & Hvalid & _ & _ & _ & _ & Hmask & Hzero & _).
  split; [| exact Hzero].
  intros i Hi. split; [now apply Hvalid | now apply Hmask].
Qed.

Lemma snescon_init_masks_witness :
  let sc := snd (snescon_init kernel_ok (with_params [258; 3; 4] false)) in
  snescon_init kernel_ok (with_params [258; 3; 4] false) = (0, sc) /\
  idx (gpio (pads_cfg sc)) 0 = 4 /\
  idx (gpio (pads_cfg sc)) 3 = 0.
Proof.
  intro sc.
  assert (H : snescon_init kernel_ok (with_params [258; 3; 4] false)
              = (0, sc)) by reflexivity.
  destruct (snescon_init_masks kernel_ok _ _ sc H) as [Hmask Hzero].
  split; [exact H |].
  split; [exact (proj2 (Hmask 0 ltac:(cbn; lia))) | apply Hzero; cbn; lia].
Defined.

(** ** Failure while the pads are set up, and removal *)

Lemma pads_setup_from_failed (k : kernel) :
  forall count i pads status,
    status <> 0 -> pads_setup_from k i count pads status = (pads, status).
Proof.
  intros [|n] i pads status Hst; [reflexivity |].
  cbn [pads_setup_from].
  destruct (Z.eqb_spec status 0); [contradiction | reflexivity].
Qed.

Lemma pads_setup_from_app (k : kernel) :
  forall a b i pads status,
    pads_setup_from k i (a + b) pads status
    = pads_setup_from k (i + Z.of_nat a) b
        (fst (pads_setup_from k i a pads status))
        (snd (pads_setup_from k i a pads status)).
Proof.
  induction a as [|a IH]; intros b i pads status.
  - cbn. now rewrite Z.add_0_r.
  - cbn [Nat.add pads_setup_from].
    destruct (Z.eqb_spec status 0) as [-> | Hst].
    + destruct (input_allocate_device_ok k i);
        [destruct (kzalloc_ok k i);
         [destruct (input_register_device k i =? 0) |] |];
        cbn [negb Z.eqb ENOMEM Z.opp]; rewrite IH;
        now replace (i + 1 + Z.of_nat a) with (i + Z.of_nat (S a)) by lia.
    + cbn [fst snd]. now rewrite pads_setup_from_failed.
Qed.

(** The loop of [pads_setup] when the pads before pad [i] are set up and pad
    [i] fails. *)
Lemma pads_setup_from_first_failure (k : kernel) (n i : Z) :
  0 <= i < n -> n <= 5 ->
  (forall j, 0 <= j < i ->
             input_allocate_device_ok k j = true
             /\ kzalloc_ok k j = true
             /\ input_register_device k j = 0) ->
  input_allocate_device_ok k i = false
  \/ kzalloc_ok k i = false
  \/ input_register_device k i <> 0 ->
  let r := pads_setup_from k 0 (Z.to_nat n) (repeat NULL 5) 0 in
  length (fst r) = 5%nat
  /\ snd r <> 0
  /\ snd r = (if input_allocate_device_ok k i && kzalloc_ok k i
              then input_register_device k i else - ENOMEM)
  /\ (forall j, 0 <= j < i ->
                nth (Z.to_nat j) (fst r) NULL = input_dev j)
  /\ nth (Z.to_nat i) (fst r) NULL
     = (if input_allocate_device_ok k i && negb (kzalloc_ok k i)
        then input_dev i else NULL)
  /\ (forall j, i < j < 5 -> nth (Z.to_nat j) (fst r) NULL = NULL).
Proof.
  intros Hi Hn Hok Hfail r. subst r.
  replace (Z.to_nat n) with (Z.to_nat i + (1 + Z.to_nat (n - i - 1)))%nat
    by lia.
  rewrite pads_setup_from_app.
  destruct (pads_setup_from_spec k NULL (Z.to_nat i) 0 (repeat NULL 5) 0
              ltac:(lia)) as (L & U & A).
  assert (Hst : snd (pads_setup_from k 0 (Z.to_nat i) (repeat NULL 5) 0) = 0).
  { apply pads_setup_from_status. split; [reflexivity |].
    intros j Hj. rewrite Z.add_0_l. apply Hok. lia. }
  destruct (A Hst) as [_ A']. clear A.
  destruct (pads_setup_from k 0 (Z.to_nat i) (repeat NULL 5) 0)
    as [pads st]. cbn [fst snd] in *. subst st.
  rewrite Z.add_0_l, Z2Nat.id by lia.
  rewrite pads_setup_from_app. cbn [pads_setup_from Z.eqb Nat.add].
  assert (Hlen : (Z.to_nat i < length pads)%nat).
  { rewrite L. cbn [length repeat]. lia. }
  assert (Hbefore : forall v j, 0 <= j < i ->
            nth (Z.to_nat j) (set_nth pads (Z.to_nat i) v) NULL = input_dev j).
  { intros v j Hj. rewrite nth_set_nth_neq by lia.
    rewrite A' by (cbn [length repeat]; lia). now rewrite Z2Nat.id by lia. }
  assert (Hafter : forall v j, i < j < 5 ->
            nth (Z.to_nat j) (set_nth pads (Z.to_nat i) v) NULL = NULL).
  { intros v j Hj. rewrite nth_set_nth_neq by lia. rewrite U by lia.
    assert (Hlt : (Z.to_nat j < 5)%nat) by lia.
    revert Hlt. generalize (Z.to_nat j) as m. intros m Hlt.
    do 5 (destruct m as [|m]; [reflexivity |]). lia. }
  destruct (input_allocate_device_ok k i) eqn:Ea;
    [destruct (kzalloc_ok k i) eqn:Ek;
     [destruct (Z.eqb_spec (input_register_device k i) 0) as [Hr | Hr] |] |];
    cbn [negb Z.eqb ENOMEM Z.opp andb fst snd].
  - exfalso. destruct Hfail as [H | [H | H]]; congruence.
  - rewrite pads_setup_from_failed by assumption. cbn [fst snd].
    split; [now rewrite !length_set_nth, L |].
    repeat split; auto.
    + intros j Hj. rewrite nth_set_nth_neq by lia. now apply Hbefore.
    + rewrite nth_set_nth_eq; [reflexivity | now rewrite length_set_nth].
    + intros j Hj. rewrite nth_set_nth_neq by lia. now apply Hafter.
  - rewrite pads_setup_from_failed by discriminate. cbn [fst snd].
    split; [now rewrite !length_set_nth, L |].
    repeat split; auto; try discriminate.
    now rewrite nth_set_nth_eq.
  - rewrite pads_setup_from_failed by discriminate. cbn [fst snd].
    split; [now rewrite !length_set_nth, L |].
    repeat split; auto; try discriminate.
    now rewrite nth_set_nth_eq.
Qed.

(** X8.  [snescon_init] does not undo what [pads_setup] did when a pad
    fails.  If the checks pass, the registers are mapped, the pads before
    pad [i] are set up and pad [i] fails, then [snescon_init] returns a
    non-zero status, [-ENOMEM] or the status of [input_register_device],
    and leaves the pads before [i] registered.  Entry [i] is null, except
    that a device whose name got no memory stays allocated in it; the
    entries after [i] stay null. *)
Theorem snescon_init_keeps_earlier_pads (k : kernel) (ids : list Z)
        (fs : bool) (i : Z) :
  snescon_init_check (with_params ids fs) = 0 ->
  ioremap_ok k = true ->
  0 <= i < Z.of_nat (length ids) - 2 ->
  (forall j, 0 <= j < i ->
             input_allocate_device_ok k j = true
             /\ kzalloc_ok k j = true
             /\ input_register_device k j = 0) ->
  input_allocate_device_ok k i = false
  \/ kzalloc_ok k i = false
  \/ input_register_device k i <> 0 ->
  let status := fst (snescon_init k (with_params ids fs)) in
  let cfg := pads_cfg (snd (snescon_init k (with_params ids fs))) in
  status <> 0
  /\ status = (if input_allocate_device_ok k i && kzalloc_ok k i
               then input_register_device k i else - ENOMEM)
  /\ (forall j, 0 <= j < i -> pad_at cfg j = input_dev j)
  /\ pad_at cfg i
     = (if input_allocate_device_ok k i && negb (kzalloc_ok k i)
        then input_dev i else NULL)
  /\ (forall j, i < j < 5 -> pad_at cfg j = NULL).
Proof.
  intros Hc Hio Hi Hok Hfail.
  destruct (snescon_init_check_spec (with_params ids fs)) as [Hspec _].
  cbn zeta in Hspec. destruct (proj1 Hspec Hc) as (Hcnt & Hfs & _).
  cbn [with_params gpio_id_cnt pads_cfg fourscore_enabled] in Hcnt, Hfs.
  unfold snescon_init, pads_setup. rewrite Hc, Hio.
  cbn [Z.eqb negb with_params gpio_id_cnt pads_cfg fourscore_enabled pad
       n_pads snescon_config_default].
  assert (Hn : (if fs && (Z.of_nat (length ids) <? 4) then 4
                else to_uchar (Z.of_nat (length ids) - 2))
               = Z.of_nat (length ids) - 2).
  { unfold to_uchar. change (2 ^ 8) with 256. rewrite Z.mod_small by lia.
    destruct fs; cbn [andb]; [| reflexivity]. specialize (Hfs eq_refl).
    destruct (Z.ltb_spec (Z.of_nat (length ids)) 4); [lia | reflexivity]. }
  rewrite Hn.
  destruct (pads_setup_from_first_failure k (Z.of_nat (length ids) - 2) i
              Hi ltac:(lia) Hok Hfail) as (Hlen & Hne & Hst & Hb & Hat & Ha).
  destruct (pads_setup_from k 0 (Z.to_nat (Z.of_nat (length ids) - 2))
              (repeat NULL 5) 0) as [pads st].
  cbn [fst snd] in Hlen, Hne, Hst, Hb, Hat, Ha.
  destruct (Z.eqb_spec st 0) as [E | _]; [contradiction |].
  cbn [negb fst snd pads_cfg].
  assert (Hpad : forall j, 0 <= j < 5 ->
            pad_at {| gpio := fill_gpio
                                (ids ++ skipn (length ids)
                                          [2; 3; 4; 7; 9; 10; 11])
                                0 (Z.to_nat (Z.of_nat (length ids)))
                                (repeat 0 7);
                      pad := pads;
                      n_pads := Z.of_nat (length ids) - 2;
                      n_pad_gpios := to_uchar (Z.of_nat (length ids) - 2);
                      player_mode := 0;
                      fourscore_enabled := fs |} j
            = nth (Z.to_nat j) pads NULL).
  { intros j Hj. unfold pad_at. cbn [pad].
    destruct (Z.ltb_spec j 0); [lia |]. apply nth_indep. lia. }
  split; [exact Hne |]. split; [exact Hst |].
  split; [| split].
  - intros j Hj. rewrite Hpad by lia. now apply Hb.
  - rewrite Hpad by lia. exact Hat.
  - intros j Hj. rewrite Hpad by lia. now apply Ha.
Qed.

Lemma snescon_init_keeps_earlier_pads_witness :
  let r := snescon_init kernel_pad1_refused (with_params [2; 3; 4; 7; 9] false) in
  (snescon_init_check (with_params [2; 3; 4; 7; 9] false) = 0 /\
   ioremap_ok kernel_pad1_refused = true /\
   input_register_device kernel_pad1_refused 1 <> 0) /\
  fst r = -16 /\
  pad_at (pads_cfg (snd r)) 0 = input_dev 0.
Proof.
  intro r.
  assert (Hc : snescon_init_check (with_params [2; 3; 4; 7; 9] false) = 0)
    by reflexivity.
  assert (Hio : ioremap_ok kernel_pad1_refused = true) by reflexivity.
  assert (Hi : 0 <= 1 < Z.of_nat (length [2; 3; 4; 7; 9]) - 2) by (cbn; lia).
  assert (Hok : forall j, 0 <= j < 1 ->
            input_allocate_device_ok kernel_pad1_refused j = true
            /\ kzalloc_ok kernel_pad1_refused j = true
            /\ input_register_device kernel_pad1_refused j = 0).
  { intros j Hj. assert (j = 0) by lia. subst j. repeat split. }
  assert (Hreg : input_register_device kernel_pad1_refused 1 <> 0)
    by discriminate.
  destruct (snescon_init_keeps_earlier_pads kernel_pad1_refused
              [2; 3; 4; 7; 9] false 1 Hc Hio Hi Hok
              (or_intror (or_intror Hreg))) as (_ & Hst & Hb & _).
  split; [auto |]. split; [exact Hst | exact (Hb 0 ltac:(lia))].
Defined.

(** The loop of [pads_remove] nulls the entries it is run on, leaves the
    others alone, and unregisters and frees, in order, what was not null. *)
Lemma pads_remove_from_spec (d : dev_ptr) :
  forall count i pads done,
    0 <= i -> (Z.to_nat i + count <= length pads)%nat ->
    let r := pads_remove_from i count pads done in
    length (fst r) = length pads
    /\ (forall j, (Z.to_nat i <= j < Z.to_nat i + count)%nat ->
                  nth j (fst r) d = NULL)
    /\ (forall j, (j < Z.to_nat i \/ Z.to_nat i + count <= j)%nat ->
                  nth j (fst r) d = nth j pads d)
    /\ snd r
       = done ++ flat_map (fun j => match nth j pads NULL with
                                    | NULL => []
                                    | dev => [Unregister dev; Kfree_phys dev]
                                    end)
                          (seq (Z.to_nat i) count).
Proof.
  induction count as [|n IH]; intros i pads done Hi Hlen; cbn zeta.
  - cbn. rewrite app_nil_r. repeat split; auto. intros j Hj. lia.
  - cbn [pads_remove_from seq flat_map].
    destruct (Z.ltb_spec i 0); [lia |].
    assert (Hnext : Z.to_nat (i + 1) = S (Z.to_nat i)) by lia.
    rewrite (nth_indep pads (stray i) NULL) by lia.
    assert (Hrest : forall v,
      flat_map (fun j => match nth j (set_nth pads (Z.to_nat i) v) NULL with
                         | NULL => []
                         | dev => [Unregister dev; Kfree_phys dev]
                         end) (seq (S (Z.to_nat i)) n)
      = flat_map (fun j => match nth j pads NULL with
                           | NULL => []
                           | dev => [Unregister dev; Kfree_phys dev]
                           end) (seq (S (Z.to_nat i)) n)).
    { intro v. rewrite !flat_map_concat_map. f_equal.
      apply map_ext_in. intros j Hj. apply in_seq in Hj.
      now rewrite nth_set_nth_neq by lia. }
    destruct (nth (Z.to_nat i) pads NULL) eqn:E.
    + destruct (IH (i + 1) pads done ltac:(lia) ltac:(lia))
        as (L & Z0 & U & C).
      rewrite Hnext in *. cbn [app]. repeat split; auto.
      * intros j Hj. destruct (Nat.eq_dec j (Z.to_nat i)) as [-> | Hne].
        -- rewrite U by lia. rewrite (nth_indep pads d NULL) by lia. exact E.
        -- apply Z0. lia.
      * intros j Hj. apply U. lia.
    + match goal with
      | |- context [pads_remove_from (i + 1) n ?p ?l] =>
          destruct (IH (i + 1) p l ltac:(lia)
                      ltac:(rewrite length_set_nth; lia)) as (L & Z0 & U & C)
      end.
      rewrite Hnext, length_set_nth in *. rewrite C, Hrest, <- app_assoc.
      repeat split; auto.
      * intros j Hj. destruct (Nat.eq_dec j (Z.to_nat i)) as [-> | Hne].
        -- rewrite U by lia. now rewrite nth_set_nth_eq by lia.
        -- apply Z0. lia.
      * intros j Hj. rewrite U by lia. apply nth_set_nth_neq. lia.
    + match goal with
      | |- context [pads_remove_from (i + 1) n ?p ?l] =>
          destruct (IH (i + 1) p l ltac:(lia)
                      ltac:(rewrite length_set_nth; lia)) as (L & Z0 & U & C)
      end.
      rewrite Hnext, length_set_nth in *. rewrite C, Hrest, <- app_assoc.
      repeat split; auto.
      * intros j Hj. destruct (Nat.eq_dec j (Z.to_nat i)) as [-> | Hne].
        -- rewrite U by lia. now rewrite nth_set_nth_eq by lia.
        -- apply Z0. lia.
      * intros j Hj. rewrite U by lia. apply nth_set_nth_neq. lia.
Qed.

Lemma flat_map_nil {A B} (f : A -> list B) (l : list A) :
  (forall a, In a l -> f a = []) -> flat_map f l = [].
Proof.
  induction l as [|a l IH]; intro H; [reflexivity |].
  cbn [flat_map]. rewrite (H a (or_introl eq_refl)), IH; [reflexivity |].
  intros b Hb. apply H. now right.
Qed.

(** X9.  [pads_remove] unregisters each pad among the first [n_pads] that is
    not null, frees its name, and nulls its entry, in the order of the
    entries; null entries are skipped and the entries from [n_pads] on are
    not touched.  Afterwards the first [n_pads] entries are all null, so a
    second [pads_remove] asks nothing of the kernel and changes nothing. *)
Theorem pads_remove_unregisters_once (cfg : pads_config) :
  (0 <= n_pads cfg <= Z.of_nat (length (pad cfg))) ->
  let cfg' := fst (pads_remove cfg) in
  (forall i, 0 <= i < n_pads cfg -> pad_at cfg' i = NULL)
  /\ (forall i, n_pads cfg <= i -> pad_at cfg' i = pad_at cfg i)
  /\ snd (pads_remove cfg)
     = flat_map (fun j => match nth j (pad cfg) NULL with
                          | NULL => []
                          | dev => [Unregister dev; Kfree_phys dev]
                          end)
                (seq 0 (Z.to_nat (n_pads cfg)))
  /\ n_pads cfg' = n_pads cfg
  /\ pads_remove cfg' = (cfg', []).
Proof.
  intros Hn cfg'. subst cfg'. unfold pads_remove.
  pose proof (fun d => pads_remove_from_spec d (Z.to_nat (n_pads cfg)) 0
                         (pad cfg) [] ltac:(lia) ltac:(lia)) as H.
  cbn zeta in H.
  destruct (pads_remove_from 0 (Z.to_nat (n_pads cfg)) (pad cfg) [])
    as [pads done] eqn:E.
  cbn [fst snd n_pads pad] in *.
  assert (Hnull : forall i, 0 <= i < n_pads cfg ->
                            nth (Z.to_nat i) pads NULL = NULL).
  { intros i Hi. destruct (H NULL) as (_ & Z0 & _). apply Z0. lia. }
  split; [| split; [| split; [| split]]].
  - intros i Hi. unfold pad_at. cbn [pad].
    destruct (Z.ltb_spec i 0); [lia |].
    destruct (H (stray i)) as (_ & Z0 & _). apply Z0. lia.
  - intros i Hi. unfold pad_at. cbn [pad].
    destruct (Z.ltb_spec i 0); [reflexivity |].
    destruct (H (stray i)) as (_ & _ & U & _). apply U. lia.
  - destruct (H NULL) as (_ & _ & _ & C). exact C.
  - reflexivity.
  - pose proof (fun d => pads_remove_from_spec d (Z.to_nat (n_pads cfg)) 0
                           pads [] ltac:(lia)) as H2.
    cbn zeta in H2.
    destruct (H NULL) as (L & _).
    destruct (pads_remove_from 0 (Z.to_nat (n_pads cfg)) pads [])
      as [pads2 done2] eqn:E2.
    cbn [fst snd] in H2.
    destruct (H2 NULL ltac:(lia)) as (L2 & Z2 & U2 & C2).
    assert (Hp : pads2 = pads).
    { apply (nth_ext _ _ NULL NULL); [exact L2 |].
      intros j Hj.
      destruct (Nat.lt_ge_cases j (Z.to_nat (n_pads cfg))) as [Hlt | Hge].
      - rewrite Z2 by lia.
        specialize (Hnull (Z.of_nat j) ltac:(lia)).
        now rewrite Nat2Z.id in Hnull.
      - apply U2. lia. }
    assert (Hd : done2 = []).
    { rewrite C2. cbn [app]. apply flat_map_nil. intros j Hj.
      apply in_seq in Hj.
      specialize (Hnull (Z.of_nat j) ltac:(lia)).
      rewrite Nat2Z.id in Hnull. now rewrite Hnull. }
    now rewrite Hp, Hd.
Qed.

Lemma pads_remove_unregisters_once_witness :
  let cfg := cfg_fourscore [2; 3; 4; 7] in
  0 <= n_pads cfg <= Z.of_nat (length (pad cfg)) /\
  snd (pads_remove cfg)
  = [Unregister (input_dev 0); Kfree_phys (input_dev 0);
     Unregister (input_dev 1); Kfree_phys (input_dev 1)] /\
  pads_remove (fst (pads_remove cfg)) = (fst (pads_remove cfg), []).
Proof.
  intro cfg.
  assert (H : 0 <= n_pads cfg <= Z.of_nat (length (pad cfg)))
    by (vm_compute; split; congruence).
  destruct (pads_remove_unregisters_once cfg H) as (_ & _ & Hcalls & _ & Hidem).
  split; [exact H |]. split; [exact Hcalls | exact Hidem].
Defined.

Lemma snescon_init_pad_length (k : kernel) (ids : list Z) (fs : bool)
      (sc : snescon_config) :
  snescon_init k (with_params ids fs) = (0, sc) ->
  length (pad (pads_cfg sc)) = 5%nat.
Proof.
  intros Hinit. apply snescon_init_ok in Hinit.
  cbn [with_params pads_cfg pad snescon_config_default] in Hinit.
  destruct Hinit as (_ & _ & _ & _ & _ & _ & Hpad & _).
  rewrite Hpad.
  match goal with
  | |- length (fst (pads_setup_from k 0 ?c ?p 0)) = _ =>
      destruct (pads_setup_from_spec k NULL c 0 p 0 ltac:(lia)) as (L & _)
  end.
  exact L.
Qed.

(** X10.  A start that returns 0 followed by [pads_remove] hands back to
    the kernel exactly what the start took: the devices of the pads 0 to
    [n_pads - 1] are unregistered and their names freed, each once and in
    that order, and every entry of [pad] is null again. *)
Theorem pads_remove_after_init (k : kernel) (ids : list Z) (fs : bool)
        (sc : snescon_config) :
  snescon_init k (with_params ids fs) = (0, sc) ->
  let cfg := pads_cfg sc in
  pad (fst (pads_remove cfg)) = repeat NULL 5
  /\ snd (pads_remove cfg)
     = flat_map (fun j => [Unregister (input_dev (Z.of_nat j));
                           Kfree_phys (input_dev (Z.of_nat j))])
                (seq 0 (length ids - 2)).
Proof.
  intros Hinit cfg.
  pose proof (snescon_init_pad_length k ids fs sc Hinit) as Hlen.
  destruct (snescon_init_shape k ids fs sc Hinit)
    as (Hcnt & _ & _ & Hn & _ & _ & _ & _ & _ & Hpad & Hnull).
  fold cfg in Hlen, Hn, Hpad, Hnull.
  unfold pads_remove.
  pose proof (pads_remove_from_spec NULL (Z.to_nat (n_pads cfg)) 0
                (pad cfg) [] ltac:(lia) ltac:(lia)) as H.
  cbn zeta in H.
  destruct (pads_remove_from 0 (Z.to_nat (n_pads cfg)) (pad cfg) [])
    as [pads done].
  cbn [fst snd pad] in *. destruct H as (L & Z0 & U & C).
  split.
  - apply (nth_ext _ _ NULL NULL).
    + rewrite L, Hlen. reflexivity.
    + intros j Hj. rewrite L, Hlen in Hj.
      transitivity NULL.
      * destruct (Nat.lt_ge_cases j (Z.to_nat (n_pads cfg))) as [Hlt | Hge].
        -- apply Z0. lia.
        -- rewrite U by lia.
           specialize (Hnull (Z.of_nat j) ltac:(lia)).
           unfold pad_at in Hnull.
           destruct (Z.ltb_spec (Z.of_nat j) 0); [lia |].
           rewrite Nat2Z.id in Hnull.
           now rewrite (nth_indep _ NULL (stray (Z.of_nat j))) by lia.
      * clear - Hj. do 5 (destruct j as [|j]; [reflexivity |]). lia.
  - rewrite C. cbn [app]. rewrite Hn.
    replace (Z.to_nat (Z.of_nat (length ids) - 2)) with (length ids - 2)%nat
      by lia.
    rewrite !flat_map_concat_map. f_equal. apply map_ext_in.
    intros j Hj. apply in_seq in Hj.
    specialize (Hpad (Z.of_nat j) ltac:(lia)).
    unfold pad_at in Hpad.
    destruct (Z.ltb_spec (Z.of_nat j) 0); [lia |].
    rewrite Nat2Z.id in Hpad.
    rewrite (nth_indep _ NULL (stray (Z.of_nat j))) by lia.
    now rewrite Hpad.
Qed.

Lemma pads_remove_after_init_witness :
  let sc := snd (snescon_init kernel_ok snescon_config_default) in
  snescon_init kernel_ok (with_params [2; 3; 4; 7; 9; 10; 11] false)
  = (0, sc) /\
  pad (fst (pads_remove (pads_cfg sc))) = [NULL; NULL; NULL; NULL; NULL] /\
  length (snd (pads_remove (pads_cfg sc))) = 10%nat.
Proof.
  intro sc.
  assert (H : snescon_init kernel_ok
                (with_params [2; 3; 4; 7; 9; 10; 11] false) = (0, sc))
    by reflexivity.
  destruct (pads_remove_after_init kernel_ok _ _ sc H) as [Hpad Hcalls].
  split; [exact H |]. split; [exact Hpad |]. now rewrite Hcalls.
Defined.

(** ** What a poll changes *)

Lemma eval_pads_update_fourscore_cfg cfg data l :
  eval (pads_update_fourscore cfg data) l
  = (if player_mode cfg >? 4 then set_player_mode cfg 4
     else if player_mode cfg <? 4 then set_player_mode cfg 4 else cfg).
Proof.
  unfold pads_update_fourscore.
  rewrite eval_bind.
  2: { unfold input_report_key, input_report_abs, input_sync.
       repeat appends_step. }
  2: { intros _. apply appends_bind.
       - unfold input_report_key, input_report_abs, input_sync.
         repeat appends_step.
       - intros _. destruct (_ >? 4); [| destruct (_ <? 4)].
         + apply appends_bind;
             [apply appends_pads_clear | intros _; apply appends_ret].
         + apply appends_ret.
         + apply appends_ret. }
  rewrite eval_bind.
  2: { unfold input_report_key, input_report_abs, input_sync.
       repeat appends_step. }
  2: { intros _. destruct (_ >? 4); [| destruct (_ <? 4)].
       - apply appends_bind;
           [apply appends_pads_clear | intros _; apply appends_ret].
       - apply appends_ret.
       - apply appends_ret. }
  destruct (player_mode cfg >? 4).
  - rewrite eval_bind;
      [reflexivity | apply appends_pads_clear | intros _; apply appends_ret].
  - destruct (player_mode cfg <? 4); reflexivity.
Qed.

Lemma eval_pads_update_multiplexed_cfg cfg data l :
  eval (pads_update_multiplexed cfg data) l
  = (if player_mode cfg >? n_pad_gpios cfg
     then set_player_mode cfg (n_pad_gpios cfg) else cfg).
Proof.
  unfold pads_update_multiplexed.
  rewrite eval_bind.
  2: { apply appends_for. intro. apply appends_pads_update_pad. }
  2: { intros _. destruct (_ >? _).
       - apply appends_bind;
           [apply appends_pads_clear | intros _; apply appends_ret].
       - apply appends_ret. }
  destruct (player_mode cfg >? n_pad_gpios cfg).
  - rewrite eval_bind;
      [reflexivity | apply appends_pads_clear | intros _; apply appends_ret].
  - reflexivity.
Qed.

Lemma same_but_player_mode_refl c : same_but_player_mode c c.
Proof. repeat split. Qed.

Lemma same_but_player_mode_set c m :
  same_but_player_mode c (set_player_mode c m).
Proof. repeat split. Qed.

Lemma same_but_player_mode_trans c1 c2 c3 :
  same_but_player_mode c1 c2 -> same_but_player_mode c2 c3 ->
  same_but_player_mode c1 c3.
Proof.
  intros (A1 & A2 & A3 & A4 & A5) (B1 & B2 & B3 & B4 & B5).
  repeat split; congruence.
Qed.

(** What [pads_dispatch] returns: the configuration it got, with at most
    the player mode changed, to 4 or to the number of data lines. *)
Lemma eval_pads_dispatch_cfg cfg data l :
  let cfg' := eval (pads_dispatch cfg data) l in
  same_but_player_mode cfg cfg'
  /\ (player_mode cfg' = player_mode cfg
      \/ player_mode cfg' = 4
      \/ player_mode cfg' = n_pad_gpios cfg).
Proof.
  cbn zeta. unfold pads_dispatch. destruct (fourscore_active cfg data).
  - rewrite eval_pads_update_fourscore_cfg.
    destruct (player_mode cfg >? 4); [| destruct (player_mode cfg <? 4)];
      (split; [first [apply same_but_player_mode_set
                     | apply same_but_player_mode_refl] | auto]).
  - rewrite eval_pads_update_multiplexed_cfg.
    destruct (player_mode cfg >? n_pad_gpios cfg);
      (split; [first [apply same_but_player_mode_set
                     | apply same_but_player_mode_refl] | auto]).
Qed.

(** What [pads_read] does to the GPIO controller and what it returns. *)
Lemma pads_read_effect (cfg : pads_config) (h : Gpio.hw) :
  let clk := idx (gpio cfg) 0 in
  let latch := idx (gpio cfg) 1 in
  exec (pads_read cfg) h
  = {| Gpio.lev := Gpio.lev h;
       Gpio.reads := (24 + Gpio.reads h)%nat;
       Gpio.trace :=
         Gpio.trace h
         ++ [Gpio.Set_ (Z.lor clk latch); Gpio.Udelay (DELAY * 2);
             Gpio.Clr latch]
         ++ concat (repeat (clock_round clk) 24) |}
  /\ eval (pads_read cfg) h
     = map (fun i => to_uint (Z.lnot (Gpio.lev h (i + Gpio.reads h)%nat)))
           (seq 0 24).
Proof.
  destruct h as [lv rd tr].
  cbv [pads_read eval exec bind ret for_acc BITS_LENGTH BUFFER_SIZE
       Gpio.gpio_set Gpio.gpio_clear Gpio.udelay Gpio.gpio_read_all Gpio.emit
       Gpio.lev Gpio.reads Gpio.trace fst snd repeat set_nth].
  repeat rewrite <- app_assoc.
  split; reflexivity.
Qed.

(** X11.  A poll changes nothing of the configuration but the player mode,
    which it leaves as it is or sets to 4 or to the number of data lines.
    It reads the level register 24 times, and it only adds to the log of
    the input subsystem. *)
Theorem pads_update_frame (cfg : pads_config) (w : world) :
  let cfg' := eval (pads_update cfg) w in
  let w' := exec (pads_update cfg) w in
  same_but_player_mode cfg cfg'
  /\ (player_mode cfg' = player_mode cfg
      \/ player_mode cfg' = 4
      \/ player_mode cfg' = n_pad_gpios cfg)
  /\ Gpio.reads (hw w') = (24 + Gpio.reads (hw w))%nat
  /\ Gpio.lev (hw w') = Gpio.lev (hw w)
  /\ firstn (length (events w)) (events w') = events w.
Proof.
  cbn zeta.
  destruct (pads_update_unfold cfg w) as (He & Hev & Hhw).
  rewrite He, Hev, Hhw.
  destruct (eval_pads_dispatch_cfg cfg (eval (pads_read cfg) (hw w)) [])
    as [Hsame Hpm].
  destruct (pads_read_effect cfg (hw w)) as [Hex _]. rewrite Hex.
  cbn [Gpio.reads Gpio.lev].
  repeat split; try apply Hsame; try exact Hpm.
  rewrite firstn_app, Nat.sub_diag, firstn_O, app_nil_r.
  apply firstn_all.
Qed.

Lemma snescon_timer_runs_S n cfg w :
  eval (snescon_timer_runs (S n) cfg) w
  = eval (snescon_timer_runs n (eval (pads_update cfg) w))
         (exec (pads_update cfg) w)
  /\ exec (snescon_timer_runs (S n) cfg) w
     = exec (snescon_timer_runs n (eval (pads_update cfg) w))
            (exec (pads_update cfg) w).
Proof.
  cbn [snescon_timer_runs]. unfold bind, eval, exec.
  now destruct (pads_update cfg w).
Qed.

(** X12.  Over any number of timer runs the configuration keeps everything
    but the player mode; a player mode that is 0, 4 or the number of data
    lines stays one of the three; the level register is read 24 times per
    run; and what was logged is never taken back. *)
Theorem snescon_timer_runs_invariant (n : nat) (cfg : pads_config) (w : world) :
  let cfg' := eval (snescon_timer_runs n cfg) w in
  let w' := exec (snescon_timer_runs n cfg) w in
  same_but_player_mode cfg cfg'
  /\ (player_mode cfg = 0 \/ player_mode cfg = 4
      \/ player_mode cfg = n_pad_gpios cfg ->
      player_mode cfg' = 0 \/ player_mode cfg' = 4
      \/ player_mode cfg' = n_pad_gpios cfg)
  /\ Gpio.reads (hw w') = (24 * n + Gpio.reads (hw w))%nat
  /\ Gpio.lev (hw w') = Gpio.lev (hw w)
  /\ firstn (length (events w)) (events w') = events w.
Proof.
  revert cfg w. induction n as [|n IH]; intros cfg w; cbn zeta.
  - cbn. repeat split; auto. apply firstn_all.
  - destruct (snescon_timer_runs_S n cfg w) as [-> ->].
    destruct (pads_update_unfold cfg w) as (_ & Hev & _).
    destruct (eval_pads_dispatch_cfg cfg (eval (pads_read cfg) (hw w)) [])
      as [Hsame1 Hpm1].
    destruct (pads_update_unfold cfg w) as (He & _ & Hhw).
    destruct (pads_read_effect cfg (hw w)) as [Hex _].
    rewrite <- He in Hsame1, Hpm1.
    specialize (IH (eval (pads_update cfg) w) (exec (pads_update cfg) w)).
    cbn zeta in IH.
    destruct IH as (Hsame & Hpm & Hreads & Hlev & Hlog).
    pose proof Hsame1 as (_ & _ & _ & Hnpg & _).
    split; [eapply same_but_player_mode_trans; eassumption |].
    split; [| split; [| split]].
    + intros H. rewrite <- Hnpg. apply Hpm. rewrite Hnpg.
      destruct Hpm1 as [E | [E | E]]; rewrite E; tauto.
    + rewrite Hreads, Hhw, Hex. cbn [Gpio.reads]. lia.
    + rewrite Hlev, Hhw, Hex. reflexivity.
    + rewrite Hev in Hlog.
      assert (Hpre := f_equal (firstn (length (events w))) Hlog).
      rewrite firstn_firstn in Hpre.
      rewrite Nat.min_l in Hpre by (rewrite length_app; lia).
      rewrite Hpre. rewrite firstn_app, Nat.sub_diag, firstn_O, app_nil_r.
      apply firstn_all.
Qed.

Lemma snescon_timer_runs_invariant_witness :
  let cfg := cfg_fourscore [2; 3; 4; 7] in
  let w := world_showing [frame_fourscore; frame_idle] in
  (player_mode cfg = 0 \/ player_mode cfg = 4
   \/ player_mode cfg = n_pad_gpios cfg) /\
  player_mode (eval (snescon_timer_runs 2 cfg) w) = 2 /\
  Gpio.reads (hw (exec (snescon_timer_runs 2 cfg) w)) = 48%nat.
Proof.
  intros cfg w.
  assert (H : player_mode cfg = 0 \/ player_mode cfg = 4
              \/ player_mode cfg = n_pad_gpios cfg) by (left; reflexivity).
  destruct (snescon_timer_runs_invariant 2 cfg w) as (_ & Hpm & Hreads & _).
  split; [exact H |]. split; [| exact Hreads].
  specialize (Hpm H). vm_compute. reflexivity.
Defined.

(** ** Where the reports go *)

Lemma length_flat_map_const {A B} (f : A -> list B) (len : nat) (l : list A) :
  (forall a, length (f a) = len) ->
  length (flat_map f l) = (len * length l)%nat.
Proof.
  intro H. induction l as [|a l IH]; cbn [flat_map length].
  - lia.
  - rewrite length_app, H, IH. lia.
Qed.

Lemma to_registered_pad_report cfg data i :
  pad_at cfg i = input_dev i ->
  Forall to_registered (calls (pads_update_pad cfg data i)).
Proof.
  intro Hpad.
  destruct (Z.eq_dec (Z.land (idx (gpio cfg) (i + 2)) (idx data 16)) 1) as [E|E].
  - rewrite pads_update_pad_snes by assumption. rewrite Hpad.
    repeat constructor.
  - rewrite pads_update_pad_nes by assumption. rewrite Hpad.
    repeat constructor.
Qed.

(** X13.  After a start that returns 0, whatever the player mode has become
    since, a poll that takes the plain branch makes exactly 11 input calls
    per data line, every one of them on a registered device, and none to
    clear a pad: after such a start [n_pads - n_pad_gpios] is 0. *)
Theorem plain_poll_after_init (k : kernel) (ids : list Z) (fs : bool)
        (sc : snescon_config) (mode : Z) (data : list Z) :
  snescon_init k (with_params ids fs) = (0, sc) ->
  let cfg := set_player_mode (pads_cfg sc) mode in
  fourscore_active cfg data = false ->
  calls (pads_dispatch cfg data)
  = calls (for_ 0 (Z.to_nat (n_pad_gpios cfg)) (pads_update_pad cfg data))
  /\ length (calls (pads_dispatch cfg data)) = (11 * (length ids - 2))%nat
  /\ Forall to_registered (calls (pads_dispatch cfg data)).
Proof.
  intros Hinit cfg Hfs.
  destruct (snescon_init_shape k ids fs sc Hinit)
    as (Hcnt & _ & _ & Hn & Hg & _ & _ & _ & _ & Hpad & _).
  assert (Hcalls :
    calls (pads_dispatch cfg data)
    = calls (for_ 0 (Z.to_nat (n_pad_gpios cfg)) (pads_update_pad cfg data))).
  { unfold pads_dispatch. rewrite Hfs, calls_pads_update_multiplexed.
    destruct (player_mode cfg >? n_pad_gpios cfg); [| apply app_nil_r].
    subst cfg. cbn [set_player_mode n_pads n_pad_gpios]. rewrite Hn, Hg.
    rewrite Z.sub_diag. cbn. apply app_nil_r. }
  split; [exact Hcalls |]. rewrite Hcalls.
  rewrite calls_for by (intro; apply appends_pads_update_pad).
  subst cfg. cbn [set_player_mode n_pad_gpios]. rewrite Hg. split.
  - rewrite (length_flat_map_const _ 11)
      by (intro; apply length_pads_update_pad).
    rewrite length_seq. lia.
  - apply Forall_flat_map. apply Forall_forall. intros j Hj.
    apply in_seq in Hj. apply to_registered_pad_report.
    rewrite Z.add_0_l. unfold pad_at. cbn [pad].
    apply (Hpad (Z.of_nat j)). lia.
Qed.

Lemma plain_poll_after_init_witness :
  let sc := snd (snescon_init kernel_ok (with_params [2; 3; 4; 7] true)) in
  let cfg := set_player_mode (pads_cfg sc) 4 in
  (snescon_init kernel_ok (with_params [2; 3; 4; 7] true) = (0, sc) /\
   fourscore_active cfg frame_idle = false) /\
  length (calls (pads_dispatch cfg frame_idle)) = 22%nat.
Proof.
  intros sc cfg.
  assert (Hinit : snescon_init kernel_ok (with_params [2; 3; 4; 7] true)
                  = (0, sc)) by reflexivity.
  assert (Hfs : fourscore_active cfg frame_idle = false) by reflexivity.
  destruct (plain_poll_after_init kernel_ok _ _ sc 4 frame_idle Hinit Hfs)
    as (_ & Hlen & _).
  split; [auto | exact Hlen].
Defined.

(** ** The FourScore signature needs two lines *)

Lemma land_absorbed (a b x : Z) :
  Z.land a b = b -> Z.land a x = 0 -> Z.land b x = 0.
Proof.
  intros Hab Hax. rewrite <- Hab, <- Z.land_assoc, (Z.land_comm b x),
    Z.land_assoc, Hax. apply Z.land_0_l.
Qed.

(** X14.  The signature asks for sample 18 set on [gpio[3]] and clear on
    [gpio[2]], and for sample 19 the other way round.  So when the mask of
    one of the two lines is contained in the mask of the other (the same
    pin given twice, or a line that is not configured and has mask 0), no
    frame is taken for a FourScore, whatever the flag says. *)
Theorem fourscore_needs_two_lines (cfg : pads_config) (data : list Z) :
  let g2 := idx (gpio cfg) 2 in
  let g3 := idx (gpio cfg) 3 in
  Z.land g2 g3 = g3 \/ Z.land g2 g3 = g2 ->
  fourscore_connected cfg data = false
  /\ forall flag,
       pads_dispatch (set_fourscore_enabled cfg flag) data
       = pads_update_multiplexed (set_fourscore_enabled cfg flag) data.
Proof.
  intros g2 g3 Hnest.
  assert (Hoff : fourscore_connected cfg data = false).
  { destruct (fourscore_connected cfg data) eqn:E; [| reflexivity].
    exfalso. apply fourscore_connected_signature in E.
    pose proof (E 2 18 (or_introl eq_refl) ltac:(lia)) as H218.
    pose proof (E 3 18 (or_intror eq_refl) ltac:(lia)) as H318.
    pose proof (E 2 19 (or_introl eq_refl) ltac:(lia)) as H219.
    pose proof (E 3 19 (or_intror eq_refl) ltac:(lia)) as H319.
    unfold bit_set, truthy in *. cbn in H218, H318, H219, H319.
    fold g2 in H218, H219. fold g3 in H318, H319.
    apply negb_false_iff, Z.eqb_eq in H218.
    apply negb_false_iff, Z.eqb_eq in H319.
    apply negb_true_iff, Z.eqb_neq in H318.
    apply negb_true_iff, Z.eqb_neq in H219.
    destruct Hnest as [H | H].
    - apply H318. now apply (land_absorbed g2 g3).
    - apply H219. rewrite Z.land_comm in H. now apply (land_absorbed g3 g2). }
  split; [exact Hoff |].
  intro flag. unfold pads_dispatch, fourscore_active.
  replace (fourscore_connected (set_fourscore_enabled cfg flag) data)
    with (fourscore_connected cfg data) by reflexivity.
  rewrite Hoff. now rewrite andb_false_r.
Qed.

Lemma fourscore_needs_two_lines_witness :
  let cfg := cfg_default in
  let three := pads_cfg (snd (snescon_init kernel_ok
                                (with_params [2; 3; 4] false))) in
  Z.land (idx (gpio three) 2) (idx (gpio three) 3) = idx (gpio three) 3 /\
  fourscore_connected three frame_fourscore = false /\
  fourscore_connected cfg frame_fourscore = true.
Proof.
  intros cfg three.
  assert (H : Z.land (idx (gpio three) 2) (idx (gpio three) 3)
              = idx (gpio three) 3) by reflexivity.
  split; [exact H |].
  split; [| reflexivity].
  exact (proj1 (fourscore_needs_two_lines three frame_fourscore
                  (or_introl H))).
Defined.

(** ** Which pad can be read as a SNES gamepad *)

(** X15.  For a pad whose line is pin [id], the report is the SNES one (eight
    buttons, from samples 0 to 3 and 8 to 11) exactly when [id] is 0 and
    bit 0 of sample 16 is set; in every other case, whatever the line reads
    in sample 16, it is the NES one. *)
Theorem snes_report_only_on_gpio0 (cfg : pads_config) (data : list Z)
        (i id : Z) :
  0 <= id <= 31 ->
  idx (gpio cfg) (i + 2) = Gpio.gpio_get_bit id ->
  let dev := pad_at cfg i in
  let g := idx (gpio cfg) (i + 2) in
  calls (pads_update_pad cfg data i)
  = if (id =? 0) && Z.testbit (idx data 16) 0
    then [Key dev BTN_B (Z.land g (idx data 0));
          Key dev BTN_Y (Z.land g (idx data 1));
          Key dev BTN_SELECT (Z.land g (idx data 2));
          Key dev BTN_START (Z.land g (idx data 3));
          Key dev BTN_A (Z.land g (idx data 8));
          Key dev BTN_X (Z.land g (idx data 9));
          Key dev BTN_TL (Z.land g (idx data 10));
          Key dev BTN_TR (Z.land g (idx data 11));
          Abs dev ABS_X (axis_x g data); Abs dev ABS_Y (axis_y g data);
          Sync dev]
    else [Key dev BTN_A (Z.land g (idx data 0));
          Key dev BTN_B (Z.land g (idx data 1));
          Key dev BTN_SELECT (Z.land g (idx data 2));
          Key dev BTN_START (Z.land g (idx data 3));
          Key dev BTN_X 0; Key dev BTN_Y 0; Key dev BTN_TL 0;
          Key dev BTN_TR 0;
          Abs dev ABS_X (axis_x g data); Abs dev ABS_Y (axis_y g data);
          Sync dev].
Proof.
  intros Hid Hg dev g.
  assert (Hland : Z.land (idx (gpio cfg) (i + 2)) (idx data 16)
                  = if Z.testbit (idx data 16) id then 2 ^ id else 0).
  { rewrite Hg, gpio_get_bit_pow2 by assumption. apply land_pow2. lia. }
  destruct (Z.eqb_spec id 0) as [-> | Hne]; cbn [andb].
  - destruct (Z.testbit (idx data 16) 0).
    + apply pads_update_pad_snes. exact Hland.
    + apply pads_update_pad_nes. rewrite Hland. discriminate.
  - apply pads_update_pad_nes. rewrite Hland.
    destruct (Z.testbit (idx data 16) id); [| discriminate].
    assert (2 ^ 1 <= 2 ^ id) by (apply Z.pow_le_mono_r; lia).
    change (2 ^ 1) with 2 in *. lia.
Qed.

Lemma snes_report_only_on_gpio0_witness :
  let cfg := pads_cfg (snd (snescon_init kernel_ok
                              (with_params [2; 3; 0] false))) in
  let data := frame_with [(9%nat, 1); (16%nat, 1)] in
  (0 <= 0 <= 31 /\ idx (gpio cfg) (0 + 2) = Gpio.gpio_get_bit 0) /\
  nth 5 (calls (pads_update_pad cfg data 0)) (Sync NULL)
  = Key (input_dev 0) BTN_X 1.
Proof.
  intros cfg data.
  assert (Hid : 0 <= 0 <= 31) by lia.
  assert (Hg : idx (gpio cfg) (0 + 2) = Gpio.gpio_get_bit 0) by reflexivity.
  split; [auto |].
  rewrite (snes_report_only_on_gpio0 cfg data 0 0 Hid Hg). reflexivity.
Defined.

(** ** What the FourScore branch reports *)

(** X16.  The reports of the FourScore branch for the four players carry
    the buttons A, B, Select and Start only, never X, Y, TL or TR, and axis
    values between -1 and 1; when the player mode is at most 4 these 28
    calls are all the calls of the poll. *)
Theorem fourscore_reports_nes_buttons (cfg : pads_config) (data : list Z) :
  fourscore_active cfg data = true ->
  let reports := firstn 28 (calls (pads_dispatch cfg data)) in
  length reports = 28%nat
  /\ (forall dev b v, In (Key dev b v) reports -> snes_only b = false)
  /\ (forall dev a v, In (Abs dev a v) reports -> -1 <= v <= 1)
  /\ (player_mode cfg <= 4 -> calls (pads_dispatch cfg data) = reports).
Proof.
  intros Hfs reports. subst reports.
  unfold pads_dispatch. rewrite Hfs, calls_pads_update_fourscore.
  unfold fourscore_report.
  cbn [app firstn].
  split; [reflexivity |]. split; [| split].
  - intros dev b v H. cbn [In] in H.
    repeat (destruct H as [H | H]; [inversion H; reflexivity |]).
    contradiction.
  - intros dev a v H. cbn [In] in H.
    repeat (destruct H as [H | H];
            [inversion H; subst; unfold lnot;
             repeat match goal with
                    | |- context [if ?c then _ else _] => destruct c
                    end; lia |]).
    contradiction.
  - intros Hpm. destruct (Z.gtb_spec (player_mode cfg) 4); [lia |].
    reflexivity.
Qed.

Lemma fourscore_reports_nes_buttons_witness :
  let cfg := cfg_fourscore [2; 3; 4; 7; 9; 10] in
  fourscore_active cfg frame_fourscore = true /\
  length (calls (pads_dispatch cfg frame_fourscore)) = 28%nat.
Proof.
  intro cfg.
  assert (Hfs : fourscore_active cfg frame_fourscore = true) by reflexivity.
  destruct (fourscore_reports_nes_buttons cfg frame_fourscore Hfs)
    as (Hlen & _ & _ & Hall).
  split; [exact Hfs |].
  rewrite (Hall ltac:(vm_compute; congruence)). exact Hlen.
Defined.

(** ** Clock and latch during a capture *)

Lemma land_zero_bits (a b : Z) :
  Z.land a b = 0 <->
  forall n, 0 <= n -> Z.testbit a n && Z.testbit b n = false.
Proof.
  split.
  - intros H n Hn. rewrite <- Z.land_spec, H. apply Z.bits_0.
  - intros H. apply Z.bits_inj'. intros n Hn.
    rewrite Z.land_spec, Z.bits_0. now apply H.
Qed.

Lemma pads_read_ops_eq (cfg : pads_config) (h : Gpio.hw) :
  let clk := idx (gpio cfg) 0 in
  let latch := idx (gpio cfg) 1 in
  pads_read_ops cfg h
  = [Gpio.Set_ (Z.lor clk latch); Gpio.Udelay (DELAY * 2); Gpio.Clr latch]
    ++ concat (repeat (clock_round clk) 24).
Proof.
  cbn zeta. unfold pads_read_ops.
  destruct (pads_read_effect cfg h) as [-> _]. cbn [Gpio.trace].
  rewrite skipn_app, Nat.sub_diag, skipn_all. reflexivity.
Qed.

(** Rounds of the clock started with the latch low: every read sees clock
    and latch low, the latch stays low, the clock ends high, and no other
    bit of the output latch moves. *)
Lemma clock_rounds_spec (clk latch : Z) :
  Z.land clk latch = 0 ->
  forall n out,
    Z.land out latch = 0 ->
    let ops := concat (repeat (clock_round clk) n) in
    length (out_at_reads out ops) = n
    /\ Forall (fun o => Z.land o clk = 0 /\ Z.land o latch = 0)
              (out_at_reads out ops)
    /\ Z.land (out_after out ops) latch = 0
    /\ ((0 < n)%nat -> Z.land (out_after out ops) clk = clk)
    /\ forall b, 0 <= b -> Z.testbit clk b = false ->
                 Z.testbit (out_after out ops) b = Z.testbit out b.
Proof.
  intros Hdis. rewrite land_zero_bits in Hdis.
  induction n as [|n IH]; intros out Hout; cbn zeta.
  - cbn. repeat split; auto. intro H. lia.
  - cbn [repeat concat clock_round app out_at_reads out_step out_after
         fold_left].
    set (low := Z.land out (Z.lnot clk)).
    set (high := Z.lor low clk).
    assert (Hlow_clk : Z.land low clk = 0).
    { apply land_zero_bits. intros b Hb. subst low.
      rewrite Z.land_spec, Z.lnot_spec by assumption.
      destruct (Z.testbit out b), (Z.testbit clk b); reflexivity. }
    assert (Hlow_latch : Z.land low latch = 0).
    { apply land_zero_bits. intros b Hb. subst low.
      rewrite land_zero_bits in Hout. specialize (Hout b Hb).
      rewrite Z.land_spec, Z.lnot_spec by assumption.
      destruct (Z.testbit out b), (Z.testbit clk b), (Z.testbit latch b);
        cbn in *; congruence. }
    assert (Hhigh_latch : Z.land high latch = 0).
    { apply land_zero_bits. intros b Hb. subst high.
      rewrite land_zero_bits in Hlow_latch. specialize (Hlow_latch b Hb).
      specialize (Hdis b Hb). rewrite Z.lor_spec.
      destruct (Z.testbit low b), (Z.testbit clk b), (Z.testbit latch b);
        cbn in *; congruence. }
    assert (Hhigh_clk : Z.land high clk = clk).
    { apply Z.bits_inj'. intros b Hb. subst high.
      rewrite Z.land_spec, Z.lor_spec.
      destruct (Z.testbit low b), (Z.testbit clk b); reflexivity. }
    assert (Hhigh_other : forall b, 0 <= b -> Z.testbit clk b = false ->
                                    Z.testbit high b = Z.testbit out b).
    { intros b Hb Hc. subst high low.
      rewrite Z.lor_spec, Z.land_spec, Z.lnot_spec, Hc by assumption.
      destruct (Z.testbit out b); reflexivity. }
    fold (out_after high (concat (repeat (clock_round clk) n))).
    destruct (IH high Hhigh_latch) as (L & F & Hl & Hc & Ho).
    cbn zeta in L, F, Hl, Hc, Ho.
    split; [cbn [length]; now rewrite L |].
    split; [constructor; [split; assumption | exact F] |].
    split; [exact Hl |]. split.
    + intros _. destruct n as [|n]; [exact Hhigh_clk | apply Hc; lia].
    + intros b Hb Hcb. rewrite Ho by assumption. now apply Hhigh_other.
Qed.

Lemma latch_pulse_then (out mask latch d : Z) (rest : list Gpio.op) :
  out_at_reads out ([Gpio.Set_ mask; Gpio.Udelay d; Gpio.Clr latch] ++ rest)
  = out_at_reads (Z.land (Z.lor out mask) (Z.lnot latch)) rest
  /\ out_after out ([Gpio.Set_ mask; Gpio.Udelay d; Gpio.Clr latch] ++ rest)
     = out_after (Z.land (Z.lor out mask) (Z.lnot latch)) rest.
Proof. split; reflexivity. Qed.

(** X17.  With clock and latch on different pins, every one of the 24
    samples of a capture is taken while both the clock and the latch are
    low; the capture leaves the clock high and the latch low, and it moves
    no other bit of the output latch. *)
Theorem pads_read_clock_protocol (cfg : pads_config) (h : Gpio.hw) (out : Z) :
  let clk := idx (gpio cfg) 0 in
  let latch := idx (gpio cfg) 1 in
  Z.land clk latch = 0 ->
  let ops := pads_read_ops cfg h in
  length (out_at_reads out ops) = 24%nat
  /\ Forall (fun o => Z.land o clk = 0 /\ Z.land o latch = 0)
            (out_at_reads out ops)
  /\ Z.land (out_after out ops) clk = clk
  /\ Z.land (out_after out ops) latch = 0
  /\ forall b, 0 <= b -> Z.testbit clk b = false ->
               Z.testbit latch b = false ->
               Z.testbit (out_after out ops) b = Z.testbit out b.
Proof.
  intros clk latch Hdis ops. subst ops.
  rewrite pads_read_ops_eq. fold clk latch.
  destruct (latch_pulse_then out (Z.lor clk latch) latch (DELAY * 2)
              (concat (repeat (clock_round clk) 24))) as [-> ->].
  set (start := Z.land (Z.lor out (Z.lor clk latch)) (Z.lnot latch)).
  assert (Hstart : Z.land start latch = 0).
  { apply land_zero_bits. intros b Hb. subst start.
    rewrite Z.land_spec, Z.lnot_spec by assumption.
    destruct (Z.testbit (Z.lor out (Z.lor clk latch)) b), (Z.testbit latch b);
      reflexivity. }
  destruct (clock_rounds_spec clk latch Hdis 24 start Hstart)
    as (L & F & Hl & Hc & Ho).
  split; [exact L |]. split; [exact F |].
  split; [apply Hc; lia |]. split; [exact Hl |].
  intros b Hb Hcb Hlb. rewrite (Ho b Hb Hcb). subst start.
  rewrite Z.land_spec, Z.lnot_spec, !Z.lor_spec, Hcb, Hlb by assumption.
  destruct (Z.testbit out b); reflexivity.
Qed.

Lemma pads_read_clock_protocol_witness :
  let cfg := cfg_default in
  let h := hw_showing [frame_idle] in
  Z.land (idx (gpio cfg) 0) (idx (gpio cfg) 1) = 0 /\
  Z.land (out_after 0 (pads_read_ops cfg h)) (idx (gpio cfg) 0) = 4 /\
  Z.land (out_after 0 (pads_read_ops cfg h)) (idx (gpio cfg) 1) = 0.
Proof.
  intros cfg h.
  assert (H : Z.land (idx (gpio cfg) 0) (idx (gpio cfg) 1) = 0)
    by reflexivity.
  destruct (pads_read_clock_protocol cfg h 0 H) as (_ & _ & Hc & Hl & _).
  split; [exact H |]. split; [exact Hc | exact Hl].
Defined.

(** ** Function select *)

Lemma testbit_7 (n : Z) : 0 <= n -> Z.testbit 7 n = (n <? 3).
Proof.
  intros Hn. destruct (Z.ltb_spec n 3).
  - assert (n = 0 \/ n = 1 \/ n = 2) as [-> | [-> | ->]] by lia; reflexivity.
  - apply Z.bits_above_log2; [lia |]. change (Z.log2 7) with 2. lia.
Qed.

Lemma testbit_1 (n : Z) : 0 <= n -> Z.testbit 1 n = (n =? 0).
Proof.
  intros Hn. change 1 with (2 ^ 0). rewrite Z.pow2_bits_eqb by lia.
  apply Z.eqb_sym.
Qed.

Lemma testbit_to_uint (x j : Z) :
  0 <= j < 32 -> Z.testbit (to_uint x) j = Z.testbit x j.
Proof.
  intros Hj. unfold to_uint. apply Z.mod_pow2_bits_low. lia.
Qed.

Lemma fsel_bits (m : Mmio.mem) (g n : Z) :
  0 <= g -> 0 <= n ->
  Z.testbit (Mmio.fsel m g) n
  = (n <? 3) && Z.testbit (Mmio.word m (g / 10)) (n + g mod 10 * 3).
Proof.
  intros Hg Hn. unfold Mmio.fsel.
  pose proof (Z.mod_pos_bound g 10 ltac:(lia)).
  rewrite Z.land_spec, Z.shiftr_spec, testbit_7 by lia.
  apply andb_comm.
Qed.

(** The word [INP_GPIO] stores: the old word without the three bits at
    [k]. *)
Lemma inp_word_bits (w k j : Z) :
  0 <= k -> 0 <= j < 32 ->
  Z.testbit (to_uint (Z.land w (to_uint (Z.lnot (Z.shiftl 7 k))))) j
  = Z.testbit w j && negb ((k <=? j) && (j <? k + 3)).
Proof.
  intros Hk Hj.
  rewrite testbit_to_uint, Z.land_spec, testbit_to_uint, Z.lnot_spec,
    Z.shiftl_spec by lia.
  f_equal. f_equal.
  destruct (Z.leb_spec k j).
  - rewrite testbit_7 by lia. cbn [andb].
    destruct (Z.ltb_spec (j - k) 3), (Z.ltb_spec j (k + 3)); try reflexivity;
      lia.
  - cbn [andb]. apply Z.testbit_neg_r. lia.
Qed.

(** The word [OUT_GPIO] stores: the old word with the bit at [k] set. *)
Lemma out_word_bits (w k j : Z) :
  0 <= k -> 0 <= j < 32 ->
  Z.testbit (to_uint (Z.lor w (Z.shiftl 1 k))) j = Z.testbit w j || (j =? k).
Proof.
  intros Hk Hj.
  rewrite testbit_to_uint, Z.lor_spec, Z.shiftl_spec by lia.
  f_equal.
  destruct (Z.eqb_spec j k) as [-> | Hne].
  - now rewrite Z.sub_diag.
  - destruct (Z.lt_ge_cases (j - k) 0).
    + apply Z.testbit_neg_r. lia.
    + rewrite testbit_1 by lia. apply Z.eqb_neq. lia.
Qed.

Lemma word_after_gpio_input (m : Mmio.mem) (g o : Z) :
  Mmio.word (exec (Mmio.gpio_input g) m) o
  = if o =? g / 10
    then to_uint (Z.land (Mmio.word m (g / 10))
                         (to_uint (Z.lnot (Z.shiftl 7 (g mod 10 * 3)))))
    else Mmio.word m o.
Proof. reflexivity. Qed.

Lemma word_after_gpio_output (m : Mmio.mem) (g o : Z) :
  Mmio.word (exec (Mmio.gpio_output g) m) o
  = if o =? g / 10
    then to_uint (Z.lor (Mmio.word m (g / 10)) (Z.shiftl 1 (g mod 10 * 3)))
    else Mmio.word m o.
Proof. reflexivity. Qed.

Lemma fsel_after_gpio_input (m : Mmio.mem) (g g' : Z) :
  0 <= g -> 0 <= g' ->
  Mmio.fsel (exec (Mmio.gpio_input g) m) g'
  = if g' =? g then 0 else Mmio.fsel m g'.
Proof.
  intros Hg Hg'.
  pose proof (Z.mod_pos_bound g 10 ltac:(lia)).
  pose proof (Z.mod_pos_bound g' 10 ltac:(lia)).
  pose proof (Z.div_mod g 10 ltac:(lia)).
  pose proof (Z.div_mod g' 10 ltac:(lia)).
  apply Z.bits_inj'. intros n Hn.
  rewrite fsel_bits, word_after_gpio_input by assumption.
  destruct (Z.ltb_spec n 3); cbn [andb].
  2: { destruct (g' =? g); [now rewrite Z.bits_0 |].
       rewrite fsel_bits by assumption.
       destruct (Z.ltb_spec n 3); [lia | reflexivity]. }
  destruct (Z.eqb_spec g' g) as [-> | Hne].
  - rewrite Z.eqb_refl, inp_word_bits, Z.bits_0 by lia.
    destruct (Z.leb_spec (g mod 10 * 3) (n + g mod 10 * 3)); [| lia].
    destruct (Z.ltb_spec (n + g mod 10 * 3) (g mod 10 * 3 + 3)); [| lia].
    apply andb_false_r.
  - rewrite fsel_bits by assumption.
    destruct (Z.ltb_spec n 3); [| lia]. cbn [andb].
    destruct (Z.eqb_spec (g' / 10) (g / 10)) as [E | E]; [| reflexivity].
    rewrite inp_word_bits, E by lia.
    destruct (Z.leb_spec (g mod 10 * 3) (n + g' mod 10 * 3)),
             (Z.ltb_spec (n + g' mod 10 * 3) (g mod 10 * 3 + 3));
      cbn [andb negb]; try apply andb_true_r.
    exfalso. lia.
Qed.

Lemma fsel_after_gpio_output (m : Mmio.mem) (g g' : Z) :
  0 <= g -> 0 <= g' ->
  Mmio.fsel (exec (Mmio.gpio_output g) m) g'
  = if g' =? g then Z.lor (Mmio.fsel m g) 1 else Mmio.fsel m g'.
Proof.
  intros Hg Hg'.
  pose proof (Z.mod_pos_bound g 10 ltac:(lia)).
  pose proof (Z.mod_pos_bound g' 10 ltac:(lia)).
  pose proof (Z.div_mod g 10 ltac:(lia)).
  pose proof (Z.div_mod g' 10 ltac:(lia)).
  apply Z.bits_inj'. intros n Hn.
  rewrite fsel_bits, word_after_gpio_output by assumption.
  destruct (Z.eqb_spec g' g) as [-> | Hne].
  - rewrite Z.eqb_refl, Z.lor_spec, fsel_bits, testbit_1 by assumption.
    destruct (Z.ltb_spec n 3); cbn [andb].
    + rewrite out_word_bits by lia. f_equal.
      destruct (Z.eqb_spec (n + g mod 10 * 3) (g mod 10 * 3)),
               (Z.eqb_spec n 0); try reflexivity; lia.
    + destruct (Z.eqb_spec n 0); [lia | reflexivity].
  - rewrite fsel_bits by assumption.
    destruct (Z.ltb_spec n 3); cbn [andb]; [| reflexivity].
    destruct (Z.eqb_spec (g' / 10) (g / 10)) as [E | E]; [| reflexivity].
    rewrite out_word_bits, E by lia.
    destruct (Z.eqb_spec (n + g' mod 10 * 3) (g mod 10 * 3));
      [exfalso; lia | apply orb_false_r].
Qed.

(** X18.  For the pins of the table of valid pins: [gpio_input] on pin
    [g] makes the function of pin [g] 0, input; [gpio_output] after it
    makes it 1, output; neither changes the function of any other pin. *)
Theorem gpio_input_then_output (m : Mmio.mem) (g : Z) :
  In g Gpio.all_valid_gpio ->
  let m1 := exec (Mmio.gpio_input g) m in
  let m2 := exec (Mmio.gpio_output g) m1 in
  Mmio.fsel m1 g = 0
  /\ Mmio.fsel m2 g = 1
  /\ forall g', In g' Gpio.all_valid_gpio -> g' <> g ->
                Mmio.fsel m1 g' = Mmio.fsel m g'
                /\ Mmio.fsel m2 g' = Mmio.fsel m g'.
Proof.
  intros Hin m1 m2. subst m1 m2.
  apply in_all_valid_gpio in Hin. assert (Hg : 0 <= g) by lia.
  split; [| split].
  - rewrite fsel_after_gpio_input by assumption. now rewrite Z.eqb_refl.
  - rewrite fsel_after_gpio_output, Z.eqb_refl by assumption.
    rewrite fsel_after_gpio_input by assumption. now rewrite Z.eqb_refl.
  - intros g' Hin' Hne.
    apply in_all_valid_gpio in Hin'. assert (Hg' : 0 <= g') by lia.
    rewrite fsel_after_gpio_output, !fsel_after_gpio_input by assumption.
    destruct (Z.eqb_spec g' g); [contradiction | auto].
Qed.

Lemma gpio_input_then_output_witness :
  let m := {| Mmio.word := fun _ => 4294967295; Mmio.ops := [] |} in
  let m2 := exec (Mmio.gpio_output 17) (exec (Mmio.gpio_input 17) m) in
  In 17 Gpio.all_valid_gpio /\
  Mmio.fsel m 17 = 7 /\ Mmio.fsel m2 17 = 1 /\ Mmio.fsel m2 16 = 7.
Proof.
  intros m m2.
  assert (H : In 17 Gpio.all_valid_gpio) by (apply in_all_valid_gpio; lia).
  assert (H' : In 16 Gpio.all_valid_gpio) by (apply in_all_valid_gpio; lia).
  destruct (gpio_input_then_output m 17 H) as (_ & Hout & Hother).
  split; [exact H |]. split; [reflexivity |]. split; [exact Hout |].
  transitivity (Mmio.fsel m 16);
    [exact (proj2 (Hother 16 H' ltac:(lia))) | reflexivity].
Defined.

(** X19.  [gpio_output] alone, as [pads_setup_gpio] calls it for clock and
    latch, sets the lowest of the three function bits of the pin and keeps
    the other two: a pin of the table becomes an output only if its function
    was 0 or 1 before.  No other pin of the table changes. *)
Theorem gpio_output_sets_one_bit (m : Mmio.mem) (g : Z) :
  In g Gpio.all_valid_gpio ->
  let m' := exec (Mmio.gpio_output g) m in
  Mmio.fsel m' g = Z.lor (Mmio.fsel m g) 1
  /\ (Mmio.fsel m' g = 1 <-> Mmio.fsel m g = 0 \/ Mmio.fsel m g = 1)
  /\ forall g', In g' Gpio.all_valid_gpio -> g' <> g ->
                Mmio.fsel m' g' = Mmio.fsel m g'.
Proof.
  intros Hin m'. subst m'.
  apply in_all_valid_gpio in Hin. assert (Hg : 0 <= g) by lia.
  assert (Hsame : Mmio.fsel (exec (Mmio.gpio_output g) m) g
                  = Z.lor (Mmio.fsel m g) 1).
  { rewrite fsel_after_gpio_output by assumption. now rewrite Z.eqb_refl. }
  split; [exact Hsame |]. split.
  - rewrite Hsame.
    assert (Hrange : 0 <= Mmio.fsel m g < 8).
    { unfold Mmio.fsel. change 7 with (Z.ones 3). rewrite Z.land_ones by lia.
      apply Z.mod_pos_bound. reflexivity. }
    assert (Hcases : Mmio.fsel m g = 0 \/ Mmio.fsel m g = 1
                     \/ Mmio.fsel m g = 2 \/ Mmio.fsel m g = 3
                     \/ Mmio.fsel m g = 4 \/ Mmio.fsel m g = 5
                     \/ Mmio.fsel m g = 6 \/ Mmio.fsel m g = 7) by lia.
    destruct Hcases as [E | [E | [E | [E | [E | [E | [E | E]]]]]]];
      rewrite E; cbn; split; intro H; try discriminate; auto;
      destruct H; discriminate.
  - intros g' Hin' Hne.
    apply in_all_valid_gpio in Hin'. assert (Hg' : 0 <= g') by lia.
    rewrite fsel_after_gpio_output by assumption.
    destruct (Z.eqb_spec g' g); [contradiction | reflexivity].
Qed.

Lemma gpio_output_sets_one_bit_witness :
  let m := {| Mmio.word := fun _ => 4; Mmio.ops := [] |} in
  In 0 Gpio.all_valid_gpio /\ Mmio.fsel m 0 = 4 /\
  Mmio.fsel (exec (Mmio.gpio_output 0) m) 0 = 5.
Proof.
  intro m.
  assert (H : In 0 Gpio.all_valid_gpio) by (apply in_all_valid_gpio; lia).
  destruct (gpio_output_sets_one_bit m 0 H) as (Hlor & _).
  split; [exact H |]. split; [reflexivity | exact Hlor].
Defined.

(** ** Pin set-up *)

Lemma pads_setup_gpio_store_offsets (cfg : pads_config) (m : Mmio.mem) :
  let g i := idx (gpio cfg) i in
  Mmio.store_offsets
    (skipn (length (Mmio.ops m)) (Mmio.ops (exec (pads_setup_gpio cfg) m)))
  = [g 0 / 10; g 1 / 10;
     g 2 / 10; 37; 38; 37; 38;
     g 3 / 10; 37; 38; 37; 38;
     g 4 / 10; 37; 38; 37; 38;
     g 5 / 10].
Proof.
  destruct m as [wd os].
  cbv [pads_setup_gpio for_ bind ret exec Mmio.gpio_output Mmio.gpio_input
       Mmio.OUT_GPIO Mmio.INP_GPIO Mmio.gpio_enable_pull_up Mmio.load
       Mmio.store Mmio.udelay Mmio.ops Mmio.word fst snd].
  repeat rewrite <- app_assoc.
  rewrite skipn_app, Nat.sub_diag, skipn_all.
  reflexivity.
Qed.

Lemma pow2_below_440 (id : Z) : 0 <= id -> (2 ^ id < 440 <-> id <= 8).
Proof.
  intros Hid. split.
  - intros H. destruct (Z.le_gt_cases id 8); [assumption |].
    assert (2 ^ 9 <= 2 ^ id) by (apply Z.pow_le_mono_r; lia).
    change (2 ^ 9) with 512 in *. lia.
  - intros H. assert (2 ^ id <= 2 ^ 8) by (apply Z.pow_le_mono_r; lia).
    change (2 ^ 8) with 256 in *. lia.
Qed.

(** X20.  [pads_setup_gpio] hands the masks in [cfg->gpio[0..5]] to
    [gpio_output] and [gpio_input], which take them for pin numbers: the
    function-select word it stores to for entry [i] is at offset
    [cfg->gpio[i] / 10].  After a start that returns 0 all its stores fall
    within the 44 words that [gpio_init] maps exactly when each of the
    first six configured pins is numbered 8 or less. *)
Theorem pads_setup_gpio_window (k : kernel) (ids : list Z) (fs : bool)
        (sc : snescon_config) (m : Mmio.mem) :
  snescon_init k (with_params ids fs) = (0, sc) ->
  let cfg := pads_cfg sc in
  let offsets :=
    Mmio.store_offsets
      (skipn (length (Mmio.ops m)) (Mmio.ops (exec (pads_setup_gpio cfg) m))) in
  Forall (fun o => 0 <= o < Mmio.MAPPED_WORDS) offsets
  <-> forall i, 0 <= i < Z.min (Z.of_nat (length ids)) 6 ->
                nth (Z.to_nat i) ids 0 mod 256 <= 8.
Proof.
  intros Hinit cfg offsets. subst offsets.
  rewrite pads_setup_gpio_store_offsets. cbn zeta.
  destruct (snescon_init_shape k ids fs sc Hinit)
    as (Hcnt & _ & Hvalid & _ & _ & _ & _ & Hmask & Hzero & _).
  fold cfg in Hmask, Hzero.
  change Mmio.MAPPED_WORDS with 44.
  assert (Hin : forall i, 0 <= i <= 5 ->
            (0 <= idx (gpio cfg) i / 10 < 44
             <-> (i < Z.of_nat (length ids) ->
                  nth (Z.to_nat i) ids 0 mod 256 <= 8))).
  { intros i Hi.
    destruct (Z.lt_ge_cases i (Z.of_nat (length ids))) as [Hlt | Hge].
    - rewrite Hmask by lia.
      specialize (Hvalid i ltac:(lia)).
      pose proof (pow2_below_440 (nth (Z.to_nat i) ids 0 mod 256) ltac:(lia))
        as Hp.
      assert (Hpos : 0 < 2 ^ (nth (Z.to_nat i) ids 0 mod 256))
        by (apply Z.pow_pos_nonneg; lia).
      split.
      + intros Hw _. apply Hp.
        destruct (Z.lt_ge_cases (2 ^ (nth (Z.to_nat i) ids 0 mod 256)) 440)
          as [Hs | Hs]; [assumption |].
        apply (Z.div_le_mono _ _ 10) in Hs; [| lia].
        change (440 / 10) with 44 in Hs. lia.
      + intros Hw. specialize (Hw Hlt). apply Hp in Hw.
        split; [apply Z.div_pos; lia | apply Z.div_lt_upper_bound; lia].
    - rewrite Hzero by lia. cbn. split; [lia | intros _; split; lia]. }
  split.
  - intros H i Hi.
    assert (Hcases : i = 0 \/ i = 1 \/ i = 2 \/ i = 3 \/ i = 4 \/ i = 5)
      by lia.
    repeat match goal with
           | H : Forall _ (_ :: _) |- _ => inversion H; subst; clear H
           end.
    destruct Hcases as [-> | [-> | [-> | [-> | [-> | ->]]]]];
      apply Hin; first [lia | assumption].
  - intros H.
    assert (Hall : forall i, 0 <= i <= 5 -> 0 <= idx (gpio cfg) i / 10 < 44).
    { intros i Hi. apply Hin; [assumption |]. intros Hlt. apply H. lia. }
    repeat constructor; try lia; apply Hall; lia.
Qed.

Lemma pads_setup_gpio_window_witness :
  let sc := snd (snescon_init kernel_ok snescon_config_default) in
  let m := {| Mmio.word := fun _ => 0; Mmio.ops := [] |} in
  snescon_init kernel_ok (with_params [2; 3; 4; 7; 9; 10; 11] false)
  = (0, sc) /\
  ~ Forall (fun o => 0 <= o < Mmio.MAPPED_WORDS)
      (Mmio.store_offsets
         (skipn (length (Mmio.ops m))
                (Mmio.ops (exec (pads_setup_gpio (pads_cfg sc)) m)))).
Proof.
  intros sc m.
  assert (H : snescon_init kernel_ok
                (with_params [2; 3; 4; 7; 9; 10; 11] false) = (0, sc))
    by reflexivity.
  split; [exact H |].
  intro Hall.
  pose proof (proj1 (pads_setup_gpio_window kernel_ok _ _ sc m H) Hall) as Hpins.
  specialize (Hpins 4 ltac:(cbn; lia)). vm_compute in Hpins.
  apply Hpins. reflexivity.
Defined.

(** ** Usage counter and timer *)

Lemma to_int_small (z : Z) : - 2 ^ 31 <= z < 2 ^ 31 -> to_int z = z.
Proof.
  intros H. unfold to_int.
  change (2 ^ 31) with 2147483648 in *. change (2 ^ 32) with 4294967296.
  rewrite Z.mod_small; lia.
Qed.

Lemma count_calls_cons (c x : handle_call) (l : list handle_call) :
  count_calls c (x :: l)
  = (match x, c with
     | Open, Open | Close, Close => 1
     | _, _ => 0
     end) + count_calls c l.
Proof.
  unfold count_calls. cbn [filter].
  destruct x, c; cbn [length]; lia.
Qed.

(** X21.  Start from a state in which the counter is not negative and the
    timer is pending exactly when the counter is positive, as when the
    module is loaded.  After any run of opens and closes in which no close
    comes without an open handle, the counter is the number of open
    handles, and the timer is pending exactly when a handle is open: the
    first open arms it, the last close stops it. *)
Theorem open_close_balance (l : list handle_call) (u : usage) :
  0 <= snescon_usage_cnt u ->
  timer_pending u = (snescon_usage_cnt u >? 0) ->
  never_overclosed (snescon_usage_cnt u) l ->
  snescon_usage_cnt u + Z.of_nat (length l) < 2 ^ 31 ->
  let u' := handle_run u l in
  snescon_usage_cnt u'
  = snescon_usage_cnt u + count_calls Open l - count_calls Close l
  /\ 0 <= snescon_usage_cnt u'
  /\ timer_pending u' = (snescon_usage_cnt u' >? 0).
Proof.
  revert u. induction l as [|c l IH]; intros u Hcnt Hpend Hbal Hlen; cbn zeta.
  - cbn. repeat split; [lia | assumption | assumption].
  - unfold handle_run. cbn [fold_left]. fold (handle_run (handle_step u c) l).
    rewrite !count_calls_cons. cbn [length] in Hlen.
    change (2 ^ 31) with 2147483648 in Hlen.
    destruct c; cbn [never_overclosed] in Hbal.
    + assert (Hc : snescon_usage_cnt (handle_step u Open)
                   = snescon_usage_cnt u + 1).
      { cbn [handle_step]. unfold snescon_open. cbn [Z.eqb negb].
        rewrite to_int_small
          by (change (2 ^ 31) with 2147483648; lia).
        now destruct (snescon_usage_cnt u + 1 >? 0). }
      assert (Hp : timer_pending (handle_step u Open)
                   = (snescon_usage_cnt (handle_step u Open) >? 0)).
      { rewrite Hc. cbn [handle_step]. unfold snescon_open. cbn [Z.eqb negb].
        rewrite to_int_small
          by (change (2 ^ 31) with 2147483648; lia).
        destruct (Z.gtb_spec (snescon_usage_cnt u + 1) 0); [reflexivity | lia]. }
      destruct (IH (handle_step u Open)) as (E & Hpos & Hpen).
      * rewrite Hc. lia.
      * exact Hp.
      * now rewrite Hc.
      * rewrite Hc. change (2 ^ 31) with 2147483648. lia.
      * rewrite E in Hpos, Hpen. rewrite E. rewrite Hc in Hpos, Hpen |- *.
        split; [lia |]. split; [lia |]. rewrite Hpen. f_equal; lia.
    + destruct Hbal as [Hopen Hbal].
      assert (Hc : snescon_usage_cnt (handle_step u Close)
                   = snescon_usage_cnt u - 1).
      { cbn [handle_step]. unfold snescon_close.
        rewrite to_int_small
          by (change (2 ^ 31) with 2147483648; lia).
        now destruct (snescon_usage_cnt u - 1 <=? 0). }
      assert (Hp : timer_pending (handle_step u Close)
                   = (snescon_usage_cnt (handle_step u Close) >? 0)).
      { rewrite Hc. cbn [handle_step]. unfold snescon_close.
        rewrite to_int_small
          by (change (2 ^ 31) with 2147483648; lia).
        destruct (Z.leb_spec (snescon_usage_cnt u - 1) 0),
                 (Z.gtb_spec (snescon_usage_cnt u - 1) 0);
          cbn [timer_pending]; try reflexivity; try lia.
        rewrite Hpend. destruct (Z.gtb_spec (snescon_usage_cnt u) 0);
          [reflexivity | lia]. }
      destruct (IH (handle_step u Close)) as (E & Hpos & Hpen).
      * rewrite Hc. lia.
      * exact Hp.
      * now rewrite Hc.
      * rewrite Hc. change (2 ^ 31) with 2147483648. lia.
      * rewrite E in Hpos, Hpen. rewrite E. rewrite Hc in Hpos, Hpen |- *.
        split; [lia |]. split; [lia |]. rewrite Hpen. f_equal; lia.
Qed.

Lemma open_close_balance_witness :
  let l := [Open; Open; Close; Open; Close; Close] in
  (0 <= snescon_usage_cnt usage_init /\
   timer_pending usage_init = (snescon_usage_cnt usage_init >? 0) /\
   never_overclosed (snescon_usage_cnt usage_init) l /\
   snescon_usage_cnt usage_init + Z.of_nat (length l) < 2 ^ 31) /\
  snescon_usage_cnt (handle_run usage_init l) = 0 /\
  timer_pending (handle_run usage_init l) = false.
Proof.
  intro l.
  assert (H1 : 0 <= snescon_usage_cnt usage_init) by (cbn; lia).
  assert (H2 : timer_pending usage_init
               = (snescon_usage_cnt usage_init >? 0)) by reflexivity.
  assert (H3 : never_overclosed (snescon_usage_cnt usage_init) l)
    by (cbn; repeat split; lia).
  assert (H4 : snescon_usage_cnt usage_init + Z.of_nat (length l) < 2 ^ 31)
    by reflexivity.
  destruct (open_close_balance l usage_init H1 H2 H3 H4) as (Hc & _ & Hp).
  split; [auto |]. split; [exact Hc | exact Hp].
Defined.

(** X22.  A close without an open handle takes the counter to -1 and stops
    the timer, and the open that follows takes the counter back to 0
    without arming the timer: that handle is open and the pads are not
    polled. *)
Theorem close_before_open_stops_polling (u : usage) :
  snescon_usage_cnt u = 0 ->
  let u1 := snescon_close u in
  let u2 := snd (snescon_open 0 u1) in
  snescon_usage_cnt u1 = -1
  /\ fst (snescon_open 0 u1) = 0
  /\ snescon_usage_cnt u2 = 0
  /\ timer_pending u2 = false
  /\ timer_ops u2 = timer_ops u ++ [Del_timer_sync].
Proof.
  intros H. unfold snescon_close, snescon_open. rewrite H. cbn.
  repeat split.
Qed.

Lemma close_before_open_stops_polling_witness :
  snescon_usage_cnt usage_init = 0 /\
  timer_pending (handle_run usage_init [Close; Open]) = false.
Proof.
  assert (H : snescon_usage_cnt usage_init = 0) by reflexivity.
  destruct (close_before_open_stops_polling usage_init H)
    as (_ & _ & _ & Hp & _).
  split; [exact H | exact Hp].
Defined.

(** ** [pads_clear] after a start *)

Lemma same_but_player_mode_eq (c c' : pads_config) :
  same_but_player_mode c c' -> c' = set_player_mode c (player_mode c').
Proof.
  destruct c, c'. unfold same_but_player_mode, set_player_mode. cbn.
  intros (-> & -> & -> & -> & ->). reflexivity.
Qed.

(** A player mode of at most 4 stays at most 4 over any number of timer
    runs, and the rest of the configuration stays as it is. *)
Lemma snescon_timer_runs_at_most_4 (n : nat) :
  forall cfg w,
    player_mode cfg <= 4 ->
    same_but_player_mode cfg (eval (snescon_timer_runs n cfg) w)
    /\ player_mode (eval (snescon_timer_runs n cfg) w) <= 4.
Proof.
  induction n as [|n IH]; intros cfg w Hpm.
  - cbn. split; [apply same_but_player_mode_refl | assumption].
  - destruct (snescon_timer_runs_S n cfg w) as [-> _].
    destruct (pads_update_unfold cfg w) as (He & _ & _).
    set (data := eval (pads_read cfg) (hw w)) in He.
    assert (H1 : same_but_player_mode cfg (eval (pads_update cfg) w)
                 /\ player_mode (eval (pads_update cfg) w) <= 4).
    { rewrite He. split; [apply eval_pads_dispatch_cfg |].
      unfold pads_dispatch. destruct (fourscore_active cfg data).
      - destruct (eval_pads_update_fourscore cfg data []) as [-> _]. lia.
      - destruct (eval_pads_update_multiplexed cfg data []) as [-> _].
        destruct (player_mode cfg >? n_pad_gpios cfg) eqn:E; [| assumption].
        apply Z.gtb_lt in E. lia. }
    destruct H1 as [Hs1 Hp1].
    destruct (IH (eval (pads_update cfg) w) (exec (pads_update cfg) w) Hp1)
      as [Hs Hp].
    split; [eapply same_but_player_mode_trans; eassumption | exact Hp].
Qed.

(** X23.  After a start that returns 0, however many times the timer has
    run, a poll never sends the all-zero report of [pads_clear]: the player
    mode never exceeds 4, so the FourScore branch has nothing to clear, and
    the plain branch clears [n_pads - n_pad_gpios] pads, which is none.
    The input calls of the poll are the four FourScore reports, or one
    report per data line. *)
Theorem pads_clear_never_reports (k : kernel) (ids : list Z) (fs : bool)
        (sc : snescon_config) (n : nat) (w : world) (data : list Z) :
  snescon_init k (with_params ids fs) = (0, sc) ->
  let cfg := eval (snescon_timer_runs n (pads_cfg sc)) w in
  player_mode cfg <= 4
  /\ calls (pads_dispatch cfg data)
     = if fourscore_active cfg data
       then fourscore_report (pad_at cfg 0) (idx (gpio cfg) 2) data 0
            ++ fourscore_report (pad_at cfg 1) (idx (gpio cfg) 3) data 0
            ++ fourscore_report (pad_at cfg 2) (idx (gpio cfg) 2) data 8
            ++ fourscore_report (pad_at cfg 3) (idx (gpio cfg) 3) data 8
       else calls (for_ 0 (Z.to_nat (n_pad_gpios cfg))
                        (pads_update_pad cfg data)).
Proof.
  intros Hinit cfg.
  destruct (snescon_init_shape k ids fs sc Hinit)
    as (_ & _ & _ & Hn & Hg & Hp0 & _).
  destruct (snescon_timer_runs_at_most_4 n (pads_cfg sc) w ltac:(lia))
    as [Hsame Hpm].
  fold cfg in Hsame, Hpm. split; [exact Hpm |].
  destruct Hsame as (_ & _ & Hn' & Hg' & _).
  unfold pads_dispatch. destruct (fourscore_active cfg data).
  - rewrite calls_pads_update_fourscore.
    destruct (Z.gtb_spec (player_mode cfg) 4); [lia |].
    now rewrite !app_nil_r.
  - rewrite calls_pads_update_multiplexed.
    destruct (player_mode cfg >? n_pad_gpios cfg); [| apply app_nil_r].
    rewrite Hn', Hg', Hn, Hg, Z.sub_diag. cbn. apply app_nil_r.
Qed.

Lemma pads_clear_never_reports_witness :
  let sc := snd (snescon_init kernel_ok (with_params [2; 3; 4; 7] true)) in
  let w := world_showing [frame_fourscore] in
  let cfg := eval (snescon_timer_runs 1 (pads_cfg sc)) w in
  snescon_init kernel_ok (with_params [2; 3; 4; 7] true) = (0, sc) /\
  player_mode cfg = 4 /\
  length (calls (pads_dispatch cfg frame_idle)) = 22%nat.
Proof.
  intros sc w cfg.
  assert (Hinit : snescon_init kernel_ok (with_params [2; 3; 4; 7] true)
                  = (0, sc)) by reflexivity.
  destruct (pads_clear_never_reports kernel_ok _ _ sc 1 w frame_idle Hinit)
    as [_ Hcalls].
  split; [exact Hinit |]. split; [reflexivity |].
  fold cfg in Hcalls. rewrite Hcalls. reflexivity.
Defined.
